(** * ADD/CVD analysis: a shallow embedding of the aggregation scripts

    The repository holds three pandas scripts over one spreadsheet of
    trade-remedy cases:

    - [prod_analysis.py]: [clean_and_split], [get_top_partners], [main];
    - [add_cvd_recepient_map.py]: [get_world_with_data_trading_partners];
    - [add_cvd_world_map.py]: [get_world_with_data].

    Python objects held in table cells are embedded as the type [value];
    a [DataFrame] is stored column-wise, as pandas stores it; a function
    that may raise returns a [result]; a function that mutates the frame
    it is given returns the frame as it is after the call.

    Scope of the embedding.  A Python [str] is a sequence of code points
    below 256 (Rocq's [string]).  Columns are of object dtype, as pandas
    reads a column that holds text, and the missing cells of a column are one
    and the same [nan] object, as pandas stores them; on such a column the
    [.str] accessor is refused when the present cells are all numbers
    ([str_accessor]).  A cell of a geometry column holds a geometry.  A pattern
    handed to [Series.str.contains] is searched as a regular expression
    by pandas; the embedding searches it literally, which is the same
    search for a pattern without regular-expression metacharacters
    ([literal_pattern]). *)

From Stdlib Require Import List String Ascii ZArith Lia Bool Arith.
From Stdlib Require Import Permutation DecimalString.
Import ListNotations.

Local Open Scope string_scope.
Local Open Scope list_scope.

(** ** Python values and exceptions *)

(** The objects found in the cells of the tables: [str], [int] (an
    integer-valued [float] of a count column is identified with its integer),
    the float [nan] pandas uses for an empty cell, [None], and a geometry of
    the map, identified by its well-known text. *)
Inductive value : Type :=
| VStr (s : string)
| VInt (z : Z)
| VNaN
| VNone
| VGeom (wkt : string).

Coercion VStr : string >-> value.

(** [KeyErrorNoneOf keys] is the [KeyError] of a lookup by a list of labels
    none of which is a column: its message names the labels. *)
Inductive exn : Type :=
| KeyError (key : value)
| KeyErrorNoneOf (keys : list value)
| ValueError (msg : string)
| AttributeError (msg : string).

Inductive result (A : Type) : Type :=
| Ok (a : A)
| Raise (e : exn).

Arguments Ok {A} a.
Arguments Raise {A} e.

Definition bind {A B : Type} (m : result A) (f : A -> result B) : result B :=
  match m with
  | Ok a => f a
  | Raise e => Raise e
  end.

Notation "x <- m ;; k" := (bind m (fun x => k))
  (at level 61, m at next level, right associativity).

Definition value_eq_dec (a b : value) : {a = b} + {a <> b}.
Proof.
  decide equality; auto using string_dec, Z.eq_dec.
Defined.

Definition pair_eq_dec (a b : value * value) : {a = b} + {a <> b}.
Proof.
  decide equality; apply value_eq_dec.
Defined.

Definition value_eqb (a b : value) : bool :=
  if value_eq_dec a b then true else false.

(** [pandas.isna] on a scalar. *)
Definition isna (v : value) : bool :=
  match v with
  | VNaN | VNone => true
  | _ => false
  end.

(** [str(item)]. *)
Definition py_str (v : value) : string :=
  match v with
  | VStr s => s
  | VInt z => NilZero.string_of_int (Z.to_int z)
  | VNaN => "nan"
  | VNone => "None"
  | VGeom wkt => wkt
  end.

(** ** String methods *)

(** [str.isspace] on one code point below 256. *)
Definition is_space (c : ascii) : bool :=
  let n := nat_of_ascii c in
  (((9 <=? n) && (n <=? 13)) || ((28 <=? n) && (n <=? 32))
   || (n =? 133) || (n =? 160))%nat.

Fixpoint lstrip (s : string) : string :=
  match s with
  | EmptyString => EmptyString
  | String c s' => if is_space c then lstrip s' else s
  end.

Fixpoint rstrip (s : string) : string :=
  match s with
  | EmptyString => EmptyString
  | String c s' =>
      match rstrip s' with
      | EmptyString => if is_space c then EmptyString else String c EmptyString
      | r => String c r
      end
  end.

(** [s.strip()]. *)
Definition strip (s : string) : string := rstrip (lstrip s).

(** [s.split(sep)] for a non-empty [sep]: the pieces between the leftmost
    non-overlapping occurrences of [sep]; [skip] counts the characters of a
    matched separator still to be passed over. *)
Fixpoint split_from (sep s : string) (skip : nat) : list string :=
  match s with
  | EmptyString => [EmptyString]
  | String c s' =>
      match skip with
      | S k => split_from sep s' k
      | O =>
          if prefix sep s
          then EmptyString :: split_from sep s' (String.length sep - 1)
          else match split_from sep s' 0 with
               | h :: t => String c h :: t
               | [] => [String c EmptyString]
               end
      end
  end.

Definition split (sep s : string) : list string := split_from sep s 0.

(** Literal search of [pat] in [s]: [pat in s]. *)
Fixpoint str_find (pat s : string) : bool :=
  prefix pat s ||
  match s with
  | EmptyString => false
  | String _ s' => str_find pat s'
  end.

Definition is_metachar (c : ascii) : bool :=
  existsb (Ascii.eqb c)
    (list_ascii_of_string ".^$*+?{}[]\|()").

(** A pattern that [re.search] reads as itself. *)
Fixpoint literal_pattern (pat : string) : bool :=
  match pat with
  | EmptyString => true
  | String c p => negb (is_metachar c) && literal_pattern p
  end.

(** ** prod_analysis.py: clean_and_split *)

Definition clean_and_split (data_column : list value) : list string :=
  let split_items := map (fun item => split ", " (py_str item)) data_column in
  let flattened_items :=
    flat_map (fun sublist => map strip sublist) split_items in
  flattened_items.

(** ** collections.Counter *)

Section Counter.
Context {K : Type} (eqb : K -> K -> bool).

(** [self[elem] = self.get(elem, 0) + 1]: a key already present keeps its
    place in the dict, a new key goes to the end. *)
Fixpoint counter_incr (elem : K) (c : list (K * Z)) : list (K * Z) :=
  match c with
  | [] => [(elem, 1%Z)]
  | (k, n) :: c' =>
      if eqb elem k then (k, (n + 1)%Z) :: c'
      else (k, n) :: counter_incr elem c'
  end.

(** [Counter(iterable)]: the items, in insertion order. *)
Definition Counter (iterable : list K) : list (K * Z) :=
  fold_left (fun c elem => counter_incr elem c) iterable [].

(** One step of a stable sort by count, largest first: [x] stood before
    every entry of [l], so it goes before the entries of equal count. *)
Fixpoint insert_desc (x : K * Z) (l : list (K * Z)) : list (K * Z) :=
  match l with
  | [] => [x]
  | y :: l' =>
      if (snd x <? snd y)%Z then y :: insert_desc x l' else x :: l
  end.

(** [sorted(items, key=itemgetter(1), reverse=True)]. *)
Definition sorted_desc (items : list (K * Z)) : list (K * Z) :=
  fold_right insert_desc [] items.

(** [Counter.most_common(n)]: the whole sorted list for [None]; otherwise
    [heapq.nlargest(n, items, key=itemgetter(1))], which is
    [sorted(items, key=itemgetter(1), reverse=True)[:n]] for a positive [n]
    and the empty list for any other [n]. *)
Definition most_common (n : option Z) (c : list (K * Z)) : list (K * Z) :=
  match n with
  | None => sorted_desc c
  | Some n => firstn (Z.to_nat n) (sorted_desc c)
  end.

Definition sum_counts (c : list (K * Z)) : Z :=
  fold_right (fun e acc => (snd e + acc)%Z) 0%Z c.
End Counter.

Arguments sum_counts {K} c.

(** Position of the first occurrence of [k] in [l] ([length l] when absent). *)
Fixpoint first_index (k : value) (l : list value) : nat :=
  match l with
  | [] => 0
  | x :: l' => if value_eqb k x then 0 else S (first_index k l')
  end.

(** ** pandas.DataFrame *)

(** A frame is its row labels and its labelled columns, in order.  In a frame
    pandas builds, every column is as long as the index ([wf_frame]). *)
Record DataFrame : Type := mkDataFrame {
  df_index : list value;
  df_columns : list (value * list value)
}.

Definition nrows (df : DataFrame) : nat := List.length (df_index df).

Definition labels (df : DataFrame) : list value := map fst (df_columns df).

Definition wf_frame (df : DataFrame) : Prop :=
  Forall (fun c => List.length (snd c) = nrows df) (df_columns df).

Definition RangeIndex (n : nat) : list value :=
  map (fun i => VInt (Z.of_nat i)) (seq 0 n).

(** [df[key]]. *)
Definition getitem (df : DataFrame) (key : value) : result (list value) :=
  match find (fun c => value_eqb (fst c) key) (df_columns df) with
  | Some c => Ok (snd c)
  | None => Raise (KeyError key)
  end.

(** [df[key] = column], in place: an existing column is replaced where it
    stands, a new one is added last. *)
Fixpoint set_column (key : value) (column : list value)
    (cols : list (value * list value)) : list (value * list value) :=
  match cols with
  | [] => [(key, column)]
  | c :: cols' =>
      if value_eqb (fst c) key then (key, column) :: cols'
      else c :: set_column key column cols'
  end.

Definition setitem (df : DataFrame) (key : value) (column : list value)
    : DataFrame :=
  {| df_index := df_index df;
     df_columns := set_column key column (df_columns df) |}.

Fixpoint mask_select {A : Type} (mask : list bool) (l : list A) : list A :=
  match mask, l with
  | b :: mask', x :: l' =>
      if b then x :: mask_select mask' l' else mask_select mask' l'
  | _, _ => []
  end.

(** [df[mask]] for a boolean mask: a new frame with the rows where the mask
    holds. *)
Definition getitem_mask (df : DataFrame) (mask : list bool) : DataFrame :=
  {| df_index := mask_select mask (df_index df);
     df_columns :=
       map (fun c => (fst c, mask_select mask (snd c))) (df_columns df) |}.

(** One element of [Series.str.contains(pat)]: missing ([None] here) for a
    cell that is not a [str]. *)
Definition str_contains (pat : string) (v : value) : option bool :=
  match v with
  | VStr s => Some (str_find pat s)
  | _ => None
  end.

Definition is_number (v : value) : bool :=
  match v with
  | VInt _ => true
  | _ => false
  end.

(** [series.str]: pandas infers the kind of the present cells of the column
    and refuses the accessor when there are some and they are all numbers. *)
Definition str_accessor (col : list value) : result (list value) :=
  match filter (fun v => negb (isna v)) col with
  | [] => Ok col
  | present =>
      if forallb is_number present
      then Raise (AttributeError
                    "Can only use .str accessor with string values!")
      else Ok col
  end.

(** The mask of [contains] once the accessor is granted, missing results
    filled with [False]. *)
Definition contains_mask (pat : string) (col : list value) : list bool :=
  map (fun v => match str_contains pat v with
                | Some b => b
                | None => false
                end) col.

(** [series.str.contains(pat, na=False)]. *)
Definition str_contains_na_false (pat : string) (col : list value)
    : result (list bool) :=
  texts <- str_accessor col ;;
  Ok (contains_mask pat texts).

(** A mask with a missing element cannot index a frame. *)
Fixpoint bool_mask (m : list (option bool)) : result (list bool) :=
  match m with
  | [] => Ok []
  | Some b :: m' => mask <- bool_mask m' ;; Ok (b :: mask)
  | None :: _ =>
      Raise (ValueError
               "Cannot mask with non-boolean array containing NA / NaN values")
  end.

(** [df.fillna(0, inplace=True)] on a frame the function itself built: every
    missing cell of every column becomes 0. *)
Definition fill0 (v : value) : value :=
  if isna v then VInt 0 else v.

Definition fillna0 (df : DataFrame) : DataFrame :=
  {| df_index := df_index df;
     df_columns := map (fun c => (fst c, map fill0 (snd c))) (df_columns df) |}.

(** Sum of a count column. *)
Definition column_sum (col : list value) : Z :=
  fold_right (fun v acc => match v with
                           | VInt z => (z + acc)%Z
                           | _ => acc
                           end) 0%Z col.

(** ** groupby *)

(** Order of the group keys: numbers before strings, each in its own order. *)
Definition value_leb (a b : value) : bool :=
  match a, b with
  | VInt x, VInt y => (x <=? y)%Z
  | VInt _, _ => true
  | VStr _, VInt _ => false
  | VStr x, VStr y => String.leb x y
  | VStr _, _ => true
  | VGeom x, VGeom y => String.leb x y
  | VGeom _, (VInt _ | VStr _) => false
  | VGeom _, _ => true
  | _, (VInt _ | VStr _ | VGeom _) => false
  | _, _ => true
  end.

Definition pair_leb (a b : value * value) : bool :=
  if value_eq_dec (fst a) (fst b) then value_leb (snd a) (snd b)
  else value_leb (fst a) (fst b).

Section Sort.
Context {A : Type} (leb : A -> A -> bool).

Fixpoint insert_sorted (x : A) (l : list A) : list A :=
  match l with
  | [] => [x]
  | y :: l' => if leb x y then x :: l else y :: insert_sorted x l'
  end.

Definition sort (l : list A) : list A := fold_right insert_sorted [] l.
End Sort.

(** [df.groupby(key).size()]: rows with a missing key are dropped
    ([dropna=True]), the groups come in key order ([sort=True]). *)
Definition groupby_size (keys : list value) : list (value * Z) :=
  let valid := filter (fun k => negb (isna k)) keys in
  map (fun k => (k, Z.of_nat (count_occ value_eq_dec valid k)))
      (sort value_leb (nodup value_eq_dec valid)).

(** [df.groupby([key1, key2]).size()]: a row is dropped when either key is
    missing. *)
Definition groupby2_size (keys1 keys2 : list value)
    : list ((value * value) * Z) :=
  let valid :=
    filter (fun p => negb (isna (fst p)) && negb (isna (snd p)))
           (combine keys1 keys2) in
  map (fun p => (p, Z.of_nat (count_occ pair_eq_dec valid p)))
      (sort pair_leb (nodup pair_eq_dec valid)).

Definition lookup_size (p : value * value) (sizes : list ((value * value) * Z))
    : option Z :=
  match find (fun e => if pair_eq_dec (fst e) p then true else false) sizes with
  | Some e => Some (snd e)
  | None => None
  end.

(** [sizes.unstack(fill_value=fill_value)]: the first key labels the rows, the
    second the columns; a pair without a group gets [fill_value]. *)
Definition unstack (fill_value : Z) (sizes : list ((value * value) * Z))
    : DataFrame :=
  let idx := sort value_leb (nodup value_eq_dec (map (fun e => fst (fst e)) sizes)) in
  let cols := sort value_leb (nodup value_eq_dec (map (fun e => snd (fst e)) sizes)) in
  {| df_index := idx;
     df_columns :=
       map (fun c =>
              (c, map (fun r => match lookup_size (r, c) sizes with
                                | Some n => VInt n
                                | None => VInt fill_value
                                end) idx)) cols |}.

(** [sizes.reset_index(name=name)] for sizes grouped by the column [key]. *)
Definition reset_index (key name : value) (sizes : list (value * Z))
    : DataFrame :=
  {| df_index := RangeIndex (List.length sizes);
     df_columns := [(key, map fst sizes);
                    (name, map (fun e => VInt (snd e)) sizes)] |}.

(** ** DataFrame.merge(how='left') *)

(** Positions of [k] among [keys], counted from [i]. *)
Fixpoint positions (k : value) (keys : list value) (i : nat) : list nat :=
  match keys with
  | [] => []
  | x :: keys' =>
      if value_eqb k x then i :: positions k keys' (S i)
      else positions k keys' (S i)
  end.

(** The join indexers: for every left row, in order, one pair per matching
    right row, or one pair without a right row when nothing matches. *)
Fixpoint left_join_from (i : nat) (left_keys right_keys : list value)
    : list (nat * option nat) :=
  match left_keys with
  | [] => []
  | k :: left_keys' =>
      match positions k right_keys 0 with
      | [] => [(i, None)]
      | js => map (fun j => (i, Some j)) js
      end ++ left_join_from (S i) left_keys' right_keys
  end.

Definition left_join_indexers (left_keys right_keys : list value)
    : list (nat * option nat) :=
  left_join_from 0 left_keys right_keys.

Definition take_left (ix : list (nat * option nat)) (col : list value)
    : list value :=
  map (fun p => nth (fst p) col VNaN) ix.

Definition take_right (ix : list (nat * option nat)) (col : list value)
    : list value :=
  map (fun p => match snd p with
                | Some j => nth j col VNaN
                | None => VNaN
                end) ix.

Definition has_label (df : DataFrame) (l : value) : bool :=
  existsb (value_eqb l) (labels df).

(** A label found on both sides gets the side's suffix. *)
Definition suffixed (other : DataFrame) (suffix : string) (l : value) : value :=
  if has_label other l then VStr (py_str l ++ suffix) else l.

(** [left.merge(right, how='left', left_on=.., right_on=..)], the keys already
    looked up: the left columns then the right columns, over a fresh index. *)
Definition merge_left (left right : DataFrame)
    (left_keys right_keys : list value) : DataFrame :=
  let ix := left_join_indexers left_keys right_keys in
  {| df_index := RangeIndex (List.length ix);
     df_columns :=
       map (fun c => (suffixed right "_x" (fst c), take_left ix (snd c)))
           (df_columns left)
       ++ map (fun c => (suffixed left "_y" (fst c), take_right ix (snd c)))
              (df_columns right) |}.

(** ** prod_analysis.py: get_top_partners and main *)

(** [top_partners[chapter] = ranking]. *)
Fixpoint dict_set {V : Type} (key : string) (v : V) (d : list (string * V))
    : list (string * V) :=
  match d with
  | [] => [(key, v)]
  | (k, w) :: d' =>
      if String.eqb k key then (k, v) :: d' else (k, w) :: dict_set key v d'
  end.

(** Lines 39-40, up to the [Counter]: the trading partners of the rows kept
    for [chapter].  The chapters are [str] tokens, on which [str(chapter)] is
    the identity. *)
Definition chapter_partners (data : DataFrame) (chapter : string)
    : result (list value) :=
  product_chapters <- getitem data "Product chapters" ;;
  mask <- str_contains_na_false chapter product_chapters ;;
  let filtered_data := getitem_mask data mask in
  getitem filtered_data "Trading partners".

Fixpoint get_top_partners_loop (data : DataFrame) (chapters : list string)
    (top_n : Z) (top_partners : list (string * list (value * Z)))
    : result (list (string * list (value * Z))) :=
  match chapters with
  | [] => Ok top_partners
  | chapter :: chapters' =>
      partners <- chapter_partners data chapter ;;
      let partners_count := Counter value_eqb partners in
      get_top_partners_loop data chapters' top_n
        (dict_set chapter (most_common (Some top_n) partners_count)
                  top_partners)
  end.

Definition get_top_partners (data : DataFrame) (chapters : list string)
    (top_n : Z) : result (list (string * list (value * Z))) :=
  get_top_partners_loop data chapters top_n [].

(** [top_n=3]. *)
Definition get_top_partners_default (data : DataFrame)
    (chapters : list string) : result (list (string * list (value * Z))) :=
  get_top_partners data chapters 3.

(** Lines 56-57: [data[data['Type'].str.contains(pat)]], without [na=]. *)
Definition type_subset (data : DataFrame) (pat : string) : result DataFrame :=
  type <- getitem data "Type" ;;
  texts <- str_accessor type ;;
  mask <- bool_mask (map (str_contains pat) texts) ;;
  Ok (getitem_mask data mask).

(** Lines 60-63: [Counter(clean_and_split(subset[column]))]. *)
Definition token_count (subset : DataFrame) (column : string)
    : result (list (string * Z)) :=
  col <- getitem subset column ;;
  Ok (Counter String.eqb (clean_and_split col)).

(** What [main] computes from the loaded sheet before it builds the output
    sheets (lines 56-69). *)
Record analysis : Type := mkAnalysis {
  anti_dumping_chapters_count : list (string * Z);
  anti_dumping_products_count : list (string * Z);
  countervailing_chapters_count : list (string * Z);
  countervailing_products_count : list (string * Z);
  top_partners_anti_dumping : list (string * list (value * Z));
  top_partners_countervailing : list (string * list (value * Z))
}.

Definition main_analysis (data : DataFrame) : result analysis :=
  anti_dumping_data <- type_subset data "Anti-dumping" ;;
  countervailing_data <- type_subset data "Countervailing" ;;
  ad_chapters <- token_count anti_dumping_data "Product chapters" ;;
  ad_products <- token_count anti_dumping_data "Products" ;;
  cv_chapters <- token_count countervailing_data "Product chapters" ;;
  cv_products <- token_count countervailing_data "Products" ;;
  let top_anti_dumping_chapters :=
    map fst (most_common None ad_chapters) in
  let top_countervailing_chapters :=
    map fst (most_common None cv_chapters) in
  top_ad <- get_top_partners_default anti_dumping_data
              top_anti_dumping_chapters ;;
  top_cv <- get_top_partners_default countervailing_data
              top_countervailing_chapters ;;
  Ok (mkAnalysis ad_chapters ad_products cv_chapters cv_products
                 top_ad top_cv).

(** ** add_cvd_recepient_map.py *)

(** Lines 17-18: the filtered frame and its group sizes. *)
Definition filter_remedy (df : DataFrame) (remedy_type : string)
    : result DataFrame :=
  type <- getitem df "Type" ;;
  mask <- str_contains_na_false remedy_type type ;;
  Ok (getitem_mask df mask).

Definition trading_partners_count (df : DataFrame) (remedy_type : string)
    : result DataFrame :=
  df_filtered <- filter_remedy df remedy_type ;;
  partners <- getitem df_filtered "Trading partners" ;;
  Ok (reset_index "Trading partners" "case_count" (groupby_size partners)).

(** [world] is the Natural Earth table [gpd.read_file] returns.  The first
    component of the outcome is [df] as the call leaves it. *)
Definition get_world_with_data_trading_partners
    (world df : DataFrame) (remedy_type : string)
    : DataFrame * result DataFrame :=
  (df,
   cases_count <- trading_partners_count df remedy_type ;;
   right_keys <- getitem cases_count "Trading partners" ;;
   left_keys <- getitem world "name" ;;
   let world_with_data := merge_left world cases_count left_keys right_keys in
   Ok (fillna0 world_with_data)).

(** ** add_cvd_world_map.py *)

(** One element of [df['Type'].str.split('/').str[-1].str.strip()]: the
    string methods pass [None] through and give [nan] for any other cell that
    is not a string. *)
Definition remedy_of (v : value) : value :=
  match v with
  | VStr s => VStr (strip (last (split "/" s) EmptyString))
  | VNone => VNone
  | _ => VNaN
  end.

(** Lines 16-17, on the frame that already has its [Remedy Type] column. *)
Definition member_remedy_count (df : DataFrame) : result DataFrame :=
  members <- getitem df "Member/Observer" ;;
  remedies <- getitem df "Remedy Type" ;;
  Ok (unstack 0 (groupby2_size members remedies)).

(** [cases_count[[remedy_type]]]: the one-column frame, same index; when the
    label is no column, the [KeyError] that none of the labels asked for is
    one. *)
Definition getitem_list1 (df : DataFrame) (key : value) : result DataFrame :=
  match getitem df key with
  | Ok col => Ok {| df_index := df_index df; df_columns := [(key, col)] |}
  | Raise _ => Raise (KeyErrorNoneOf [key])
  end.

(** The join of lines 20-26; [right_on='Member/Observer'] names the index of
    [selected]. *)
Definition join_world (world selected : DataFrame) : result DataFrame :=
  left_keys <- getitem world "name" ;;
  let world_with_data :=
    merge_left world selected left_keys (df_index selected) in
  Ok (fillna0 world_with_data).

(** Line 15 assigns a column of the caller's frame: the first component of the
    outcome is [df] as the call leaves it, also when a later line raises.  The
    right side of line 15 is evaluated first: when [Type] is absent or the
    accessor is refused, nothing is assigned. *)
Definition get_world_with_data (world df : DataFrame) (remedy_type : string)
    : DataFrame * result DataFrame :=
  match getitem df "Type" with
  | Raise e => (df, Raise e)
  | Ok type =>
      match str_accessor type with
      | Raise e => (df, Raise e)
      | Ok texts =>
          let df' := setitem df "Remedy Type" (map remedy_of texts) in
          (df',
           cases_count <- member_remedy_count df' ;;
           selected <- getitem_list1 cases_count remedy_type ;;
           join_world world selected)
      end
  end.

(** ** Predicates used in the statements *)

(** A token is trimmed when neither its first nor its last character is
    white space. *)
Definition first_is_space (s : string) : bool :=
  match s with
  | EmptyString => false
  | String c _ => is_space c
  end.

Fixpoint last_is_space (s : string) : bool :=
  match s with
  | EmptyString => false
  | String c EmptyString => is_space c
  | String _ s' => last_is_space s'
  end.

Definition trimmed (s : string) : Prop :=
  first_is_space s = false /\ last_is_space s = false.

(** [pat] occurs in [s]. *)
Definition substring_of (pat s : string) : Prop :=
  exists pre post : string, s = (pre ++ pat ++ post)%string.

(** [x] stands before [y] in [l]. *)
Definition before {A : Type} (x y : A) (l : list A) : Prop :=
  exists l1 l2 l3, l = (l1 ++ x :: l2 ++ y :: l3)%list.

(** The entry [x] has at least the count of [y]. *)
Definition count_ge {K : Type} (x y : K * Z) : Prop := (snd y <= snd x)%Z.

(** [x] is the group [g k] of one of the keys [ks]. *)
Definition grouped {A B : Type} (dec : forall x y : B, {x = y} + {x <> y})
    (g : A -> B) (ks : list A) (x : B) : bool :=
  existsb (fun k => if dec x (g k) then true else false) ks.

(** The right row joined to the left key [k], when the right keys are
    distinct. *)
Definition joined_row (right_keys : list value) (k : value) : option nat :=
  hd_error (positions k right_keys 0).

(** The column holds a text cell: pandas reads it with object dtype and grants
    the [.str] accessor. *)
Definition has_text (col : list value) : Prop :=
  exists s, In (VStr s) col.

(** The column holds a number and nothing but numbers and missing cells:
    pandas refuses the [.str] accessor. *)
Definition numbers_only (col : list value) : Prop :=
  (exists z, In (VInt z) col) /\
  forall v, In v col -> isna v = true \/ is_number v = true.

(** The cells of a column are all present. *)
Definition no_missing (col : list value) : Prop :=
  Forall (fun v => isna v = false) col.

(** ** Sample tables *)

(** A sheet of four cases with every column the scripts read. *)
Definition sample_cases : DataFrame :=
  {| df_index := RangeIndex 4;
     df_columns :=
       [(VStr "Member/Observer",
         [VStr "India"; VStr "India"; VStr "Brazil"; VStr "India"]);
        (VStr "Type",
         [VStr "Anti-dumping"; VStr "Anti-dumping"; VStr "Anti-dumping";
          VStr "Countervailing"]);
        (VStr "Trading partners",
         [VStr "China"; VStr "Korea"; VStr "Korea"; VStr "China"]);
        (VStr "Product chapters",
         [VStr "72"; VStr "72, 73"; VStr "72"; VStr "29"]);
        (VStr "Products",
         [VStr "Steel"; VStr "Steel, Pipes"; VStr "Steel"; VStr "Dyes"])] |}.

(** A sheet that has anti-dumping cases only. *)
Definition anti_dumping_only : DataFrame :=
  {| df_index := RangeIndex 2;
     df_columns :=
       [(VStr "Member/Observer", [VStr "India"; VStr "Brazil"]);
        (VStr "Type", [VStr "Anti-dumping"; VStr "Anti-dumping"]);
        (VStr "Trading partners", [VStr "China"; VNaN]);
        (VStr "Product chapters", [VStr "62, 63"; VStr "62"]);
        (VStr "Products", [VStr "Shirts, Suits"; VStr "Shirts"])] |}.

(** A sheet whose [Type] and [Product chapters] columns hold numbers only. *)
Definition numeric_cases : DataFrame :=
  {| df_index := RangeIndex 2;
     df_columns :=
       [(VStr "Member/Observer", [VStr "India"; VStr "Brazil"]);
        (VStr "Type", [VInt 1; VInt 2]);
        (VStr "Trading partners", [VStr "China"; VStr "Korea"]);
        (VStr "Product chapters", [VInt 72; VInt 73]);
        (VStr "Products", [VStr "Steel"; VStr "Pipes"])] |}.

(** A sheet whose [Type] column holds text next to cells of other kinds. *)
Definition mixed_cases : DataFrame :=
  {| df_index := RangeIndex 5;
     df_columns :=
       [(VStr "Member/Observer",
         [VStr "India"; VStr "India"; VStr "Brazil"; VStr "Brazil";
          VStr "India"]);
        (VStr "Type",
         [VStr "Anti-dumping"; VNone; VInt 3; VNaN;
          VStr "Definitive / Countervailing "]);
        (VStr "Trading partners",
         [VStr "China"; VStr "Korea"; VStr "Korea"; VStr "China";
          VStr "India"])] |}.

(** A sheet of five cases on one chapter, two partners with two cases each. *)
Definition tied_cases : DataFrame :=
  {| df_index := RangeIndex 5;
     df_columns :=
       [(VStr "Type",
         [VStr "Anti-dumping"; VStr "Anti-dumping"; VStr "Anti-dumping";
          VStr "Anti-dumping"; VStr "Anti-dumping"]);
        (VStr "Trading partners",
         [VStr "China"; VStr "Korea"; VStr "Korea"; VStr "China";
          VStr "India"]);
        (VStr "Product chapters",
         [VStr "72"; VStr "72"; VStr "72, 73"; VStr "72"; VStr "72"])] |}.

(** A map table of three entities, one of them with a missing attribute. *)
Definition sample_world : DataFrame :=
  {| df_index := RangeIndex 3;
     df_columns :=
       [(VStr "pop_est", [VInt 1380; VNaN; VInt 212]);
        (VStr "name", [VStr "India"; VStr "China"; VStr "Brazil"]);
        (VStr "geometry",
         [VGeom "POLYGON A"; VGeom "POLYGON B"; VGeom "POLYGON C"])] |}.

(** The frame [get_world_with_data_trading_partners] returns for the sample
    tables and anti-dumping cases. *)
Definition sample_joined : DataFrame :=
  {| df_index := RangeIndex 3;
     df_columns :=
       [(VStr "pop_est", [VInt 1380; VInt 0; VInt 212]);
        (VStr "name", [VStr "India"; VStr "China"; VStr "Brazil"]);
        (VStr "geometry",
         [VGeom "POLYGON A"; VGeom "POLYGON B"; VGeom "POLYGON C"]);
        (VStr "Trading partners", [VInt 0; VStr "China"; VInt 0]);
        (VStr "case_count", [VInt 0; VInt 1; VInt 0])] |}.

(** The frame [get_world_with_data] returns for them. *)
Definition sample_joined_members : DataFrame :=
  {| df_index := RangeIndex 3;
     df_columns :=
       [(VStr "pop_est", [VInt 1380; VInt 0; VInt 212]);
        (VStr "name", [VStr "India"; VStr "China"; VStr "Brazil"]);
        (VStr "geometry",
         [VGeom "POLYGON A"; VGeom "POLYGON B"; VGeom "POLYGON C"]);
        (VStr "Anti-dumping", [VInt 2; VInt 0; VInt 1])] |}.

(** ** Further helpers for the statements *)

(** [s[n:]]. *)
Fixpoint drop_chars (n : nat) (s : string) : string :=
  match n, s with
  | S k, String _ s' => drop_chars k s'
  | _, _ => s
  end.

(** [counter[k]]: the count of [k], 0 for a key the counter does not have. *)
Fixpoint counter_get {K : Type} (eqb : K -> K -> bool) (k : K)
    (c : list (K * Z)) : Z :=
  match c with
  | [] => 0%Z
  | (k', n) :: c' => if eqb k k' then n else counter_get eqb k c'
  end.

(** The number of rows of the column [l] that hold [k]. *)
Definition occurrences (l : list value) (k : value) : Z :=
  Z.of_nat (count_occ value_eq_dec l k).

(** The keys [groupby] keeps: the cells that are present. *)
Definition present_keys (keys : list value) : list value :=
  filter (fun k => negb (isna k)) keys.

(** The pairs of keys a two-key [groupby] keeps: both cells present. *)
Definition present_pairs (keys1 keys2 : list value) : list (value * value) :=
  filter (fun p => negb (isna (fst p)) && negb (isna (snd p)))
         (combine keys1 keys2).

(** The number of pairs of [l] equal to [p]. *)
Definition pair_occurrences (l : list (value * value)) (p : value * value)
    : Z :=
  Z.of_nat (count_occ pair_eq_dec l p).

(** ** The map renderer and the entry points of the two map scripts *)

(** What the plotting code can raise: an exception of the table operations
    (the [KeyError] of a lookup, the [AttributeError] of asking a value that
    is no geometry, or a frame without geometry column, for its geometry) or
    the [TypeError] of comparing a cell that is no number with 0. *)
Inductive plot_exn : Type :=
| Raised (e : exn)
| TypeError (msg : string).

Inductive outcome (A : Type) : Type :=
| Done (a : A)
| Failed (e : plot_exn).

Arguments Done {A} a.
Arguments Failed {A} e.

Definition and_then {A B : Type} (m : outcome A) (f : A -> outcome B)
    : outcome B :=
  match m with
  | Done a => f a
  | Failed e => Failed e
  end.

Notation "x <~ m ;; k" := (and_then m (fun x => k))
  (at level 61, m at next level, right associativity).

Definition lift {A : Type} (m : result A) : outcome A :=
  match m with
  | Ok a => Done a
  | Raise e => Failed (Raised e)
  end.

(** A call of [plt.text]: the geometry at whose centroid the text is put, the
    text, the font size. *)
Record text_label : Type := mkText {
  label_geometry : string;
  label_text : string;
  label_fontsize : Z
}.

(** The image a call of [plot_world_map] saves: the geometries drawn with
    their fill colours, the texts, the title, and the path of the file. *)
Record figure : Type := mkFigure {
  fig_shapes : list (value * value);
  fig_texts : list text_label;
  fig_title : string;
  fig_file : string
}.

(** [row[key]] for the row at position [i] of [iterrows()]. *)
Definition row_get (df : DataFrame) (i : nat) (key : value) : result value :=
  col <- getitem df key ;; Ok (nth i col VNaN).

(** [count > 0]. *)
Definition gt_zero (count : value) : outcome bool :=
  match count with
  | VInt z => Done (0 <? z)%Z
  | VNaN => Done false
  | _ => Failed (TypeError "'>' not supported")
  end.

(** [geometry.centroid]: the geometry stands for its centroid. *)
Definition centroid (geometry : value) : outcome string :=
  match geometry with
  | VGeom wkt => Done wkt
  | _ => Failed (Raised (AttributeError "centroid"))
  end.

(** One turn of the loop over the rows: the text put on the map for row [i],
    if any. *)
Definition label_row (df : DataFrame) (count_column : value) (fontsize : Z)
    (i : nat) : outcome (option text_label) :=
  count <~ lift (row_get df i count_column) ;;
  positive <~ gt_zero count ;;
  if positive
  then geometry <~ lift (row_get df i "geometry") ;;
       at_centroid <~ centroid geometry ;;
       Done (Some (mkText at_centroid (py_str count) fontsize))
  else Done None.

Fixpoint label_rows (df : DataFrame) (count_column : value) (fontsize : Z)
    (rows : list nat) : outcome (list text_label) :=
  match rows with
  | [] => Done []
  | i :: rows' =>
      label <~ label_row df count_column fontsize i ;;
      labels <~ label_rows df count_column fontsize rows' ;;
      Done (match label with
            | Some l => l :: labels
            | None => labels
            end)
  end.

(** The body shared by the two [plot_world_map]: they differ in the count
    column, the font size and the title.  The first component of the result
    is the frame as the call leaves it (with its [color] column). *)
Definition plot_counts (count_column : value) (fontsize : Z) (title : string)
    (world_with_data : DataFrame) (output_path : string)
    : DataFrame * outcome figure :=
  let colored :=
    setitem world_with_data "color"
      (repeat (VStr "#ffedcc") (nrows world_with_data)) in
  (colored,
   color <~ lift (getitem colored "color") ;;
   shapes <~ match getitem colored "geometry" with
             | Ok geometry => Done (combine geometry color)
             | Raise _ => Failed (Raised (AttributeError "geometry"))
             end ;;
   labels <~ label_rows colored count_column fontsize
               (seq 0 (nrows colored)) ;;
   Done (mkFigure shapes labels title output_path)).

(** [s.replace(old, new)] for an [old] of one character. *)
Fixpoint replace_char (old : ascii) (new : string) (s : string) : string :=
  match s with
  | EmptyString => EmptyString
  | String c s' =>
      if Ascii.eqb c old then (new ++ replace_char old new s')%string
      else String c (replace_char old new s')
  end.

(** [s.lower()] on code points below 256. *)
Definition lower_char (c : ascii) : ascii :=
  let n := nat_of_ascii c in
  if (((65 <=? n) && (n <=? 90))
      || ((192 <=? n) && (n <=? 222) && negb (n =? 215)))%nat
  then ascii_of_nat (n + 32)
  else c.

Fixpoint lower (s : string) : string :=
  match s with
  | EmptyString => EmptyString
  | String c s' => String (lower_char c) (lower s')
  end.

(** What a run of a map script leaves: the files written, in order, and the
    lines printed. *)
Record run : Type := mkRun {
  run_files : list figure;
  run_printed : list string
}.

(** The loop of [main]: one map per remedy type; the case table is threaded
    from one turn to the next, and the first exception ends the run, the
    files written so far staying written. *)
Fixpoint map_loop
    (get : DataFrame -> string -> DataFrame * result DataFrame)
    (plot : string -> DataFrame -> string -> DataFrame * outcome figure)
    (path message : string -> string)
    (df : DataFrame) (remedy_types : list string) (done : run)
    : DataFrame * run * option plot_exn :=
  match remedy_types with
  | [] => (df, done, None)
  | remedy_type :: rest =>
      let (df', joined) := get df remedy_type in
      match joined with
      | Raise e => (df', done, Some (Raised e))
      | Ok world_with_data =>
          let output_path := path remedy_type in
          match snd (plot remedy_type world_with_data output_path) with
          | Failed e => (df', done, Some e)
          | Done fig =>
              map_loop get plot path message df' rest
                (mkRun (run_files done ++ [fig])
                       (run_printed done ++ [message remedy_type]))
          end
      end
  end.

Module RecepientMap.

Definition plot_world_map (remedy_type : string)
    (world_with_data : DataFrame) (output_path : string)
    : DataFrame * outcome figure :=
  plot_counts "case_count" 8
    ("Number of " ++ remedy_type ++ " Cases suffered - country wise")
    world_with_data output_path.

Definition output_path (remedy_type : string) : string :=
  "trade_remedy_analysis/world_map_"
  ++ lower (replace_char " " "_" remedy_type)
  ++ "_against_trading_partners.png".

Definition message (remedy_type : string) : string :=
  "Map for " ++ remedy_type ++ " against Trading Partners saved to "
  ++ output_path remedy_type.

(** [main], from the sheet [df] and the map table [world] it reads. *)
Definition main (world df : DataFrame) : DataFrame * run * option plot_exn :=
  map_loop (get_world_with_data_trading_partners world) plot_world_map
    output_path message df ["Anti-dumping"; "Countervailing"] (mkRun [] []).

End RecepientMap.

Module WorldMap.

Definition plot_world_map (remedy_type : string)
    (world_with_data : DataFrame) (output_path : string)
    : DataFrame * outcome figure :=
  plot_counts (VStr remedy_type) 10
    ("Use of " ++ remedy_type ++ " - Country/Region wise")
    world_with_data output_path.

Definition output_path (remedy_type : string) : string :=
  "trade_remedy_analysis/world_map_"
  ++ lower (replace_char " " "_" remedy_type) ++ ".png".

Definition message (remedy_type : string) : string :=
  "Map for " ++ remedy_type ++ " saved to " ++ output_path remedy_type.

Definition main (world df : DataFrame) : DataFrame * run * option plot_exn :=
  map_loop (get_world_with_data world) plot_world_map
    output_path message df ["Anti-dumping"; "Countervailing"] (mkRun [] []).

End WorldMap.

(** ** The labels a map should carry *)

Definition count_of (v : value) : Z :=
  match v with
  | VInt z => z
  | _ => 0%Z
  end.

Definition wkt_of (v : value) : string :=
  match v with
  | VGeom wkt => wkt
  | _ => EmptyString
  end.

Definition is_int (v : value) : Prop := exists z, v = VInt z.

Definition is_geometry (v : value) : Prop := exists wkt, v = VGeom wkt.

(** One text for each row whose count is positive, in the order of the rows:
    the count in decimal, at the geometry of the row. *)
Definition expected_labels (fontsize : Z) (counts geometries : list value)
    : list text_label :=
  map (fun p => mkText (wkt_of (snd p)) (py_str (fst p)) fontsize)
      (filter (fun p => (0 <? count_of (fst p))%Z)
              (combine counts geometries)).

(** The turn of the loop on the two cells of a row. *)
Definition cell_label (fontsize : Z) (count geometry : value)
    : outcome (option text_label) :=
  positive <~ gt_zero count ;;
  if positive
  then at_centroid <~ centroid geometry ;;
       Done (Some (mkText at_centroid (py_str count) fontsize))
  else Done None.

(** The counts add_cvd_recepient_map.py puts on the map of a remedy type: for
    each entity, the rows of that remedy type whose trading partner is
    present and is the entity's name. *)
Definition partner_counts (remedy_type : string)
    (type partners names : list value) : list value :=
  map (fun name =>
         VInt (occurrences
                 (present_keys
                    (mask_select (contains_mask remedy_type type)
                       partners))
                 name))
      names.

(** The counts add_cvd_world_map.py puts on the map of a remedy type: for
    each entity, the rows of that remedy type whose member is present and is
    the entity's name. *)
Definition member_counts (remedy_type : string)
    (type members names : list value) : list value :=
  map (fun name =>
         VInt (pair_occurrences
                 (present_pairs members (map remedy_of type))
                 (name, VStr remedy_type)))
      names.

Definition recepient_figure (remedy_type : string)
    (type partners names geometries : list value) : figure :=
  mkFigure
    (combine geometries (repeat (VStr "#ffedcc") (List.length geometries)))
    (expected_labels 8 (partner_counts remedy_type type partners names)
       geometries)
    ("Number of " ++ remedy_type ++ " Cases suffered - country wise")
    (RecepientMap.output_path remedy_type).

Definition member_figure (remedy_type : string)
    (type members names geometries : list value) : figure :=
  mkFigure
    (combine geometries (repeat (VStr "#ffedcc") (List.length geometries)))
    (expected_labels 10 (member_counts remedy_type type members names)
       geometries)
    ("Use of " ++ remedy_type ++ " - Country/Region wise")
    (WorldMap.output_path remedy_type).

(** A sheet that has the chapters of its cases and nothing else. *)
Definition chapters_only : DataFrame :=
  {| df_index := RangeIndex 2;
     df_columns := [(VStr "Product chapters", [VStr "72"; VStr "72, 73"])] |}.

(** A column of text: every cell is a string or missing. *)
Definition is_text (v : value) : bool :=
  match v with
  | VStr _ => true
  | _ => false
  end.

Definition text_or_missing (col : list value) : bool :=
  forallb (fun v => is_text v || isna v) col.

(** A sheet whose one countervailing case has no member. *)
Definition missing_member_cases : DataFrame :=
  {| df_index := RangeIndex 2;
     df_columns :=
       [(VStr "Member/Observer", [VStr "India"; VNaN]);
        (VStr "Type", [VStr "Anti-dumping"; VStr "EU / Countervailing"])] |}.

(** A sheet that has countervailing cases only. *)
Definition countervailing_only : DataFrame :=
  {| df_index := RangeIndex 2;
     df_columns :=
       [(VStr "Member/Observer", [VStr "India"; VStr "Brazil"]);
        (VStr "Type",
         [VStr "Countervailing"; VStr "Definitive / Countervailing"])] |}.

(** * Properties *)

(** ** Strings *)

Lemma append_assoc (a b c : string) :
  ((a ++ b) ++ c)%string = (a ++ b ++ c)%string.
Proof.
  induction a as [|x a IH]; simpl; [reflexivity | now rewrite IH].
Qed.

Lemma append_empty_r (a : string) : (a ++ "")%string = a.
Proof.
  induction a as [|x a IH]; simpl; [reflexivity | now rewrite IH].
Qed.

Lemma substring_of_refl (s : string) : substring_of s s.
Proof.
  exists EmptyString, EmptyString. simpl. now rewrite append_empty_r.
Qed.

Lemma substring_of_trans (a b c : string) :
  substring_of a b -> substring_of b c -> substring_of a c.
Proof.
  intros (p1 & q1 & ->) (p2 & q2 & ->).
  exists (p2 ++ p1)%string, (q1 ++ q2)%string.
  now rewrite !append_assoc.
Qed.

Lemma substring_of_cons (c : ascii) (a s : string) :
  substring_of a s -> substring_of a (String c s).
Proof.
  intros (p & q & ->). now exists (String c p), q.
Qed.

Lemma prefix_true_iff (p s : string) :
  prefix p s = true <-> exists post, s = (p ++ post)%string.
Proof.
  revert s. induction p as [|c p IH]; intros s.
  - destruct s; simpl; split; eauto.
  - destruct s as [|d s]; simpl.
    + split; [discriminate | intros (post & H); discriminate].
    + destruct (ascii_dec c d) as [->|Hne].
      * rewrite IH. split; intros (post & H); exists post; congruence.
      * split; [discriminate | intros (post & H); congruence].
Qed.

Lemma str_find_true_iff (pat s : string) :
  str_find pat s = true <-> substring_of pat s.
Proof.
  induction s as [|c s IH].
  - cbn [str_find]. rewrite orb_false_r, prefix_true_iff. split.
    + intros (post & H). now exists EmptyString, post.
    + intros (pre & post & H). destruct pre; simpl in H; [eauto | discriminate].
  - cbn [str_find]. rewrite orb_true_iff, IH, prefix_true_iff. split.
    + intros [(post & H) | H].
      * now exists EmptyString, post.
      * now apply substring_of_cons.
    + intros (pre & post & H). destruct pre as [|d pre]; simpl in H.
      * left. eauto.
      * right. injection H as _ H. now exists pre, post.
Qed.

Lemma lstrip_suffix (s : string) :
  exists pre, s = (pre ++ lstrip s)%string.
Proof.
  induction s as [|c s (pre & IH)]; simpl.
  - now exists EmptyString.
  - destruct (is_space c).
    + exists (String c pre). simpl. now rewrite <- IH.
    + now exists EmptyString.
Qed.

Lemma rstrip_prefix (s : string) :
  exists post, s = (rstrip s ++ post)%string.
Proof.
  induction s as [|c s (post & IH)]; simpl.
  - now exists EmptyString.
  - destruct (rstrip s) as [|d r] eqn:E.
    + destruct (is_space c).
      * now exists (String c s).
      * exists s. reflexivity.
    + exists post. simpl in *. now rewrite <- IH.
Qed.

Lemma strip_substring (s : string) : substring_of (strip s) s.
Proof.
  unfold strip.
  destruct (lstrip_suffix s) as (pre & H1).
  destruct (rstrip_prefix (lstrip s)) as (post & H2).
  exists pre, post. rewrite <- H2. exact H1.
Qed.

Lemma lstrip_first (s : string) : first_is_space (lstrip s) = false.
Proof.
  induction s as [|c s IH]; simpl; [reflexivity|].
  destruct (is_space c) eqn:E; [exact IH | simpl; exact E].
Qed.

Lemma rstrip_last (s : string) : last_is_space (rstrip s) = false.
Proof.
  induction s as [|c s IH]; simpl; [reflexivity|].
  destruct (rstrip s) as [|d r] eqn:E.
  - destruct (is_space c) eqn:Ec; simpl; [reflexivity | exact Ec].
  - exact IH.
Qed.

Lemma rstrip_first (s : string) :
  first_is_space s = false -> first_is_space (rstrip s) = false.
Proof.
  destruct s as [|c s]; simpl; [reflexivity|].
  intros Hc. destruct (rstrip s); [rewrite Hc|]; simpl; exact Hc.
Qed.

Lemma lstrip_fixed (s : string) : first_is_space s = false -> lstrip s = s.
Proof.
  destruct s as [|c s]; simpl; [reflexivity|]. now intros ->.
Qed.

Lemma rstrip_fixed (s : string) : last_is_space s = false -> rstrip s = s.
Proof.
  induction s as [|c s IH]; simpl; [reflexivity|].
  destruct s as [|d s].
  - simpl. now intros ->.
  - intros H. rewrite (IH H). reflexivity.
Qed.

Lemma strip_trimmed (s : string) : trimmed (strip s).
Proof.
  unfold trimmed, strip. split.
  - apply rstrip_first, lstrip_first.
  - apply rstrip_last.
Qed.

Lemma strip_idempotent (s : string) : strip (strip s) = strip s.
Proof.
  destruct (strip_trimmed s) as [H1 H2].
  unfold strip at 1. now rewrite (lstrip_fixed _ H1), (rstrip_fixed _ H2).
Qed.

Lemma split_from_nonempty (sep s : string) (skip : nat) :
  split_from sep s skip <> [].
Proof.
  revert skip. induction s as [|c s IH]; intros skip; cbn [split_from];
    [discriminate|].
  destruct skip; [|apply IH].
  destruct (prefix sep (String c s)); [discriminate|].
  destruct (split_from sep s 0); discriminate.
Qed.

Lemma split_from_head_prefix (sep s h : string) (t : list string) :
  split_from sep s 0 = h :: t -> exists post, s = (h ++ post)%string.
Proof.
  revert h t. induction s as [|c s IH]; intros h t; cbn [split_from].
  - intros [= <- _]. now exists EmptyString.
  - destruct (prefix sep (String c s)).
    + intros [= <- _]. now exists (String c s).
    + destruct (split_from sep s 0) as [|h' t'] eqn:E.
      * now destruct (split_from_nonempty sep s 0).
      * intros [= <- _]. destruct (IH _ _ eq_refl) as (post & ->).
        now exists post.
Qed.

Lemma split_from_substring (sep s : string) (skip : nat) (t : string) :
  In t (split_from sep s skip) -> substring_of t s.
Proof.
  revert skip t. induction s as [|c s IH]; intros skip t; cbn [split_from].
  - intros [<- | []]. apply substring_of_refl.
  - destruct skip as [|k].
    + destruct (prefix sep (String c s)).
      * intros [<- | H].
        -- now exists EmptyString, (String c s).
        -- apply substring_of_cons. eapply IH, H.
      * destruct (split_from sep s 0) as [|h' t'] eqn:E.
        -- now destruct (split_from_nonempty sep s 0).
        -- intros [<- | H].
           ++ destruct (split_from_head_prefix _ _ _ _ E) as (post & ->).
              now exists EmptyString, post.
           ++ apply substring_of_cons. apply (IH 0). rewrite E. now right.
    + intros H. apply substring_of_cons. eapply IH, H.
Qed.

(** Every token of a cell occurs in the cell's text. *)
Lemma token_substring (v : value) (t : string) :
  In t (clean_and_split [v]) -> substring_of t (py_str v).
Proof.
  unfold clean_and_split. simpl. rewrite app_nil_r, in_map_iff.
  intros (u & <- & Hu).
  eapply substring_of_trans; [apply strip_substring|].
  eapply split_from_substring, Hu.
Qed.

Lemma clean_and_split_app (a b : list value) :
  clean_and_split (a ++ b) = (clean_and_split a ++ clean_and_split b)%list.
Proof.
  unfold clean_and_split. now rewrite map_app, flat_map_app.
Qed.

Lemma clean_and_split_cons (v : value) (l : list value) :
  clean_and_split (v :: l)
  = (map strip (split ", " (py_str v)) ++ clean_and_split l)%list.
Proof. reflexivity. Qed.

(** Every cell gives at least one token. *)
Lemma clean_and_split_length (col : list value) :
  List.length col <= List.length (clean_and_split col).
Proof.
  induction col as [|v col IH]; [apply Nat.le_refl|].
  rewrite clean_and_split_cons, length_app, length_map. simpl.
  pose proof (split_from_nonempty ", " (py_str v) 0) as Hne.
  unfold split. destruct (split_from ", " (py_str v) 0); [congruence|].
  simpl. lia.
Qed.

Example clean_and_split_nan :
  clean_and_split [VStr "62, 63"; VNaN; VStr "64"] = ["62"; "63"; "nan"; "64"].
Proof. reflexivity. Qed.

Example split_doubled_comma : split ", " "a,, b, " = ["a,"; "b"; ""].
Proof. reflexivity. Qed.

Example py_str_int : py_str (VInt (-62)) = "-62" /\ py_str (VInt 0) = "0".
Proof. split; reflexivity. Qed.

Example strip_both : strip "  a b  " = "a b" /\ strip "   " = "".
Proof. split; reflexivity. Qed.

(** ** C4: the token a missing cell becomes *)

(** C4, as stated, fails: [None] is not turned into the token [nan];
    [str(None)] is [None], so the list of the scenario gives the tokens
    62, 63, None, 64. *)
Lemma C4_none_is_not_nan :
  clean_and_split [VStr "62, 63"; VNone; VStr "64"]
  <> ["62"; "63"; "nan"; "64"].
Proof. discriminate. Qed.

(** C4, amended: a missing element goes through [str] before the split and
    becomes exactly one token wherever it stands in the column, [nan] for the
    float NaN of an empty cell and [None] for Python's [None]; the scenario
    gives 62, 63, nan, 64 with NaN and 62, 63, None, 64 with [None]. *)
Theorem C4_missing_value_token :
  (forall before after : list value,
      clean_and_split (before ++ VNaN :: after)
      = (clean_and_split before ++ "nan" :: clean_and_split after)%list
      /\ clean_and_split (before ++ VNone :: after)
         = (clean_and_split before ++ "None" :: clean_and_split after)%list)
  /\ clean_and_split [VStr "62, 63"; VNaN; VStr "64"]
     = ["62"; "63"; "nan"; "64"]
  /\ clean_and_split [VStr "62, 63"; VNone; VStr "64"]
     = ["62"; "63"; "None"; "64"].
Proof.
  split; [|split; reflexivity].
  intros before after.
  split; rewrite clean_and_split_app, clean_and_split_cons; reflexivity.
Qed.

(** ** C5: tokens are trimmed *)

(** C5, as stated, fails: a cell that ends with the separator gives an empty
    token. *)
Lemma C5_empty_token :
  ~ (forall (col : list value) (t : string),
        In t (clean_and_split col) -> trimmed t /\ t <> EmptyString).
Proof.
  intros H.
  destruct (H [VStr "62, "] EmptyString) as [_ Hne].
  - simpl. auto.
  - now apply Hne.
Qed.

(** C5, amended: every token of the output is trimmed: it has no white space
    at either end and stripping it again changes nothing.  (A token may be
    empty.) *)
Theorem C5_tokens_trimmed (col : list value) (t : string) :
  In t (clean_and_split col) -> trimmed t /\ strip t = t.
Proof.
  unfold clean_and_split. rewrite in_flat_map.
  intros (sublist & _ & Ht). apply in_map_iff in Ht as (u & <- & _).
  split; [apply strip_trimmed | apply strip_idempotent].
Qed.

Lemma C5_tokens_trimmed_witness :
  trimmed "63" /\ strip "63" = "63".
Proof.
  apply (C5_tokens_trimmed [VStr "62,  63 "; VNaN] "63").
  simpl. auto.
Defined.

(** ** Lists: order of appearance *)

Lemma value_eqb_eq (a b : value) : value_eqb a b = true <-> a = b.
Proof.
  unfold value_eqb. destruct (value_eq_dec a b); split; congruence.
Qed.

Lemma value_eqb_refl (a : value) : value_eqb a a = true.
Proof. now apply value_eqb_eq. Qed.

Lemma value_eqb_neq (a b : value) : value_eqb a b = false <-> a <> b.
Proof.
  unfold value_eqb. destruct (value_eq_dec a b); split; congruence.
Qed.

Section Before.
Context {A : Type}.

Lemma before_cons_iff (x y a : A) (l : list A) :
  before x y (a :: l) <-> (a = x /\ In y l) \/ before x y l.
Proof.
  split.
  - intros (l1 & l2 & l3 & H). destruct l1 as [|b l1]; simpl in H.
    + injection H as -> ->. left. split; [reflexivity|].
      apply in_or_app. right. now left.
    + injection H as -> ->. right. now exists l1, l2, l3.
  - intros [[-> Hy] | (l1 & l2 & l3 & ->)].
    + apply in_split in Hy as (l2 & l3 & ->). now exists [], l2, l3.
    + now exists (a :: l1), l2, l3.
Qed.

Lemma before_in_r (x y : A) (l : list A) : before x y l -> In y l.
Proof.
  intros (l1 & l2 & l3 & ->).
  apply in_or_app. right. right. apply in_or_app. right. now left.
Qed.

Lemma before_in_l (x y : A) (l : list A) : before x y l -> In x l.
Proof.
  intros (l1 & l2 & l3 & ->). apply in_or_app. right. now left.
Qed.

Lemma before_app_r (x y : A) (l l' : list A) :
  before x y l -> before x y (l ++ l').
Proof.
  intros (l1 & l2 & l3 & ->). exists l1, l2, (l3 ++ l').
  rewrite <- !app_assoc. simpl. now rewrite <- app_assoc.
Qed.

Lemma before_snoc (x y a : A) (l : list A) :
  before x y (l ++ [a]) -> before x y l \/ (y = a /\ In x l).
Proof.
  induction l as [|b l IH]; simpl.
  - intros (l1 & l2 & l3 & H). exfalso.
    apply (f_equal (@List.length A)) in H.
    rewrite length_app in H. simpl in H. rewrite length_app in H.
    simpl in H. lia.
  - rewrite !before_cons_iff. intros [[-> Hy] | H].
    + apply in_app_or in Hy as [Hy | [<- | []]].
      * left. left. now split.
      * right. split; [reflexivity | now left].
    + destruct (IH H) as [H' | [-> Hx]].
      * left. now right.
      * right. split; [reflexivity | now right].
Qed.

Lemma before_firstn (x y : A) (n : nat) (l : list A) :
  before x y (firstn n l) -> before x y l.
Proof.
  intros H. rewrite <- (firstn_skipn n l). now apply before_app_r.
Qed.

Lemma before_map {B : Type} (f : A -> B) (x y : A) (l : list A) :
  before x y l -> before (f x) (f y) (map f l).
Proof.
  intros (l1 & l2 & l3 & ->).
  exists (map f l1), (map f l2), (map f l3).
  rewrite map_app. simpl. now rewrite map_app.
Qed.
End Before.

(** ** Counter and most_common *)

Section CounterFacts.
Context {K : Type} (eqb : K -> K -> bool).
Hypothesis eqb_eq : forall a b, eqb a b = true <-> a = b.

Lemma counter_incr_keys (elem : K) (c : list (K * Z)) :
  map fst (counter_incr eqb elem c)
  = if existsb (eqb elem) (map fst c) then map fst c
    else (map fst c ++ [elem])%list.
Proof.
  induction c as [|[k n] c IH]; simpl; [reflexivity|].
  destruct (eqb elem k) eqn:E; simpl; [reflexivity|].
  rewrite IH. now destruct (existsb (eqb elem) (map fst c)).
Qed.

Lemma counter_incr_sum (elem : K) (c : list (K * Z)) :
  sum_counts (counter_incr eqb elem c) = (sum_counts c + 1)%Z.
Proof.
  induction c as [|[k n] c IH]; simpl; [reflexivity|].
  destruct (eqb elem k); simpl; [lia|]. fold (sum_counts c).
  fold (sum_counts (counter_incr eqb elem c)). rewrite IH. lia.
Qed.

Lemma Counter_snoc (l : list K) (x : K) :
  Counter eqb (l ++ [x]) = counter_incr eqb x (Counter eqb l).
Proof. unfold Counter. now rewrite fold_left_app. Qed.

(** The counts of a [Counter] add up to the number of elements counted. *)
Lemma Counter_sum (l : list K) :
  sum_counts (Counter eqb l) = Z.of_nat (List.length l).
Proof.
  induction l as [|x l IH] using rev_ind; [reflexivity|].
  rewrite Counter_snoc, counter_incr_sum, IH, length_app. simpl. lia.
Qed.

Lemma existsb_eqb_In (x : K) (l : list K) :
  existsb (eqb x) l = true <-> In x l.
Proof.
  rewrite existsb_exists. split.
  - intros (y & Hy & E). apply eqb_eq in E. now subst.
  - intros H. exists x. split; [exact H | now apply eqb_eq].
Qed.

Lemma Counter_keys_In (l : list K) (k : K) :
  In k (map fst (Counter eqb l)) <-> In k l.
Proof.
  revert k. induction l as [|x l IH] using rev_ind; intros k;
    [reflexivity|].
  rewrite Counter_snoc, counter_incr_keys, in_app_iff.
  destruct (existsb (eqb x) (map fst (Counter eqb l))) eqn:E.
  - rewrite IH. apply existsb_eqb_In in E. apply IH in E.
    split; [tauto|]. intros [H | [<- | []]]; assumption.
  - rewrite in_app_iff, IH. reflexivity.
Qed.
End CounterFacts.

Section SortedDesc.
Context {K : Type}.

Lemma insert_desc_In (x y : K * Z) (l : list (K * Z)) :
  In y (insert_desc x l) <-> y = x \/ In y l.
Proof.
  induction l as [|z l IH]; simpl; [intuition congruence|].
  destruct (snd x <? snd z)%Z; simpl; [rewrite IH|]; intuition congruence.
Qed.

Lemma sorted_desc_In (y : K * Z) (l : list (K * Z)) :
  In y (sorted_desc l) <-> In y l.
Proof.
  induction l as [|x l IH]; simpl; [reflexivity|].
  rewrite insert_desc_In, IH. intuition congruence.
Qed.

Lemma insert_desc_length (x : K * Z) (l : list (K * Z)) :
  List.length (insert_desc x l) = S (List.length l).
Proof.
  induction l as [|z l IH]; simpl; [reflexivity|].
  destruct (snd x <? snd z)%Z; simpl; [now rewrite IH | reflexivity].
Qed.

(** Inserting keeps the entries in decreasing order of count. *)
Lemma insert_desc_ordered (a : K * Z) (l : list (K * Z)) :
  (forall x y, before x y l -> count_ge x y) ->
  forall x y, before x y (insert_desc a l) -> count_ge x y.
Proof.
  induction l as [|z l IH]; simpl; intros Hl x y.
  - intros (l1 & l2 & l3 & H). exfalso.
    apply (f_equal (@List.length _)) in H. rewrite length_app in H.
    simpl in H. rewrite length_app in H. simpl in H. lia.
  - destruct (snd a <? snd z)%Z eqn:E.
    + rewrite before_cons_iff. intros [[<- Hy] | H].
      * apply insert_desc_In in Hy as [-> | Hy].
        -- unfold count_ge. apply Z.ltb_lt in E. lia.
        -- apply Hl. apply before_cons_iff. now left.
      * revert H. apply IH. intros x' y' H'. apply Hl.
        apply before_cons_iff. now right.
    + rewrite before_cons_iff. intros [[<- Hy] | H]; [|now apply Hl].
      apply Z.ltb_ge in E. destruct Hy as [<- | Hy].
      * exact E.
      * assert (count_ge z y) as Hzy
            by (apply Hl, before_cons_iff; now left).
        unfold count_ge in *. lia.
Qed.

Lemma sorted_desc_ordered (l : list (K * Z)) (x y : K * Z) :
  before x y (sorted_desc l) -> count_ge x y.
Proof.
  revert x y. induction l as [|a l IH]; simpl.
  - intros x y (l1 & l2 & l3 & H). now destruct l1.
  - now apply insert_desc_ordered.
Qed.

(** Inserting is stable: the new entry is never put after an entry of the
    same count. *)
Lemma insert_desc_stable (a : K * Z) (l : list (K * Z)) (x y : K * Z) :
  snd x = snd y ->
  before x y (insert_desc a l) ->
  (x = a /\ In y l) \/ before x y l.
Proof.
  intros Exy. induction l as [|z l IH]; simpl.
  - intros (l1 & l2 & l3 & H). exfalso.
    apply (f_equal (@List.length _)) in H. rewrite length_app in H.
    simpl in H. rewrite length_app in H. simpl in H. lia.
  - destruct (snd a <? snd z)%Z eqn:E.
    + rewrite !before_cons_iff. intros [[<- Hy] | H].
      * apply insert_desc_In in Hy as [-> | Hy].
        -- apply Z.ltb_lt in E. lia.
        -- right. left. now split.
      * destruct (IH H) as [[-> Hy] | H'].
        -- left. split; [reflexivity | now right].
        -- right. now right.
    + rewrite before_cons_iff. intros [[<- Hy] | H].
      * left. now split.
      * now right.
Qed.

Lemma sorted_desc_stable (l : list (K * Z)) (x y : K * Z) :
  snd x = snd y -> before x y (sorted_desc l) -> before x y l.
Proof.
  intros Exy. induction l as [|a l IH]; simpl; [trivial|].
  intros H. apply before_cons_iff.
  destruct (insert_desc_stable _ _ _ _ Exy H) as [[-> Hy] | H'].
  - left. split; [reflexivity | now apply sorted_desc_In].
  - right. now apply IH.
Qed.

Lemma sorted_desc_length (l : list (K * Z)) :
  List.length (sorted_desc l) = List.length l.
Proof.
  induction l as [|a l IH]; simpl; [reflexivity|].
  now rewrite insert_desc_length, IH.
Qed.

Lemma most_common_length (n : Z) (c : list (K * Z)) :
  (0 <= n)%Z -> (Z.of_nat (List.length (most_common (Some n) c)) <= n)%Z.
Proof.
  intros Hn. simpl. rewrite length_firstn. lia.
Qed.
End SortedDesc.

(** Position of the first occurrence, at the end of the column. *)
Lemma first_index_app_In (k : value) (l l' : list value) :
  In k l -> first_index k (l ++ l') = first_index k l.
Proof.
  induction l as [|x l IH]; simpl; [tauto|].
  destruct (value_eqb k x) eqn:E; [reflexivity|].
  intros [-> | H]; [now rewrite value_eqb_refl in E | now rewrite IH].
Qed.

Lemma first_index_lt (k : value) (l : list value) :
  In k l -> first_index k l < List.length l.
Proof.
  induction l as [|x l IH]; simpl; [tauto|].
  destruct (value_eqb k x) eqn:E; [lia|].
  intros [-> | H]; [now rewrite value_eqb_refl in E|].
  specialize (IH H). lia.
Qed.

Lemma first_index_snoc_new (k : value) (l : list value) :
  ~ In k l -> first_index k (l ++ [k]) = List.length l.
Proof.
  induction l as [|x l IH]; simpl; intros H.
  - now rewrite value_eqb_refl.
  - destruct (value_eqb k x) eqn:E.
    + apply value_eqb_eq in E. subst. tauto.
    + rewrite IH; [reflexivity | tauto].
Qed.

Lemma Counter_key_counted (l : list value) (k : value) :
  In k (map fst (Counter value_eqb l)) -> In k l.
Proof. apply (Counter_keys_In value_eqb value_eqb_eq). Qed.

(** The keys of a [Counter] stand in the order of their first occurrence. *)
Lemma Counter_keys_order (l : list value) (p q : value) :
  before p q (map fst (Counter value_eqb l)) ->
  first_index p l < first_index q l.
Proof.
  revert p q. induction l as [|x l IH] using rev_ind; intros p q.
  - intros (l1 & l2 & l3 & H). now destruct l1.
  - rewrite Counter_snoc, counter_incr_keys.
    destruct (existsb (value_eqb x) (map fst (Counter value_eqb l))) eqn:E.
    + intros H.
      pose proof (Counter_key_counted _ _ (before_in_l _ _ _ H)) as Hp.
      pose proof (Counter_key_counted _ _ (before_in_r _ _ _ H)) as Hq.
      rewrite !first_index_app_In by assumption. now apply IH.
    + intros H. apply before_snoc in H as [H | [-> Hp]].
      * pose proof (Counter_key_counted _ _ (before_in_l _ _ _ H)) as Hp.
        pose proof (Counter_key_counted _ _ (before_in_r _ _ _ H)) as Hq.
        rewrite !first_index_app_In by assumption. now apply IH.
      * apply Counter_key_counted in Hp.
        assert (~ In x l) as Hx.
        { intros Hx. apply (Counter_keys_In value_eqb value_eqb_eq) in Hx.
          apply (existsb_eqb_In value_eqb value_eqb_eq) in Hx. congruence. }
        rewrite first_index_app_In, first_index_snoc_new by assumption.
        now apply first_index_lt.
Qed.

(** ** Frames: columns and masks *)

Lemma mask_select_filter {A B : Type} (f : A -> bool) (a : list A)
    (b : list B) :
  mask_select (map f a) b
  = map snd (filter (fun row => f (fst row)) (combine a b)).
Proof.
  revert b. induction a as [|x a IH]; intros [|y b]; simpl; try reflexivity.
  destruct (f x); simpl; now rewrite IH.
Qed.

Lemma mask_select_length {A : Type} (mask : list bool) (l : list A) :
  List.length mask = List.length l ->
  List.length (mask_select mask l) = count_occ bool_dec mask true.
Proof.
  revert l. induction mask as [|b mask IH]; intros [|x l]; simpl;
    try discriminate; [reflexivity|].
  intros [= H]. destruct b; simpl; now rewrite IH.
Qed.

Lemma getitem_mask_getitem (df : DataFrame) (mask : list bool) (key : value) :
  getitem (getitem_mask df mask) key
  = (col <- getitem df key ;; Ok (mask_select mask col)).
Proof.
  unfold getitem, getitem_mask. simpl.
  induction (df_columns df) as [|c cols IH]; simpl; [reflexivity|].
  destruct (value_eqb (fst c) key); [reflexivity | exact IH].
Qed.

Lemma getitem_In (df : DataFrame) (key : value) (col : list value) :
  getitem df key = Ok col -> In (key, col) (df_columns df).
Proof.
  unfold getitem. destruct (find _ _) as [c|] eqn:E; [|discriminate].
  intros [= <-]. apply find_some in E as [Hin Heq].
  apply value_eqb_eq in Heq. destruct c. simpl in *. now subst.
Qed.

(** ** The [.str] accessor *)

Lemma str_accessor_ok (col texts : list value) :
  str_accessor col = Ok texts -> texts = col.
Proof.
  unfold str_accessor. destruct (filter _ col); [now intros [= <-]|].
  destruct (forallb _ _); [discriminate | now intros [= <-]].
Qed.

Lemma str_accessor_text (col : list value) :
  has_text col -> str_accessor col = Ok col.
Proof.
  intros (s & Hs). unfold str_accessor.
  destruct (filter _ col) as [|v present] eqn:E; [reflexivity|].
  destruct (forallb is_number (v :: present)) eqn:F; [|reflexivity].
  rewrite forallb_forall in F.
  assert (In (VStr s) (v :: present)) as Hin
    by (rewrite <- E; apply filter_In; now split).
  now apply F in Hin.
Qed.

Lemma str_accessor_numbers (col : list value) :
  numbers_only col ->
  str_accessor col
  = Raise (AttributeError "Can only use .str accessor with string values!").
Proof.
  intros ((z & Hz) & Hall). unfold str_accessor.
  destruct (filter _ col) as [|v present] eqn:E.
  - assert (In (VInt z) []) as []. rewrite <- E. apply filter_In. now split.
  - destruct (forallb is_number (v :: present)) eqn:F; [reflexivity|].
    apply not_true_iff_false in F. exfalso. apply F.
    apply forallb_forall. intros x Hx. rewrite <- E in Hx.
    apply filter_In in Hx as [Hx Hp].
    destruct (Hall x Hx) as [Hna | Hnum]; [|exact Hnum].
    now rewrite Hna in Hp.
Qed.

Lemma str_contains_na_false_ok (pat : string) (col : list value)
    (mask : list bool) :
  str_contains_na_false pat col = Ok mask ->
  str_accessor col = Ok col /\ mask = contains_mask pat col.
Proof.
  unfold str_contains_na_false.
  destruct (str_accessor col) as [texts|e] eqn:E; [|discriminate].
  apply str_accessor_ok in E. subst texts. cbn [bind].
  now intros [= <-].
Qed.

Lemma str_contains_na_false_granted (pat : string) (col : list value) :
  str_accessor col = Ok col ->
  str_contains_na_false pat col = Ok (contains_mask pat col).
Proof. intros H. unfold str_contains_na_false. now rewrite H. Qed.

(** What [filter_remedy] returns when it returns. *)
Lemma filter_remedy_inv (df : DataFrame) (remedy_type : string)
    (filtered : DataFrame) :
  filter_remedy df remedy_type = Ok filtered ->
  exists type,
    getitem df "Type" = Ok type /\
    str_accessor type = Ok type /\
    filtered = getitem_mask df (contains_mask remedy_type type).
Proof.
  unfold filter_remedy.
  destruct (getitem df "Type") as [type|e] eqn:Ht; [|discriminate].
  cbn [bind].
  destruct (str_contains_na_false remedy_type type) as [mask|e] eqn:Hm;
    [|discriminate].
  apply str_contains_na_false_ok in Hm as [Hacc ->]. cbn [bind].
  intros [= <-]. now exists type.
Qed.

(** ** get_top_partners *)

(** What [chapter_partners] returns when it returns. *)
Lemma chapter_partners_inv (data : DataFrame) (chapter : string)
    (partners : list value) :
  chapter_partners data chapter = Ok partners ->
  exists pc tp,
    getitem data "Product chapters" = Ok pc /\
    str_accessor pc = Ok pc /\
    getitem data "Trading partners" = Ok tp /\
    partners = mask_select (contains_mask chapter pc) tp.
Proof.
  unfold chapter_partners.
  destruct (getitem data "Product chapters") as [pc|e] eqn:Hpc;
    [|discriminate].
  cbn [bind].
  destruct (str_contains_na_false chapter pc) as [mask|e] eqn:Hm;
    [|discriminate].
  apply str_contains_na_false_ok in Hm as [Hacc ->]. cbn [bind].
  rewrite getitem_mask_getitem.
  destruct (getitem data "Trading partners") as [tp|e] eqn:Htp;
    [|discriminate].
  cbn [bind]. intros [= <-]. now exists pc, tp.
Qed.

Lemma dict_set_In {V : Type} (key : string) (v : V) (d : list (string * V))
    (k : string) (w : V) :
  In (k, w) (dict_set key v d) -> (k = key /\ w = v) \/ In (k, w) d.
Proof.
  induction d as [|[k' w'] d IH]; simpl.
  - intros [[= <- <-] | []]. now left.
  - destruct (String.eqb k' key) eqn:E; simpl.
    + apply String.eqb_eq in E. subst.
      intros [[= <- <-] | H]; [now left | right; now right].
    + intros [H | H]; [right; now left|].
      destruct (IH H); [now left | right; now right].
Qed.

Lemma dict_set_has_key {V : Type} (key : string) (v : V)
    (d : list (string * V)) :
  In key (map fst (dict_set key v d)).
Proof.
  induction d as [|[k' w'] d IH]; simpl; [now left|].
  destruct (String.eqb k' key) eqn:E; simpl.
  - apply String.eqb_eq in E. now left.
  - now right.
Qed.

Lemma dict_set_keeps_keys {V : Type} (key : string) (v : V)
    (d : list (string * V)) (k : string) :
  In k (map fst d) -> In k (map fst (dict_set key v d)).
Proof.
  induction d as [|[k' w'] d IH]; simpl; [tauto|].
  destruct (String.eqb k' key) eqn:E; simpl; tauto.
Qed.

(** Every entry the loop adds is the ranking computed for its chapter. *)
Lemma get_top_partners_loop_entries (data : DataFrame) (top_n : Z)
    (chapters : list string) :
  forall acc d,
    get_top_partners_loop data chapters top_n acc = Ok d ->
    forall chapter ranking,
      In (chapter, ranking) d ->
      In (chapter, ranking) acc \/
      exists partners,
        chapter_partners data chapter = Ok partners /\
        ranking = most_common (Some top_n) (Counter value_eqb partners).
Proof.
  induction chapters as [|ch chapters IH]; intros acc d; simpl.
  - intros [= <-]. auto.
  - destruct (chapter_partners data ch) as [partners|e] eqn:E; simpl;
      [|discriminate].
    intros H chapter ranking Hin.
    destruct (IH _ _ H _ _ Hin) as [Hacc | Hnew]; [|now right].
    apply dict_set_In in Hacc as [[-> ->] | Hacc]; [right | now left].
    now exists partners.
Qed.

Lemma get_top_partners_entries (data : DataFrame) (chapters : list string)
    (top_n : Z) (d : list (string * list (value * Z)))
    (chapter : string) (ranking : list (value * Z)) :
  get_top_partners data chapters top_n = Ok d ->
  In (chapter, ranking) d ->
  exists partners,
    chapter_partners data chapter = Ok partners /\
    ranking = most_common (Some top_n) (Counter value_eqb partners).
Proof.
  intros H Hin.
  destruct (get_top_partners_loop_entries _ _ _ _ _ H _ _ Hin) as [[] | Hex].
  exact Hex.
Qed.

(** The loop keeps the keys it has and adds one per chapter. *)
Lemma get_top_partners_loop_keys (data : DataFrame) (top_n : Z)
    (chapters : list string) :
  forall acc d,
    get_top_partners_loop data chapters top_n acc = Ok d ->
    forall k, In k chapters \/ In k (map fst acc) -> In k (map fst d).
Proof.
  induction chapters as [|ch chapters IH]; intros acc d; simpl.
  - intros [= <-] k [[] | H]. exact H.
  - destruct (chapter_partners data ch) as [partners|e]; simpl;
      [|discriminate].
    intros H k Hk. apply (IH _ _ H). destruct Hk as [[<- | Hk] | Hk].
    + right. apply dict_set_has_key.
    + now left.
    + right. now apply dict_set_keeps_keys.
Qed.

(** With both columns in the table and the accessor granted on the chapters,
    the function returns, and every chapter asked for has its ranking. *)
Lemma get_top_partners_total (data : DataFrame) (chapters : list string)
    (top_n : Z) (pc tp : list value) :
  getitem data "Product chapters" = Ok pc ->
  str_accessor pc = Ok pc ->
  getitem data "Trading partners" = Ok tp ->
  exists d,
    get_top_partners data chapters top_n = Ok d /\
    forall chapter, In chapter chapters -> In chapter (map fst d).
Proof.
  intros Hpc Hacc Htp. unfold get_top_partners.
  assert (forall acc, exists d,
             get_top_partners_loop data chapters top_n acc = Ok d) as Hex.
  { induction chapters as [|ch chapters IH]; intros acc;
      cbn [get_top_partners_loop]; [eauto|].
    unfold chapter_partners. rewrite Hpc. cbn [bind].
    rewrite (str_contains_na_false_granted _ _ Hacc). cbn [bind].
    rewrite getitem_mask_getitem, Htp. cbn [bind]. apply IH. }
  destruct (Hex []) as (d & Hd). exists d. split; [exact Hd|].
  intros chapter Hin. apply (get_top_partners_loop_keys _ _ _ _ _ Hd). auto.
Qed.

(** ** C6: the top-N ranking *)

(** The ranking kept for a chapter: its length, its order and its ties. *)
Lemma top_partners_ranking (data : DataFrame) (chapters : list string)
    (top_n : Z) (d : list (string * list (value * Z))) (chapter : string)
    (ranking : list (value * Z)) :
  get_top_partners data chapters top_n = Ok d ->
  In (chapter, ranking) d ->
  (Z.of_nat (List.length ranking) <= Z.max 0 top_n)%Z /\
  (forall x y, before x y ranking -> count_ge x y) /\
  exists partners,
    chapter_partners data chapter = Ok partners /\
    forall x y,
      before x y ranking -> snd x = snd y ->
      first_index (fst x) partners < first_index (fst y) partners.
Proof.
  intros Hd Hin.
  destruct (get_top_partners_entries _ _ _ _ _ _ Hd Hin)
    as (partners & Hp & ->).
  split; [|split].
  - cbn [most_common]. rewrite length_firstn. lia.
  - intros x y H. apply before_firstn in H.
    now apply sorted_desc_ordered in H.
  - exists partners. split; [exact Hp|]. intros x y H Exy.
    apply before_firstn in H. apply sorted_desc_stable in H; [|exact Exy].
    apply Counter_keys_order. now apply before_map.
Qed.

(** C6: every ranking returned by [get_top_partners] has at most N entries
    (none for an N below 0), its counts never increase from one entry to a
    later one, and of two entries with the same count the one standing first
    is the partner met first among the rows kept for the chapter; the call
    without N is the call with N = 3, and its rankings have at most 3
    entries, ordered and with their ties broken in the same way. *)
Theorem C6_top_partners_ranking (data : DataFrame) (chapters : list string) :
  (forall (top_n : Z) d chapter ranking,
      get_top_partners data chapters top_n = Ok d ->
      In (chapter, ranking) d ->
      (Z.of_nat (List.length ranking) <= Z.max 0 top_n)%Z /\
      (forall x y, before x y ranking -> count_ge x y) /\
      exists partners,
        chapter_partners data chapter = Ok partners /\
        forall x y,
          before x y ranking -> snd x = snd y ->
          first_index (fst x) partners < first_index (fst y) partners)
  /\ get_top_partners_default data chapters
     = get_top_partners data chapters 3
  /\ (forall d chapter ranking,
         get_top_partners_default data chapters = Ok d ->
         In (chapter, ranking) d ->
         List.length ranking <= 3 /\
         (forall x y, before x y ranking -> count_ge x y) /\
         exists partners,
           chapter_partners data chapter = Ok partners /\
           forall x y,
             before x y ranking -> snd x = snd y ->
             first_index (fst x) partners < first_index (fst y) partners).
Proof.
  split; [|split].
  - intros top_n d chapter ranking. apply top_partners_ranking.
  - reflexivity.
  - intros d chapter ranking Hd Hin.
    destruct (top_partners_ranking data chapters 3 d chapter ranking Hd Hin)
      as (Hlen & Hord & Hties).
    split; [lia|]. split; assumption.
Qed.

Lemma C6_top_partners_ranking_witness :
  get_top_partners tied_cases ["72"; "73"] 2
  = Ok [("72", [(VStr "China", 2%Z); (VStr "Korea", 2%Z)]);
        ("73", [(VStr "Korea", 1%Z)])]
  /\ get_top_partners_default tied_cases ["72"; "73"]
     = Ok [("72", [(VStr "China", 2%Z); (VStr "Korea", 2%Z);
                   (VStr "India", 1%Z)]);
           ("73", [(VStr "Korea", 1%Z)])]
  /\ (Z.of_nat (List.length [(VStr "China", 2%Z); (VStr "Korea", 2%Z)]) <= 2)%Z
  /\ count_ge (VStr "China", 2%Z) (VStr "Korea", 2%Z)
  /\ count_ge (VStr "Korea", 2%Z) (VStr "India", 1%Z)
  /\ first_index (VStr "China")
       [VStr "China"; VStr "Korea"; VStr "Korea"; VStr "China"; VStr "India"]
     < first_index (VStr "Korea")
         [VStr "China"; VStr "Korea"; VStr "Korea"; VStr "China";
          VStr "India"].
Proof.
  split; [reflexivity|]. split; [reflexivity|].
  destruct (proj1 (C6_top_partners_ranking tied_cases ["72"; "73"]) 2%Z
              [("72", [(VStr "China", 2%Z); (VStr "Korea", 2%Z)]);
               ("73", [(VStr "Korea", 1%Z)])]
              "72" [(VStr "China", 2%Z); (VStr "Korea", 2%Z)]
              eq_refl (or_introl eq_refl))
    as (Hlen & Hord & partners & Hp & Hties).
  destruct (proj2 (proj2 (C6_top_partners_ranking tied_cases ["72"; "73"]))
              [("72", [(VStr "China", 2%Z); (VStr "Korea", 2%Z);
                       (VStr "India", 1%Z)]);
               ("73", [(VStr "Korea", 1%Z)])]
              "72" [(VStr "China", 2%Z); (VStr "Korea", 2%Z);
                    (VStr "India", 1%Z)]
              eq_refl (or_introl eq_refl))
    as (_ & Hord3 & _).
  vm_compute in Hp. injection Hp as <-.
  split; [exact Hlen|]. split; [|split].
  - apply Hord. now exists [], [], [].
  - apply Hord3. now exists [(VStr "China", 2%Z)], [], [].
  - apply (Hties (VStr "China", 2%Z) (VStr "Korea", 2%Z));
      [now exists [], [], [] | reflexivity].
Defined.

(** ** C7: the rows counted for a chapter *)

(** C7, as stated, fails: the row whose chapter list is 62 alone is counted
    for the chapter code 6, which its list does not contain. *)
Lemma C7_substring_row_counted :
  chapter_partners anti_dumping_only "6" = Ok [VStr "China"; VNaN]
  /\ get_top_partners anti_dumping_only ["6"] 3
     = Ok [("6", [(VStr "China", 1%Z); (VNaN, 1%Z)])]
  /\ ~ In "6" (clean_and_split [VStr "62, 63"])
  /\ ~ In "6" (clean_and_split [VStr "62"]).
Proof.
  repeat split; try reflexivity; simpl; intros H;
    repeat (destruct H as [H | H]; try discriminate H); exact H.
Qed.

(** C7, amended: for a chapter code without regular-expression
    metacharacters, the rows whose trading partners are counted are exactly
    the rows whose [Product chapters] cell is a string in which the code
    occurs as a substring; every row whose cell is a string with the code in
    its chapter list is among them. *)
Theorem C7_rows_counted (data : DataFrame) (chapters : list string)
    (top_n : Z) (d : list (string * list (value * Z)))
    (chapter : string) (ranking : list (value * Z)) :
  literal_pattern chapter = true ->
  get_top_partners data chapters top_n = Ok d ->
  In (chapter, ranking) d ->
  exists (pc tp : list value) (counted : value -> bool),
    getitem data "Product chapters" = Ok pc /\
    getitem data "Trading partners" = Ok tp /\
    (forall cell,
        counted cell = true <->
        exists s, cell = VStr s /\ substring_of chapter s) /\
    (forall s, In chapter (clean_and_split [VStr s]) ->
               counted (VStr s) = true) /\
    ranking
    = most_common (Some top_n)
        (Counter value_eqb
           (map snd (filter (fun row => counted (fst row)) (combine pc tp)))).
Proof.
  intros _ Hd Hin.
  destruct (get_top_partners_entries _ _ _ _ _ _ Hd Hin)
    as (partners & Hp & ->).
  apply chapter_partners_inv in Hp as (pc & tp & Hpc & _ & Htp & ->).
  set (counted := fun v => match str_contains chapter v with
                           | Some b => b
                           | None => false
                           end).
  assert (forall cell, counted cell = true <->
                       exists s, cell = VStr s /\ substring_of chapter s)
    as Hcounted.
  { intros cell. unfold counted. destruct cell; simpl;
      try (split; [discriminate | intros (s' & [=] & _)]).
    rewrite str_find_true_iff. split.
    - intros H. now exists s.
    - now intros (s' & [= <-] & H). }
  exists pc, tp, counted. repeat split; try apply Hcounted; try assumption.
  - intros s Hs. apply Hcounted. exists s. split; [reflexivity|].
    now apply (token_substring (VStr s)).
  - unfold contains_mask. now rewrite mask_select_filter.
Qed.

Lemma C7_rows_counted_witness :
  exists (pc tp : list value) (counted : value -> bool),
    getitem sample_cases "Product chapters" = Ok pc /\
    getitem sample_cases "Trading partners" = Ok tp /\
    (forall cell,
        counted cell = true <->
        exists s, cell = VStr s /\ substring_of "72" s) /\
    (forall s, In "72" (clean_and_split [VStr s]) ->
               counted (VStr s) = true) /\
    [(VStr "Korea", 2%Z)]
    = most_common (Some 1%Z)
        (Counter value_eqb
           (map snd (filter (fun row => counted (fst row)) (combine pc tp)))).
Proof.
  apply (C7_rows_counted sample_cases ["72"; "29"] 1%Z
           [("72", [(VStr "Korea", 2%Z)]); ("29", [(VStr "China", 1%Z)])]).
  - reflexivity.
  - reflexivity.
  - simpl. auto.
Defined.

(** ** groupby: the sizes add up *)

Section Sorting.
Context {A : Type} (leb : A -> A -> bool).

Lemma insert_sorted_perm (x : A) (l : list A) :
  Permutation (insert_sorted leb x l) (x :: l).
Proof.
  induction l as [|y l IH]; simpl; [reflexivity|].
  destruct (leb x y); [reflexivity|].
  rewrite IH. apply perm_swap.
Qed.

Lemma sort_perm (l : list A) : Permutation (sort leb l) l.
Proof.
  induction l as [|x l IH]; simpl; [reflexivity|].
  rewrite insert_sorted_perm. now constructor.
Qed.

Lemma sort_In (l : list A) (x : A) : In x (sort leb l) <-> In x l.
Proof.
  split; apply Permutation_in; [|symmetry]; apply sort_perm.
Qed.

Lemma sort_NoDup (l : list A) : NoDup l -> NoDup (sort leb l).
Proof.
  apply Permutation_NoDup. symmetry. apply sort_perm.
Qed.
End Sorting.

Section GroupSizes.
Context {A B : Type} (dec : forall x y : B, {x = y} + {x <> y}).
Context (g : A -> B).
Hypothesis g_inj : forall a a', g a = g a' -> a = a'.

Lemma grouped_false (ks : list A) (k : A) :
  ~ In k ks -> grouped dec g ks (g k) = false.
Proof.
  intros Hk. unfold grouped. apply not_true_is_false. intros H.
  apply existsb_exists in H as (k' & Hin & E).
  destruct (dec (g k) (g k')) as [E'|]; [|discriminate].
  apply g_inj in E'. now subst.
Qed.

(** Over distinct keys, the group sizes add up to the number of elements
    that belong to one of the groups. *)
Lemma group_sizes_sum (ks : list A) (l : list B) :
  NoDup ks ->
  list_sum (map (fun k => count_occ dec l (g k)) ks)
  = List.length (filter (grouped dec g ks) l).
Proof.
  intros Hnd. induction Hnd as [|k ks Hk Hnd IH]; simpl.
  - induction l as [|x l IHl]; simpl; [reflexivity | exact IHl].
  - rewrite IH. clear IH. induction l as [|x l IHl]; simpl; [reflexivity|].
    destruct (dec x (g k)) as [->|Hne].
    + rewrite (grouped_false _ _ Hk). simpl.
      destruct (dec (g k) (g k)); [|congruence]. simpl.
      rewrite <- IHl. lia.
    + destruct (dec (g k) x) as [E|_]; [congruence|].
      destruct (grouped dec g ks x); simpl; rewrite <- IHl; lia.
Qed.
End GroupSizes.

Lemma filter_all {A : Type} (f : A -> bool) (l : list A) :
  (forall x, In x l -> f x = true) -> filter f l = l.
Proof.
  induction l as [|x l IH]; simpl; intros H; [reflexivity|].
  rewrite (H x) by now left. rewrite IH; [reflexivity|].
  intros y Hy. apply H. now right.
Qed.

Lemma column_sum_sizes {K : Type} (sizes : list (K * Z)) :
  column_sum (map (fun e => VInt (snd e)) sizes) = sum_counts sizes.
Proof.
  induction sizes as [|e sizes IH]; simpl; [reflexivity|].
  fold (sum_counts sizes). now rewrite IH.
Qed.

Lemma sum_counts_sizes {K : Type} (f : K -> nat) (ks : list K) :
  sum_counts (map (fun k => (k, Z.of_nat (f k))) ks)
  = Z.of_nat (list_sum (map f ks)).
Proof.
  induction ks as [|k ks IH]; simpl; [reflexivity|].
  fold (sum_counts (map (fun k => (k, Z.of_nat (f k))) ks)).
  rewrite IH. lia.
Qed.

Lemma groupby_size_keys (keys : list value) :
  map fst (groupby_size keys)
  = sort value_leb
      (nodup value_eq_dec (filter (fun k => negb (isna k)) keys)).
Proof.
  unfold groupby_size. rewrite map_map. simpl. apply map_id.
Qed.

Lemma groupby_size_NoDup (keys : list value) :
  NoDup (map fst (groupby_size keys)).
Proof.
  rewrite groupby_size_keys. apply sort_NoDup, NoDup_nodup.
Qed.

Lemma groupby_size_key_In (keys : list value) (k : value) :
  In k (map fst (groupby_size keys)) <-> In k keys /\ isna k = false.
Proof.
  rewrite groupby_size_keys, sort_In, nodup_In, filter_In.
  now rewrite negb_true_iff.
Qed.

(** The sizes of [groupby(key).size()] add up to the number of rows whose key
    is present. *)
Lemma groupby_size_sum (keys : list value) :
  sum_counts (groupby_size keys)
  = Z.of_nat (List.length (filter (fun k => negb (isna k)) keys)).
Proof.
  unfold groupby_size. set (valid := filter _ keys).
  rewrite (sum_counts_sizes (count_occ value_eq_dec valid)).
  rewrite (group_sizes_sum value_eq_dec (fun k => k)).
  - f_equal. f_equal. apply filter_all. intros x Hx.
    unfold grouped. apply existsb_exists. exists x. split.
    + apply sort_In, nodup_In, Hx.
    + now destruct (value_eq_dec x x).
  - auto.
  - apply sort_NoDup, NoDup_nodup.
Qed.

Lemma mask_select_same_length {A B : Type} (mask : list bool) (a : list A)
    (b : list B) :
  List.length a = List.length b ->
  List.length (mask_select mask a) = List.length (mask_select mask b).
Proof.
  revert a b. induction mask as [|m mask IH]; intros [|x a] [|y b]; simpl;
    try discriminate; try reflexivity.
  intros [= H]. destruct m; simpl; now rewrite (IH a b H).
Qed.

Lemma wf_frame_getitem (df : DataFrame) (key : value) (col : list value) :
  wf_frame df -> getitem df key = Ok col -> List.length col = nrows df.
Proof.
  intros Hwf H. apply getitem_In in H.
  unfold wf_frame in Hwf. rewrite Forall_forall in Hwf.
  exact (Hwf _ H).
Qed.

Lemma clean_and_split_tokens (col : list value) :
  List.length (clean_and_split col)
  = list_sum (map (fun v => List.length (split ", " (py_str v))) col).
Proof.
  induction col as [|v col IH]; [reflexivity|].
  rewrite clean_and_split_cons, length_app, length_map, IH. reflexivity.
Qed.

(** ** The cross table of members and remedy types *)

Lemma find_none_all {A : Type} (f : A -> bool) (l : list A) :
  (forall x, In x l -> f x = false) -> find f l = None.
Proof.
  induction l as [|x l IH]; simpl; intros H; [reflexivity|].
  rewrite (H x) by now left. apply IH. intros y Hy. apply H. now right.
Qed.

Lemma unstack_index_NoDup (fill_value : Z)
    (sizes : list ((value * value) * Z)) :
  NoDup (df_index (unstack fill_value sizes)).
Proof. simpl. apply sort_NoDup, NoDup_nodup. Qed.

Lemma filter_filter {A : Type} (f g : A -> bool) (l : list A) :
  filter f (filter g l) = filter (fun x => g x && f x) l.
Proof.
  induction l as [|x l IH]; simpl; [reflexivity|].
  destruct (g x); simpl; [destruct (f x)|]; now rewrite IH.
Qed.

Lemma lookup_size_count (valid keys : list (value * value))
    (p : value * value) :
  (forall q, In q valid -> In q keys) ->
  match lookup_size p
          (map (fun q => (q, Z.of_nat (count_occ pair_eq_dec valid q))) keys)
  with
  | Some n => n
  | None => 0%Z
  end
  = Z.of_nat (count_occ pair_eq_dec valid p).
Proof.
  intros Hcover. unfold lookup_size.
  assert (~ In p keys ->
          Z.of_nat (count_occ pair_eq_dec valid p) = 0%Z) as Hzero.
  { intros Hout.
    rewrite (proj1 (count_occ_not_In pair_eq_dec valid p)); [reflexivity|].
    intros Hin. apply Hout, Hcover, Hin. }
  clear Hcover. induction keys as [|q keys IH]; simpl.
  - symmetry. apply Hzero. tauto.
  - destruct (pair_eq_dec q p) as [->|Hne]; simpl; [reflexivity|].
    destruct (in_dec pair_eq_dec p keys) as [Hin | Hout].
    + apply IH. tauto.
    + rewrite Hzero by (simpl; tauto).
      rewrite find_none_all; [reflexivity|].
      intros e He. apply in_map_iff in He as (q' & <- & Hq'). simpl.
      destruct (pair_eq_dec q' p) as [->|]; [contradiction | reflexivity].
Qed.

Lemma getitem_unstack (fill_value : Z) (sizes : list ((value * value) * Z))
    (key : value) (col : list value) :
  getitem (unstack fill_value sizes) key = Ok col ->
  col = map (fun r => match lookup_size (r, key) sizes with
                      | Some n => VInt n
                      | None => VInt fill_value
                      end) (df_index (unstack fill_value sizes)).
Proof.
  unfold getitem. destruct (find _ _) as [c|] eqn:E; [|discriminate].
  intros [= <-]. apply find_some in E as [Hin Heq].
  apply value_eqb_eq in Heq. cbn [unstack df_columns] in Hin.
  apply in_map_iff in Hin as (l & <- & _). simpl in Heq. now subst.
Qed.

Lemma column_sum_ints (f : value -> Z) (l : list value) :
  column_sum (map (fun r => VInt (f r)) l)
  = fold_right (fun r acc => (f r + acc)%Z) 0%Z l.
Proof.
  induction l as [|x l IH]; simpl; [reflexivity | now rewrite IH].
Qed.

Lemma fold_sum_of_nat (f : value -> nat) (l : list value) :
  fold_right (fun r acc => (Z.of_nat (f r) + acc)%Z) 0%Z l
  = Z.of_nat (list_sum (map f l)).
Proof.
  induction l as [|x l IH]; simpl; [reflexivity | rewrite IH; lia].
Qed.

(** The column of a remedy type in the cross table adds up to the number of
    rows of that remedy type whose member is present. *)
Lemma member_remedy_count_sum (members remedies : list value)
    (remedy_type : string) (counts : list value) :
  getitem (unstack 0 (groupby2_size members remedies)) remedy_type
  = Ok counts ->
  column_sum counts
  = Z.of_nat
      (List.length
         (filter (fun p => negb (isna (fst p))
                           && value_eqb (snd p) remedy_type)
                 (combine members remedies))).
Proof.
  intros H. apply getitem_unstack in H. subst counts.
  set (present := fun p : value * value =>
                    negb (isna (fst p)) && negb (isna (snd p))).
  set (valid := filter present (combine members remedies)).
  set (keys := sort pair_leb (nodup pair_eq_dec valid)).
  assert (groupby2_size members remedies
          = map (fun q => (q, Z.of_nat (count_occ pair_eq_dec valid q))) keys)
    as Hsizes by reflexivity.
  rewrite Hsizes.
  set (idx := df_index (unstack 0 _)).
  assert (forall q, In q valid -> In q keys) as Hcover.
  { intros q Hq. apply sort_In, nodup_In, Hq. }
  assert (NoDup idx) as Hnd by apply unstack_index_NoDup.
  assert (forall q, In q valid -> In (fst q) idx) as Hidx.
  { intros q Hq. unfold idx. cbn [unstack df_index].
    apply sort_In, nodup_In. rewrite map_map. cbn [fst].
    apply in_map, Hcover, Hq. }
  rewrite (map_ext
             (fun r => match lookup_size (r, VStr remedy_type) _ with
                       | Some n => VInt n
                       | None => VInt 0
                       end)
             (fun r => VInt (Z.of_nat (count_occ pair_eq_dec valid
                                         (r, VStr remedy_type))))).
  - rewrite (column_sum_ints
               (fun r => Z.of_nat (count_occ pair_eq_dec valid
                                     (r, VStr remedy_type)))).
    rewrite (fold_sum_of_nat
               (fun r => count_occ pair_eq_dec valid (r, VStr remedy_type))).
    rewrite (group_sizes_sum pair_eq_dec (fun r => (r, VStr remedy_type)))
      by (try assumption; now intros a a' [= ->]).
    f_equal. f_equal. unfold valid. rewrite !filter_filter.
    apply filter_ext_in. intros [m t] Hp.
    destruct (present (m, t)) eqn:Ep.
    + assert (In (m, t) valid) as Hv by (apply filter_In; now split).
      unfold present in Ep. cbn [fst snd] in *.
      apply andb_true_iff in Ep as [Em Et]. rewrite Em. cbn [andb].
      destruct (value_eqb t remedy_type) eqn:Et'.
      * apply value_eqb_eq in Et'. subst t.
        unfold grouped. apply existsb_exists. exists m.
        split; [exact (Hidx _ Hv)|].
        now destruct (pair_eq_dec (m, VStr remedy_type) (m, VStr remedy_type)).
      * unfold grouped. apply not_true_iff_false. intros Hg.
        apply existsb_exists in Hg as (r & _ & Hr).
        destruct (pair_eq_dec (m, t) (r, VStr remedy_type)) as [[= -> ->]|];
          [|discriminate].
        now rewrite value_eqb_refl in Et'.
    + cbn [andb]. unfold present in Ep. cbn [fst snd] in *.
      destruct (isna m); cbn [negb andb] in *; [reflexivity|].
      destruct (value_eqb t remedy_type) eqn:Et'; [|reflexivity].
      apply value_eqb_eq in Et'. now subst t.
  - intros r. pose proof (lookup_size_count valid keys (r, VStr remedy_type)
                            Hcover) as Hl.
    destruct (lookup_size _ _); now rewrite <- Hl.
Qed.

(** [main] counts the tokens of the rows it kept for each remedy type. *)
Lemma main_analysis_counts (data : DataFrame) (a : analysis) :
  main_analysis data = Ok a ->
  exists anti_dumping_data countervailing_data,
    type_subset data "Anti-dumping" = Ok anti_dumping_data /\
    type_subset data "Countervailing" = Ok countervailing_data /\
    token_count anti_dumping_data "Product chapters"
    = Ok (anti_dumping_chapters_count a) /\
    token_count anti_dumping_data "Products"
    = Ok (anti_dumping_products_count a) /\
    token_count countervailing_data "Product chapters"
    = Ok (countervailing_chapters_count a) /\
    token_count countervailing_data "Products"
    = Ok (countervailing_products_count a).
Proof.
  unfold main_analysis.
  destruct (type_subset data "Anti-dumping") as [ad|e] eqn:E1;
    [|discriminate].
  destruct (type_subset data "Countervailing") as [cv|e] eqn:E2;
    [|discriminate].
  cbn [bind].
  destruct (token_count ad "Product chapters") as [c1|e] eqn:E3;
    [|discriminate].
  destruct (token_count ad "Products") as [c2|e] eqn:E4; [|discriminate].
  destruct (token_count cv "Product chapters") as [c3|e] eqn:E5;
    [|discriminate].
  destruct (token_count cv "Products") as [c4|e] eqn:E6; [|discriminate].
  cbn [bind].
  destruct (get_top_partners_default ad _) as [t1|e]; [|discriminate].
  destruct (get_top_partners_default cv _) as [t2|e]; [|discriminate].
  cbn [bind]. intros [= <-]. exists ad, cv. cbn.
  repeat split; assumption.
Qed.

(** ** C1: what the counts add up to *)

(** C1, as stated, fails: in a sheet of two anti-dumping cases, one without a
    trading partner, the group sizes add up to 1, and the chapter tokens of
    the two rows number 3. *)
Lemma C1_counts_differ_from_rows :
  exists filtered cases_count counts subset chapters_count,
    filter_remedy anti_dumping_only "Anti-dumping" = Ok filtered /\
    nrows filtered = 2 /\
    trading_partners_count anti_dumping_only "Anti-dumping" = Ok cases_count /\
    getitem cases_count "case_count" = Ok counts /\
    column_sum counts = 1%Z /\
    type_subset anti_dumping_only "Anti-dumping" = Ok subset /\
    nrows subset = 2 /\
    token_count subset "Product chapters" = Ok chapters_count /\
    sum_counts chapters_count = 3%Z.
Proof.
  do 5 eexists. repeat split; reflexivity.
Qed.

(** C1, amended: the group sizes over the trading partners add up to the
    number of rows kept by the filter whose trading partner is present (rows
    with a missing partner belong to no group), which is the number of rows
    kept when no partner is missing; the token counts over a chapter or
    product column add up to the number of tokens of the rows, one more per
    row than the separators in its cell, hence at least the number of rows;
    the counts of a remedy type over the members add up to the number of rows
    of that remedy type whose member is present. *)
Theorem C1_counts_sum (df : DataFrame) (remedy_type : string) :
  (forall cases_count,
      trading_partners_count df remedy_type = Ok cases_count ->
      exists filtered partners counts,
        filter_remedy df remedy_type = Ok filtered /\
        getitem filtered "Trading partners" = Ok partners /\
        getitem cases_count "case_count" = Ok counts /\
        column_sum counts
        = Z.of_nat (List.length (filter (fun k => negb (isna k)) partners)) /\
        (wf_frame df -> no_missing partners ->
         column_sum counts = Z.of_nat (nrows filtered)))
  /\ (forall (column : string) chapters_count,
         token_count df column = Ok chapters_count ->
         exists col,
           getitem df column = Ok col /\
           sum_counts chapters_count
           = Z.of_nat (List.length (clean_and_split col)) /\
           List.length (clean_and_split col)
           = list_sum
               (map (fun v => List.length (split ", " (py_str v))) col) /\
           List.length col <= List.length (clean_and_split col) /\
           (wf_frame df -> List.length col = nrows df))
  /\ (forall cases_count counts,
         member_remedy_count df = Ok cases_count ->
         getitem cases_count remedy_type = Ok counts ->
         exists members remedies,
           getitem df "Member/Observer" = Ok members /\
           getitem df "Remedy Type" = Ok remedies /\
           column_sum counts
           = Z.of_nat
               (List.length
                  (filter (fun p => negb (isna (fst p))
                                    && value_eqb (snd p) remedy_type)
                          (combine members remedies)))).
Proof.
  split; [|split].
  - intros cases_count H. unfold trading_partners_count in H.
    destruct (filter_remedy df remedy_type) as [filtered|e] eqn:Hf;
      [|discriminate].
    simpl in H.
    destruct (getitem filtered "Trading partners") as [partners|e] eqn:Hp;
      [|discriminate].
    simpl in H. injection H as <-.
    exists filtered, partners,
      (map (fun e => VInt (snd e)) (groupby_size partners)).
    assert (column_sum (map (fun e => VInt (snd e)) (groupby_size partners))
            = Z.of_nat (List.length
                          (filter (fun k => negb (isna k)) partners))) as Hsum
      by (rewrite column_sum_sizes; apply groupby_size_sum).
    split; [reflexivity|]. split; [exact Hp|]. split; [reflexivity|].
    split; [exact Hsum|].
    intros Hwf Hall. rewrite Hsum. f_equal.
    rewrite filter_all.
    + apply filter_remedy_inv in Hf as (type & Ht & _ & ->).
      rewrite getitem_mask_getitem in Hp.
      destruct (getitem df "Trading partners") as [tp|e] eqn:Htp;
        [|discriminate].
      simpl in Hp. injection Hp as <-.
      unfold nrows at 1. simpl. apply mask_select_same_length.
      now apply (wf_frame_getitem df "Trading partners").
    + intros x Hx. unfold no_missing in Hall. rewrite Forall_forall in Hall.
      now rewrite (Hall x Hx).
  - intros column chapters_count H. unfold token_count in H.
    destruct (getitem df column) as [col|e] eqn:Hc; [|discriminate].
    simpl in H. injection H as <-. exists col.
    split; [reflexivity|].
    split; [apply Counter_sum|].
    split; [apply clean_and_split_tokens|].
    split; [apply clean_and_split_length|].
    intros Hwf. now apply (wf_frame_getitem df column).
  - intros cases_count counts Hcc Hcounts. unfold member_remedy_count in Hcc.
    destruct (getitem df "Member/Observer") as [members|e]; [|discriminate].
    cbn [bind] in Hcc.
    destruct (getitem df "Remedy Type") as [remedies|e]; [|discriminate].
    cbn [bind] in Hcc. injection Hcc as <-.
    exists members, remedies. split; [reflexivity|]. split; [reflexivity|].
    now apply member_remedy_count_sum.
Qed.

Lemma C1_counts_sum_witness :
  exists filtered partners counts,
    filter_remedy sample_cases "Anti-dumping" = Ok filtered /\
    getitem filtered "Trading partners" = Ok partners /\
    getitem
      {| df_index := RangeIndex 2;
         df_columns := [(VStr "Trading partners", [VStr "China"; VStr "Korea"]);
                        (VStr "case_count", [VInt 1; VInt 2])] |}
      "case_count" = Ok counts /\
    column_sum counts
    = Z.of_nat (List.length (filter (fun k => negb (isna k)) partners)) /\
    (wf_frame sample_cases -> no_missing partners ->
     column_sum counts = Z.of_nat (nrows filtered)).
Proof.
  apply (proj1 (C1_counts_sum sample_cases "Anti-dumping")).
  reflexivity.
Defined.

(** ** The left join on distinct right keys *)

Lemma positions_absent (k : value) (keys : list value) (i : nat) :
  ~ In k keys -> positions k keys i = [].
Proof.
  revert i. induction keys as [|x keys IH]; intros i H; simpl; [reflexivity|].
  destruct (value_eqb k x) eqn:E.
  - apply value_eqb_eq in E. subst. exfalso. apply H. now left.
  - apply IH. intros Hin. apply H. now right.
Qed.

Lemma positions_present (k : value) (keys : list value) (i j : nat) :
  NoDup keys -> nth_error keys j = Some k -> positions k keys i = [i + j].
Proof.
  intros Hnd. revert i j.
  induction Hnd as [|x keys Hx Hnd IH]; intros i j; [now destruct j|].
  destruct j as [|j]; simpl.
  - intros [= ->]. rewrite value_eqb_refl, positions_absent by assumption.
    now rewrite Nat.add_0_r.
  - intros Hj. destruct (value_eqb k x) eqn:E.
    + apply value_eqb_eq in E. subst. apply nth_error_In in Hj. tauto.
    + rewrite (IH (S i) j Hj). f_equal. lia.
Qed.

Lemma positions_at_most_one (k : value) (keys : list value) (i : nat) :
  NoDup keys -> positions k keys i = [] \/ exists j, positions k keys i = [j].
Proof.
  intros Hnd. destruct (in_dec value_eq_dec k keys) as [Hin | Hout].
  - apply In_nth_error in Hin as (j & Hj). right. exists (i + j).
    now apply positions_present.
  - left. now apply positions_absent.
Qed.

Lemma left_join_from_unique (i : nat) (left_keys right_keys : list value) :
  NoDup right_keys ->
  left_join_from i left_keys right_keys
  = map (fun p => (fst p, joined_row right_keys (snd p)))
        (combine (seq i (List.length left_keys)) left_keys).
Proof.
  intros Hnd. revert i.
  induction left_keys as [|k left_keys IH]; intros i; simpl; [reflexivity|].
  rewrite IH. unfold joined_row.
  destruct (positions_at_most_one k right_keys 0 Hnd) as [-> | (j & ->)];
    reflexivity.
Qed.

Lemma map_fst_combine_seq {A B C : Type} (f : A -> C) (a : list A)
    (b : list B) :
  List.length a = List.length b ->
  map (fun p => f (fst p)) (combine a b) = map f a.
Proof.
  revert b. induction a as [|x a IH]; intros [|y b]; simpl;
    try discriminate; [reflexivity|].
  intros [= H]. now rewrite IH.
Qed.

Lemma map_snd_combine_seq {A B C : Type} (f : B -> C) (a : list A)
    (b : list B) :
  List.length a = List.length b ->
  map (fun p => f (snd p)) (combine a b) = map f b.
Proof.
  revert b. induction a as [|x a IH]; intros [|y b]; simpl;
    try discriminate; [reflexivity|].
  intros [= H]. now rewrite IH.
Qed.

Lemma map_nth_seq_id {A : Type} (d : A) (l : list A) :
  map (fun i => nth i l d) (seq 0 (List.length l)) = l.
Proof.
  induction l as [|x l IH]; simpl; [reflexivity|].
  rewrite <- seq_shift, map_map. simpl. now rewrite IH.
Qed.

Section UniqueJoin.
Variables (left_keys right_keys : list value).
Hypothesis right_unique : NoDup right_keys.

Let ix := left_join_indexers left_keys right_keys.

Lemma join_length : List.length ix = List.length left_keys.
Proof.
  unfold ix, left_join_indexers.
  rewrite left_join_from_unique, length_map, length_combine, length_seq
    by assumption.
  apply Nat.min_id.
Qed.

Lemma take_left_unique (col : list value) :
  List.length col = List.length left_keys -> take_left ix col = col.
Proof.
  intros Hlen. unfold take_left, ix, left_join_indexers.
  rewrite left_join_from_unique, map_map by assumption. simpl.
  rewrite (map_fst_combine_seq (fun i => nth i col VNaN))
    by apply length_seq.
  rewrite <- Hlen. apply map_nth_seq_id.
Qed.

Lemma take_right_unique (col : list value) :
  take_right ix col
  = map (fun k => match joined_row right_keys k with
                  | Some j => nth j col VNaN
                  | None => VNaN
                  end) left_keys.
Proof.
  unfold take_right, ix, left_join_indexers.
  rewrite left_join_from_unique, map_map by assumption. simpl.
  apply (map_snd_combine_seq
           (fun k => match joined_row right_keys k with
                     | Some j => nth j col VNaN
                     | None => VNaN
                     end)).
  apply length_seq.
Qed.
End UniqueJoin.

Lemma RangeIndex_length (n : nat) : List.length (RangeIndex n) = n.
Proof. unfold RangeIndex. now rewrite length_map, length_seq. Qed.

(** The merged and zero-filled frame, when the right keys are distinct: as
    many rows as the left frame, every left column kept whole. *)
Lemma merge_left_unique (left right : DataFrame)
    (left_keys right_keys : list value) :
  NoDup right_keys ->
  wf_frame left ->
  List.length left_keys = nrows left ->
  let merged := fillna0 (merge_left left right left_keys right_keys) in
  nrows merged = nrows left /\
  wf_frame merged /\
  map snd (df_columns merged)
  = (map (fun c => map fill0 (snd c)) (df_columns left)
     ++ map (fun c =>
               map (fun k => fill0 match joined_row right_keys k with
                                   | Some j => nth j (snd c) VNaN
                                   | None => VNaN
                                   end) left_keys)
            (df_columns right))%list.
Proof.
  intros Hnd Hwf Hlen. simpl.
  assert (nrows (fillna0 (merge_left left right left_keys right_keys))
          = nrows left) as Hrows.
  { unfold nrows at 1. simpl.
    now rewrite RangeIndex_length, join_length. }
  assert (map snd (df_columns
                     (fillna0 (merge_left left right left_keys right_keys)))
          = (map (fun c => map fill0 (snd c)) (df_columns left)
             ++ map (fun c =>
                       map (fun k => fill0 match joined_row right_keys k with
                                           | Some j => nth j (snd c) VNaN
                                           | None => VNaN
                                           end) left_keys)
                    (df_columns right))%list) as Hcols.
  { simpl. rewrite map_map, map_app, !map_map. simpl. f_equal.
    - apply map_ext_in. intros c Hc. rewrite take_left_unique; auto.
      unfold wf_frame in Hwf. rewrite Forall_forall in Hwf.
      rewrite (Hwf c Hc). now symmetry.
    - apply map_ext. intros c. rewrite take_right_unique by assumption.
      now rewrite map_map. }
  split; [exact Hrows|]. split; [|exact Hcols].
  unfold wf_frame. rewrite Hrows.
  apply Forall_forall. intros c Hc.
  apply (in_map snd) in Hc. rewrite Hcols in Hc.
  apply in_app_or in Hc as [Hc | Hc]; apply in_map_iff in Hc as (c' & <- & Hc').
  - rewrite length_map. unfold wf_frame in Hwf. rewrite Forall_forall in Hwf.
    now apply Hwf.
  - now rewrite length_map.
Qed.

(** ** The two map functions, unfolded *)

Lemma getitem_reset_index_key (key name : value) (sizes : list (value * Z)) :
  getitem (reset_index key name sizes) key = Ok (map fst sizes).
Proof.
  unfold getitem, reset_index. simpl. now rewrite value_eqb_refl.
Qed.

Lemma getitem_reset_index_name (key name : value) (sizes : list (value * Z)) :
  key <> name ->
  getitem (reset_index key name sizes) name
  = Ok (map (fun e => VInt (snd e)) sizes).
Proof.
  intros Hne. unfold getitem, reset_index. simpl.
  apply value_eqb_neq in Hne. now rewrite Hne, value_eqb_refl.
Qed.

Lemma trading_partners_count_inv (df : DataFrame) (remedy_type : string)
    (cases_count : DataFrame) :
  trading_partners_count df remedy_type = Ok cases_count ->
  exists filtered partners,
    filter_remedy df remedy_type = Ok filtered /\
    getitem filtered "Trading partners" = Ok partners /\
    cases_count
    = reset_index "Trading partners" "case_count" (groupby_size partners).
Proof.
  unfold trading_partners_count.
  destruct (filter_remedy df remedy_type) as [filtered|e]; [|discriminate].
  cbn [bind].
  destruct (getitem filtered "Trading partners") as [partners|e] eqn:Hp;
    [|discriminate].
  cbn [bind]. intros [= <-]. exists filtered, partners.
  split; [reflexivity|]. split; [exact Hp | reflexivity].
Qed.

(** What [get_world_with_data_trading_partners] returns when it returns. *)
Lemma trading_partners_map_inv (world df : DataFrame) (remedy_type : string)
    (r : DataFrame) :
  snd (get_world_with_data_trading_partners world df remedy_type) = Ok r ->
  exists cases_count partners names,
    trading_partners_count df remedy_type = Ok cases_count /\
    cases_count
    = reset_index "Trading partners" "case_count" (groupby_size partners) /\
    getitem world "name" = Ok names /\
    r = fillna0 (merge_left world cases_count names
                   (map fst (groupby_size partners))).
Proof.
  unfold get_world_with_data_trading_partners. cbn [snd].
  destruct (trading_partners_count df remedy_type) as [cc|e] eqn:Hcc;
    [|discriminate].
  destruct (trading_partners_count_inv _ _ _ Hcc)
    as (filtered & partners & _ & _ & ->).
  cbn [bind]. rewrite getitem_reset_index_key. cbn [bind].
  destruct (getitem world "name") as [names|e]; [|discriminate].
  cbn [bind]. intros [= <-].
  exists (reset_index "Trading partners" "case_count" (groupby_size partners)),
    partners, names.
  repeat split; reflexivity.
Qed.

Lemma member_remedy_count_index (df cases_count : DataFrame) :
  member_remedy_count df = Ok cases_count -> NoDup (df_index cases_count).
Proof.
  unfold member_remedy_count.
  destruct (getitem df "Member/Observer"); [|discriminate]. cbn [bind].
  destruct (getitem df "Remedy Type"); [|discriminate]. cbn [bind].
  intros [= <-]. apply unstack_index_NoDup.
Qed.

(** What [get_world_with_data] returns when it returns. *)
Lemma world_map_inv (world df : DataFrame) (remedy_type : string)
    (r : DataFrame) :
  snd (get_world_with_data world df remedy_type) = Ok r ->
  exists cases_count counts names,
    member_remedy_count (fst (get_world_with_data world df remedy_type))
    = Ok cases_count /\
    getitem cases_count remedy_type = Ok counts /\
    getitem world "name" = Ok names /\
    r = fillna0
          (merge_left world
             {| df_index := df_index cases_count;
                df_columns := [(VStr remedy_type, counts)] |}
             names (df_index cases_count)).
Proof.
  unfold get_world_with_data.
  destruct (getitem df "Type") as [type|e]; [|discriminate].
  destruct (str_accessor type) as [texts|e]; [|discriminate]. cbn [snd fst].
  destruct (member_remedy_count _) as [cc|e] eqn:Hcc; [|discriminate].
  cbn [bind]. unfold getitem_list1.
  destruct (getitem cc remedy_type) as [counts|e] eqn:Hc; [|discriminate].
  cbn [bind]. unfold join_world.
  destruct (getitem world "name") as [names|e] eqn:Hn; [|discriminate].
  cbn [bind]. intros [= <-]. exists cc, counts, names.
  repeat split; auto.
Qed.

(** ** C2: the join keeps the rows of the map table *)

(** Both functions join the map table on distinct keys. *)
Lemma map_functions_join (world df : DataFrame) (remedy_type : string)
    (r : DataFrame) :
  snd (get_world_with_data_trading_partners world df remedy_type) = Ok r
  \/ snd (get_world_with_data world df remedy_type) = Ok r ->
  exists right names right_keys,
    NoDup right_keys /\
    getitem world "name" = Ok names /\
    r = fillna0 (merge_left world right names right_keys).
Proof.
  intros [H | H].
  - destruct (trading_partners_map_inv _ _ _ _ H)
      as (cc & partners & names & _ & _ & Hn & ->).
    exists cc, names, (map fst (groupby_size partners)).
    auto using groupby_size_NoDup.
  - destruct (world_map_inv _ _ _ _ H)
      as (cc & counts & names & Hcc & _ & Hn & ->).
    eexists _, names, (df_index cc).
    eauto using member_remedy_count_index.
Qed.

(** C2: whatever the case table and the remedy type, when the map table is
    well formed the frame either function returns has exactly the rows of the
    map table: as many rows, every column as long, and the columns of the map
    table kept whole and in place (missing cells filled), so that every entity
    stands in the output once. *)
Theorem C2_join_keeps_rows (world df : DataFrame) (remedy_type : string)
    (r : DataFrame) :
  wf_frame world ->
  snd (get_world_with_data_trading_partners world df remedy_type) = Ok r
  \/ snd (get_world_with_data world df remedy_type) = Ok r ->
  nrows r = nrows world /\
  wf_frame r /\
  exists joined,
    map snd (df_columns r)
    = (map (fun c => map fill0 (snd c)) (df_columns world) ++ joined)%list.
Proof.
  intros Hwf H.
  destruct (map_functions_join _ _ _ _ H)
    as (right & names & right_keys & Hnd & Hn & ->).
  pose proof (wf_frame_getitem world "name" names Hwf Hn) as Hlen.
  destruct (merge_left_unique world right names right_keys Hnd Hwf Hlen)
    as (Hrows & Hwf' & Hcols).
  split; [exact Hrows|]. split; [exact Hwf'|].
  eexists. exact Hcols.
Qed.

Example sample_joined_computed :
  snd (get_world_with_data_trading_partners sample_world sample_cases
         "Anti-dumping") = Ok sample_joined
  /\ snd (get_world_with_data sample_world sample_cases "Anti-dumping")
     = Ok sample_joined_members.
Proof. split; reflexivity. Qed.

Lemma sample_world_wf : wf_frame sample_world.
Proof. repeat constructor. Qed.

Lemma C2_join_keeps_rows_witness :
  nrows sample_joined = nrows sample_world /\
  wf_frame sample_joined /\
  exists joined,
    map snd (df_columns sample_joined)
    = (map (fun c => map fill0 (snd c)) (df_columns sample_world)
       ++ joined)%list.
Proof.
  apply (C2_join_keeps_rows sample_world sample_cases "Anti-dumping").
  - repeat constructor.
  - left. reflexivity.
Defined.

(** ** C3: entities without a match get the count 0 *)

Lemma find_app_none {A : Type} (f : A -> bool) (l1 l2 : list A) :
  (forall x, In x l1 -> f x = false) -> find f (l1 ++ l2) = find f l2.
Proof.
  induction l1 as [|x l1 IH]; simpl; intros H; [reflexivity|].
  rewrite (H x) by now left. apply IH. intros y Hy. apply H. now right.
Qed.

Lemma has_label_false (df : DataFrame) (key l : value) :
  has_label df key = false -> In l (labels df) -> l <> key.
Proof.
  unfold has_label. intros H Hl ->.
  apply not_true_iff_false in H. apply H.
  apply existsb_exists. exists key. split; [exact Hl | apply value_eqb_refl].
Qed.

(** The joined column of a frame whose own labels all differ from [key]. *)
Lemma getitem_merged_right (left right : DataFrame)
    (left_keys right_keys : list value) (key : value) :
  (forall l, In l (labels left) -> suffixed right "_x" l <> key) ->
  getitem (fillna0 (merge_left left right left_keys right_keys)) key
  = match find (fun c => value_eqb (suffixed left "_y" (fst c)) key)
               (df_columns right) with
    | Some c =>
        Ok (map fill0
              (take_right (left_join_indexers left_keys right_keys) (snd c)))
    | None => Raise (KeyError key)
    end.
Proof.
  intros Hleft. unfold getitem. simpl. rewrite map_app, !map_map. simpl.
  rewrite find_app_none.
  - induction (df_columns right) as [|c cols IH]; simpl; [reflexivity|].
    destruct (value_eqb (suffixed left "_y" (fst c)) key); [reflexivity|].
    exact IH.
  - intros x Hx. apply in_map_iff in Hx as (c & <- & Hc). simpl.
    apply value_eqb_neq, Hleft. unfold labels. now apply in_map.
Qed.

Lemma joined_column_nth (keys names sizes : list value) (i : nat)
    (name : value) :
  NoDup keys ->
  nth_error names i = Some name ->
  let col :=
    map (fun k => fill0 match joined_row keys k with
                        | Some j => nth j sizes VNaN
                        | None => VNaN
                        end) names in
  (~ In name keys -> nth_error col i = Some (VInt 0)) /\
  (forall j, nth_error keys j = Some name ->
             nth_error col i = Some (fill0 (nth j sizes VNaN))).
Proof.
  intros Hnd Hi col. unfold col. rewrite nth_error_map, Hi. simpl.
  unfold joined_row. split.
  - intros Hout. now rewrite positions_absent.
  - intros j Hj. now rewrite (positions_present _ _ 0 j Hnd Hj).
Qed.

Lemma suffixed_absent (other : DataFrame) (suffix : string) (l : value) :
  has_label other l = false -> suffixed other suffix l = l.
Proof. unfold suffixed. now intros ->. Qed.

Lemma trading_partners_case_count (world : DataFrame)
    (partners names : list value) :
  has_label world "case_count" = false ->
  let sizes := groupby_size partners in
  getitem
    (fillna0
       (merge_left world (reset_index "Trading partners" "case_count" sizes)
          names (map fst sizes)))
    "case_count"
  = Ok (map (fun k => fill0 match joined_row (map fst sizes) k with
                            | Some j =>
                                nth j (map (fun e => VInt (snd e)) sizes) VNaN
                            | None => VNaN
                            end) names).
Proof.
  intros Hw sizes. rewrite getitem_merged_right.
  - cbn [reset_index df_columns find fst snd].
    assert (value_eqb (suffixed world "_y" "Trading partners") "case_count"
            = false) as ->.
    { unfold suffixed. now destruct (has_label world "Trading partners"). }
    rewrite (suffixed_absent world "_y" "case_count" Hw), value_eqb_refl.
    rewrite take_right_unique by apply groupby_size_NoDup.
    now rewrite map_map.
  - intros l Hl. unfold suffixed.
    destruct (has_label _ l) eqn:E.
    + unfold has_label, labels in E. cbn [reset_index df_columns map fst] in E.
      cbn [existsb] in E. rewrite orb_false_r in E.
      apply orb_true_iff in E as [E | E]; apply value_eqb_eq in E; subst;
        discriminate.
    + now apply (has_label_false world).
Qed.

Lemma world_map_count (world : DataFrame) (remedy_type : string)
    (index sizes names : list value) :
  has_label world remedy_type = false ->
  NoDup index ->
  getitem
    (fillna0
       (merge_left world
          {| df_index := index; df_columns := [(VStr remedy_type, sizes)] |}
          names index))
    remedy_type
  = Ok (map (fun k => fill0 match joined_row index k with
                            | Some j => nth j sizes VNaN
                            | None => VNaN
                            end) names).
Proof.
  intros Hw Hnd. rewrite getitem_merged_right.
  - cbn [df_columns find fst snd].
    rewrite (suffixed_absent world "_y" remedy_type Hw), value_eqb_refl.
    rewrite take_right_unique by assumption. now rewrite map_map.
  - intros l Hl. pose proof (has_label_false world _ l Hw Hl) as Hne.
    rewrite suffixed_absent; [exact Hne|].
    unfold has_label, labels. cbn [df_columns map fst existsb].
    rewrite orb_false_r. now apply value_eqb_neq.
Qed.

Lemma groupby_size_nth (partners : list value) (j : nat) (name : value) :
  let sizes := groupby_size partners in
  nth_error (map fst sizes) j = Some name ->
  exists n,
    nth_error (map (fun e => VInt (snd e)) sizes) j = Some (VInt n) /\
    fill0 (nth j (map (fun e => VInt (snd e)) sizes) VNaN) = VInt n.
Proof.
  intros sizes. rewrite nth_error_map.
  destruct (nth_error sizes j) as [e|] eqn:E; [|discriminate].
  intros _. exists (snd e).
  assert (nth_error (map (fun e => VInt (snd e)) sizes) j
          = Some (VInt (snd e))) as H
    by now rewrite nth_error_map, E.
  split; [exact H|]. now rewrite (nth_error_nth _ _ _ H).
Qed.

(** C3: in the frame either function returns (the map table having no column
    of the name of the count column), an entity whose name is not a key of the
    aggregation has the count 0, wherever it stands and whatever the
    aggregation holds; a name is matched by a key that equals it, character
    for character, and then has that key's count. *)
Theorem C3_unmatched_entities_zero (world df : DataFrame)
    (remedy_type : string) (r : DataFrame) :
  (has_label world "case_count" = false ->
   snd (get_world_with_data_trading_partners world df remedy_type) = Ok r ->
   exists cases_count keys sizes names counts,
     trading_partners_count df remedy_type = Ok cases_count /\
     getitem cases_count "Trading partners" = Ok keys /\
     getitem cases_count "case_count" = Ok sizes /\
     getitem world "name" = Ok names /\
     getitem r "case_count" = Ok counts /\
     List.length counts = List.length names /\
     forall i name,
       nth_error names i = Some name ->
       (~ In name keys -> nth_error counts i = Some (VInt 0)) /\
       (forall j, nth_error keys j = Some name ->
                  nth_error counts i = nth_error sizes j))
  /\ (has_label world remedy_type = false ->
      snd (get_world_with_data world df remedy_type) = Ok r ->
      exists cases_count sizes names counts,
        member_remedy_count (fst (get_world_with_data world df remedy_type))
        = Ok cases_count /\
        getitem cases_count remedy_type = Ok sizes /\
        getitem world "name" = Ok names /\
        getitem r remedy_type = Ok counts /\
        List.length counts = List.length names /\
        forall i name,
          nth_error names i = Some name ->
          (~ In name (df_index cases_count) ->
           nth_error counts i = Some (VInt 0)) /\
          (forall j, nth_error (df_index cases_count) j = Some name ->
                     nth_error counts i = Some (fill0 (nth j sizes VNaN)))).
Proof.
  split.
  - intros Hw H.
    destruct (trading_partners_map_inv _ _ _ _ H)
      as (cc & partners & names & Hcc & -> & Hn & ->).
    eexists _, _, _, names, _.
    split; [exact Hcc|].
    split; [apply getitem_reset_index_key|].
    split; [apply getitem_reset_index_name; discriminate|].
    split; [exact Hn|].
    split; [now apply trading_partners_case_count|].
    split; [now rewrite length_map|].
    intros i name Hi.
    destruct (joined_column_nth (map fst (groupby_size partners)) names
                (map (fun e => VInt (snd e)) (groupby_size partners))
                i name (groupby_size_NoDup partners) Hi) as [H0 H1].
    split; [exact H0|].
    intros j Hj. rewrite (H1 j Hj).
    destruct (groupby_size_nth partners j name Hj) as (n & -> & ->).
    reflexivity.
  - intros Hw H.
    destruct (world_map_inv _ _ _ _ H) as (cc & sizes & names & Hcc & Hs & Hn & ->).
    pose proof (member_remedy_count_index _ _ Hcc) as Hnd.
    exists cc, sizes, names. eexists.
    split; [exact Hcc|]. split; [exact Hs|]. split; [exact Hn|].
    split; [now apply world_map_count|].
    split; [now rewrite length_map|].
    intros i name Hi.
    exact (joined_column_nth (df_index cc) names sizes i name Hnd Hi).
Qed.

Lemma C3_unmatched_entities_zero_witness :
  exists cases_count keys sizes names counts,
    trading_partners_count sample_cases "Anti-dumping" = Ok cases_count /\
    getitem cases_count "Trading partners" = Ok keys /\
    getitem cases_count "case_count" = Ok sizes /\
    getitem sample_world "name" = Ok names /\
    getitem sample_joined "case_count" = Ok counts /\
    List.length counts = List.length names /\
    forall i name,
      nth_error names i = Some name ->
      (~ In name keys -> nth_error counts i = Some (VInt 0)) /\
      (forall j, nth_error keys j = Some name ->
                 nth_error counts i = nth_error sizes j).
Proof.
  apply (proj1 (C3_unmatched_entities_zero sample_world sample_cases
                  "Anti-dumping" sample_joined)).
  - reflexivity.
  - reflexivity.
Defined.

(** Matching tells upper case from lower case: the key [india] does not give
    its count to the entity [India]. *)
Example join_is_case_sensitive :
  getitem
    (fillna0 (merge_left sample_world
                (reset_index "Trading partners" "case_count"
                   [(VStr "india", 5%Z)])
                [VStr "India"; VStr "China"; VStr "Brazil"] [VStr "india"]))
    "case_count"
  = Ok [VInt 0; VInt 0; VInt 0].
Proof. reflexivity. Qed.

(** ** C10: the zero fill covers every column *)

Lemma fill0_present (v : value) : isna (fill0 v) = false.
Proof. now destruct v. Qed.

Lemma fill0_missing (v : value) : isna v = true -> fill0 v = VInt 0.
Proof. unfold fill0. now intros ->. Qed.

Lemma fillna0_no_missing (df : DataFrame) (label : value) (col : list value) :
  In (label, col) (df_columns (fillna0 df)) -> no_missing col.
Proof.
  simpl. intros H. apply in_map_iff in H as (c & [= <- <-] & _).
  apply Forall_forall. intros v Hv.
  apply in_map_iff in Hv as (w & <- & _). apply fill0_present.
Qed.

Lemma nth_error_map_snd {A B : Type} (l : list (A * B)) (k : nat) (b : B) :
  nth_error (map snd l) k = Some b -> exists a, nth_error l k = Some (a, b).
Proof.
  rewrite nth_error_map.
  destruct (nth_error l k) as [[a b']|]; simpl; [|discriminate].
  intros [= <-]. now exists a.
Qed.

(** C10: in the frame either function returns no cell of any column is
    missing; and when the map table is well formed each of its columns stands
    in the output at its place with its cells unchanged, but for the missing
    ones, which are 0. *)
Theorem C10_zero_fill_every_column (world df : DataFrame)
    (remedy_type : string) (r : DataFrame) :
  snd (get_world_with_data_trading_partners world df remedy_type) = Ok r
  \/ snd (get_world_with_data world df remedy_type) = Ok r ->
  (forall label col, In (label, col) (df_columns r) -> no_missing col) /\
  (wf_frame world ->
   forall k label col,
     nth_error (df_columns world) k = Some (label, col) ->
     exists label',
       nth_error (df_columns r) k = Some (label', map fill0 col) /\
       forall i v,
         nth_error col i = Some v ->
         nth_error (map fill0 col) i
         = Some (if isna v then VInt 0 else v)).
Proof.
  intros H. split.
  - destruct H as [H | H].
    + destruct (trading_partners_map_inv _ _ _ _ H)
        as (cc & partners & names & _ & _ & _ & ->).
      apply fillna0_no_missing.
    + destruct (world_map_inv _ _ _ _ H) as (cc & counts & names & _ & _ & _ & ->).
      apply fillna0_no_missing.
  - intros Hwf k label col Hk.
    destruct (map_functions_join _ _ _ _ H)
      as (right & names & right_keys & Hnd & Hn & Heq).
    pose proof (wf_frame_getitem world "name" names Hwf Hn) as Hlen.
    destruct (merge_left_unique world right names right_keys Hnd Hwf Hlen)
      as (_ & _ & Hcols).
    rewrite <- Heq in Hcols.
    assert (nth_error (map snd (df_columns r)) k = Some (map fill0 col)) as Hr.
    { rewrite Hcols, nth_error_app1.
      - now rewrite nth_error_map, Hk.
      - rewrite length_map. apply nth_error_Some. congruence. }
    apply nth_error_map_snd in Hr as (label' & Hr).
    exists label'. split; [exact Hr|].
    intros i v Hi. now rewrite nth_error_map, Hi.
Qed.

Lemma C10_zero_fill_every_column_witness :
  (forall label col, In (label, col) (df_columns sample_joined) ->
                     no_missing col) /\
  (wf_frame sample_world ->
   forall k label col,
     nth_error (df_columns sample_world) k = Some (label, col) ->
     exists label',
       nth_error (df_columns sample_joined) k = Some (label', map fill0 col) /\
       forall i v,
         nth_error col i = Some v ->
         nth_error (map fill0 col) i
         = Some (if isna v then VInt 0 else v)).
Proof.
  apply (C10_zero_fill_every_column sample_world sample_cases "Anti-dumping").
  left. reflexivity.
Defined.

(** The missing population of the second entity of the sample map is 0 in the
    joined frame. *)
Example sample_attribute_filled :
  getitem sample_world "pop_est" = Ok [VInt 1380; VNaN; VInt 212]
  /\ getitem sample_joined "pop_est" = Ok [VInt 1380; VInt 0; VInt 212].
Proof. split; reflexivity. Qed.

(** ** C9: what the calls do to the table of cases *)

Lemma find_set_column_same (key : value) (column : list value)
    (cols : list (value * list value)) :
  find (fun c => value_eqb (fst c) key) (set_column key column cols)
  = Some (key, column).
Proof.
  induction cols as [|c cols IH]; simpl.
  - now rewrite value_eqb_refl.
  - destruct (value_eqb (fst c) key) eqn:E; simpl.
    + now rewrite value_eqb_refl.
    + now rewrite E.
Qed.

Lemma find_set_column_other (key key' : value) (column : list value)
    (cols : list (value * list value)) :
  key' <> key ->
  find (fun c => value_eqb (fst c) key') (set_column key column cols)
  = find (fun c => value_eqb (fst c) key') cols.
Proof.
  intros Hne. assert (value_eqb key key' = false) as Hk
    by (apply value_eqb_neq; congruence).
  induction cols as [|c cols IH]; simpl.
  - now rewrite Hk.
  - destruct (value_eqb (fst c) key) eqn:E; simpl.
    + apply value_eqb_eq in E. rewrite Hk. rewrite <- E in Hk.
      now rewrite Hk.
    + destruct (value_eqb (fst c) key'); [reflexivity | exact IH].
Qed.

Lemma getitem_setitem_same (df : DataFrame) (key : value)
    (column : list value) :
  getitem (setitem df key column) key = Ok column.
Proof.
  unfold getitem, setitem. simpl. now rewrite find_set_column_same.
Qed.

Lemma getitem_setitem_other (df : DataFrame) (key key' : value)
    (column : list value) :
  key' <> key -> getitem (setitem df key column) key' = getitem df key'.
Proof.
  intros Hne. unfold getitem, setitem. simpl.
  now rewrite find_set_column_other.
Qed.

(** C9, as stated, fails: after [get_world_with_data] the table of cases has
    one column more than before. *)
Lemma C9_world_map_adds_column :
  fst (get_world_with_data sample_world sample_cases "Anti-dumping")
  <> sample_cases
  /\ getitem sample_cases "Remedy Type" = Raise (KeyError "Remedy Type")
  /\ getitem (fst (get_world_with_data sample_world sample_cases
                     "Anti-dumping")) "Remedy Type"
     = Ok [VStr "Anti-dumping"; VStr "Anti-dumping"; VStr "Anti-dumping";
           VStr "Countervailing"].
Proof.
  split; [|split; reflexivity].
  intros H. apply (f_equal (fun d => List.length (df_columns d))) in H.
  vm_compute in H. discriminate H.
Qed.

(** The two ways line 15 of [get_world_with_data] can go once the table has
    a [Type] column. *)
Lemma world_map_granted (world df : DataFrame) (remedy_type : string)
    (type : list value) :
  getitem df "Type" = Ok type ->
  str_accessor type = Ok type ->
  get_world_with_data world df remedy_type
  = (setitem df "Remedy Type" (map remedy_of type),
     cases_count <-
       member_remedy_count (setitem df "Remedy Type" (map remedy_of type)) ;;
     selected <- getitem_list1 cases_count remedy_type ;;
     join_world world selected).
Proof.
  intros Ht Hacc. unfold get_world_with_data. now rewrite Ht, Hacc.
Qed.

Lemma world_map_refused (world df : DataFrame) (remedy_type : string)
    (type : list value) (e : exn) :
  getitem df "Type" = Ok type ->
  str_accessor type = Raise e ->
  get_world_with_data world df remedy_type = (df, Raise e).
Proof.
  intros Ht Hacc. unfold get_world_with_data. now rewrite Ht, Hacc.
Qed.

Lemma str_accessor_cases (col : list value) :
  str_accessor col = Ok col
  \/ str_accessor col
     = Raise (AttributeError "Can only use .str accessor with string values!").
Proof.
  unfold str_accessor. destruct (filter _ col); [now left|].
  destruct (forallb _ _); [now right | now left].
Qed.

(** C9, amended: [get_world_with_data_trading_partners] leaves the table of
    cases as it was.  [get_world_with_data] keeps its rows and every column
    but [Remedy Type].  When the [Type] column holds text, the call sets
    [Remedy Type] (adding it when the table has none) to the remedy of each
    row, whether it then returns or raises; when the present cells of [Type]
    are all numbers, the accessor is refused with an [AttributeError] and the
    table is left as it was; on any [Type] column one of the two happens.
    When the table has no [Type] column the call raises and changes
    nothing. *)
Theorem C9_case_table_after_call (world df : DataFrame)
    (remedy_type : string) :
  fst (get_world_with_data_trading_partners world df remedy_type) = df
  /\ df_index (fst (get_world_with_data world df remedy_type)) = df_index df
  /\ (forall key,
         key <> VStr "Remedy Type" ->
         getitem (fst (get_world_with_data world df remedy_type)) key
         = getitem df key)
  /\ (forall type,
         getitem df "Type" = Ok type ->
         has_text type ->
         getitem (fst (get_world_with_data world df remedy_type))
           "Remedy Type"
         = Ok (map remedy_of type))
  /\ (forall type,
         getitem df "Type" = Ok type ->
         numbers_only type ->
         get_world_with_data world df remedy_type
         = (df, Raise (AttributeError
                         "Can only use .str accessor with string values!")))
  /\ (forall type,
         getitem df "Type" = Ok type ->
         getitem (fst (get_world_with_data world df remedy_type))
           "Remedy Type"
         = Ok (map remedy_of type)
         \/ get_world_with_data world df remedy_type
            = (df, Raise (AttributeError
                            "Can only use .str accessor with string values!")))
  /\ (forall e,
         getitem df "Type" = Raise e ->
         get_world_with_data world df remedy_type = (df, Raise e)).
Proof.
  split; [reflexivity|].
  destruct (getitem df "Type") as [type|e] eqn:Ht.
  - destruct (str_accessor_cases type) as [Hacc | Hacc].
    + rewrite (world_map_granted world df remedy_type type Ht Hacc).
      cbn [fst].
      split; [reflexivity|]. split; [|split; [|split; [|split]]].
      * intros key Hne. now apply getitem_setitem_other.
      * intros type' [= <-] _. apply getitem_setitem_same.
      * intros type' [= <-] Hnum.
        rewrite (str_accessor_numbers _ Hnum) in Hacc. discriminate.
      * intros type' [= <-]. left. apply getitem_setitem_same.
      * discriminate.
    + rewrite (world_map_refused world df remedy_type type _ Ht Hacc).
      cbn [fst].
      split; [reflexivity|]. split; [|split; [|split; [|split]]].
      * reflexivity.
      * intros type' [= <-] Htext.
        rewrite (str_accessor_text _ Htext) in Hacc. discriminate.
      * reflexivity.
      * intros type' _. now right.
      * discriminate.
  - unfold get_world_with_data. rewrite Ht. cbn [fst].
    split; [reflexivity|]. split; [reflexivity|].
    split; [discriminate|]. split; [discriminate|]. split; [discriminate|].
    now intros e' [= <-].
Qed.

Lemma C9_case_table_after_call_witness :
  getitem (fst (get_world_with_data sample_world mixed_cases
                  "Anti-dumping")) "Remedy Type"
  = Ok [VStr "Anti-dumping"; VNone; VNaN; VNaN; VStr "Countervailing"]
  /\ get_world_with_data sample_world numeric_cases "Anti-dumping"
     = (numeric_cases,
        Raise (AttributeError
                 "Can only use .str accessor with string values!"))
  /\ get_world_with_data sample_world sample_world "Anti-dumping"
     = (sample_world, Raise (KeyError "Type")).
Proof.
  split; [|split].
  - apply (proj1 (proj2 (proj2 (proj2
             (C9_case_table_after_call sample_world mixed_cases
                "Anti-dumping")))) 
             [VStr "Anti-dumping"; VNone; VInt 3; VNaN;
              VStr "Definitive / Countervailing "]).
    + reflexivity.
    + exists "Anti-dumping". simpl. now left.
  - apply (proj1 (proj2 (proj2 (proj2 (proj2
             (C9_case_table_after_call sample_world numeric_cases
                "Anti-dumping"))))) [VInt 1; VInt 2]).
    + reflexivity.
    + split.
      * exists 1%Z. simpl. now left.
      * simpl. intros v [<- | [<- | []]]; now right.
  - apply (proj2 (proj2 (proj2 (proj2 (proj2 (proj2
             (C9_case_table_after_call sample_world sample_world
                "Anti-dumping")))))) (KeyError "Type")).
    reflexivity.
Defined.

(** ** C8: a remedy type without rows *)

Lemma getitem_unstack_absent (fill_value : Z)
    (sizes : list ((value * value) * Z)) (key : value) :
  ~ In key (map (fun e => snd (fst e)) sizes) ->
  getitem (unstack fill_value sizes) key = Raise (KeyError key).
Proof.
  intros Hout. unfold getitem. rewrite find_none_all; [reflexivity|].
  intros c Hc. simpl in Hc. apply in_map_iff in Hc as (l & <- & Hl). simpl.
  apply value_eqb_neq. intros ->.
  apply sort_In, nodup_In in Hl. contradiction.
Qed.

Lemma groupby2_size_second_key (keys1 keys2 : list value) (k : value) :
  In k (map (fun e => snd (fst e)) (groupby2_size keys1 keys2)) ->
  In k keys2.
Proof.
  unfold groupby2_size. rewrite map_map. simpl. intros H.
  apply in_map_iff in H as ([a b] & <- & Hp).
  apply sort_In, nodup_In, filter_In in Hp as [Hp _].
  now apply in_combine_r in Hp.
Qed.

(** With no row of the remedy type, the group sizes have no column for it
    and the selection by the list of one label raises. *)
Lemma world_map_selection_raises (world df : DataFrame)
    (remedy_type : string) (type members : list value) :
  getitem df "Member/Observer" = Ok members ->
  (forall v, In v type -> remedy_of v <> VStr remedy_type) ->
  (cases_count <-
     member_remedy_count (setitem df "Remedy Type" (map remedy_of type)) ;;
   selected <- getitem_list1 cases_count remedy_type ;;
   join_world world selected)
  = Raise (KeyErrorNoneOf [VStr remedy_type]).
Proof.
  intros Hm Hnone. unfold member_remedy_count.
  rewrite getitem_setitem_other by discriminate. rewrite Hm. cbn [bind].
  rewrite getitem_setitem_same. cbn [bind]. unfold getitem_list1.
  rewrite getitem_unstack_absent; [reflexivity|].
  intros Hin. apply groupby2_size_second_key in Hin.
  apply in_map_iff in Hin as (v & Hv & Hin). exact (Hnone v Hin Hv).
Qed.

(** C8 on [get_world_with_data]: when no row of the table has the remedy type
    asked for, the call raises instead of returning a frame of zero counts.
    It raises the [KeyError] of the selection of the remedy type's column,
    after having set [Remedy Type], when the [Type] column holds text; when
    the present cells of [Type] are all numbers it raises the
    [AttributeError] of the accessor before that; on any [Type] column it
    raises one of the two. *)
Theorem C8_world_map_raises_without_rows (world df : DataFrame)
    (remedy_type : string) (type members : list value) :
  getitem df "Type" = Ok type ->
  getitem df "Member/Observer" = Ok members ->
  (forall v, In v type -> remedy_of v <> VStr remedy_type) ->
  (snd (get_world_with_data world df remedy_type)
   = Raise (KeyErrorNoneOf [VStr remedy_type])
   \/ snd (get_world_with_data world df remedy_type)
      = Raise (AttributeError
                 "Can only use .str accessor with string values!"))
  /\ (has_text type ->
      get_world_with_data world df remedy_type
      = (setitem df "Remedy Type" (map remedy_of type),
         Raise (KeyErrorNoneOf [VStr remedy_type])))
  /\ (numbers_only type ->
      get_world_with_data world df remedy_type
      = (df, Raise (AttributeError
                      "Can only use .str accessor with string values!"))).
Proof.
  intros Ht Hm Hnone.
  destruct (str_accessor_cases type) as [Hacc | Hacc].
  - rewrite (world_map_granted world df remedy_type type Ht Hacc).
    rewrite (world_map_selection_raises world df remedy_type type members
               Hm Hnone).
    cbn [snd]. split; [now left|]. split; [reflexivity|].
    intros Hnum. rewrite (str_accessor_numbers _ Hnum) in Hacc. discriminate.
  - rewrite (world_map_refused world df remedy_type type _ Ht Hacc).
    cbn [snd]. split; [now right|]. split; [|reflexivity].
    intros Htext. rewrite (str_accessor_text _ Htext) in Hacc. discriminate.
Qed.

Lemma C8_world_map_raises_without_rows_witness :
  get_world_with_data sample_world anti_dumping_only "Countervailing"
  = (setitem anti_dumping_only "Remedy Type"
       [VStr "Anti-dumping"; VStr "Anti-dumping"],
     Raise (KeyErrorNoneOf [VStr "Countervailing"]))
  /\ get_world_with_data sample_world numeric_cases "Countervailing"
     = (numeric_cases,
        Raise (AttributeError
                 "Can only use .str accessor with string values!")).
Proof.
  split.
  - refine (proj1 (proj2
              (C8_world_map_raises_without_rows sample_world anti_dumping_only
                 "Countervailing"
                 [VStr "Anti-dumping"; VStr "Anti-dumping"]
                 [VStr "India"; VStr "Brazil"] _ _ _)) _).
    + reflexivity.
    + reflexivity.
    + simpl. intros v [<- | [<- | []]]; discriminate.
    + exists "Anti-dumping". simpl. now left.
  - refine (proj2 (proj2
              (C8_world_map_raises_without_rows sample_world numeric_cases
                 "Countervailing" [VInt 1; VInt 2]
                 [VStr "India"; VStr "Brazil"] _ _ _)) _).
    + reflexivity.
    + reflexivity.
    + simpl. intros v [<- | [<- | []]]; discriminate.
    + split.
      * exists 1%Z. simpl. now left.
      * simpl. intros v [<- | [<- | []]]; now right.
Defined.

Lemma mask_select_none {A : Type} (mask : list bool) (l : list A) :
  (forall b, In b mask -> b = false) -> mask_select mask l = [].
Proof.
  revert l. induction mask as [|b mask IH]; intros [|x l] H; simpl;
    try reflexivity.
  rewrite (H b) by now left. apply IH. intros b' Hb'. apply H. now right.
Qed.

(** The other script does what C8 says: with no row of the remedy type, the
    call returns a frame in which every entity has the count 0. *)
Lemma trading_partners_map_without_rows (world df : DataFrame)
    (remedy_type : string) (type partners names : list value) :
  getitem df "Type" = Ok type ->
  has_text type ->
  getitem df "Trading partners" = Ok partners ->
  getitem world "name" = Ok names ->
  has_label world "case_count" = false ->
  (forall v, In v type -> str_contains remedy_type v <> Some true) ->
  exists r,
    snd (get_world_with_data_trading_partners world df remedy_type) = Ok r /\
    getitem r "case_count" = Ok (map (fun _ => VInt 0) names).
Proof.
  intros Ht Htext Hp Hn Hw Hnone.
  unfold get_world_with_data_trading_partners. cbn [snd].
  unfold trading_partners_count, filter_remedy. rewrite Ht. cbn [bind].
  rewrite (str_contains_na_false_granted _ _ (str_accessor_text _ Htext)).
  cbn [bind].
  rewrite getitem_mask_getitem, Hp. cbn [bind].
  rewrite mask_select_none.
  - rewrite getitem_reset_index_key. cbn [bind]. rewrite Hn. cbn [bind].
    eexists. split; [reflexivity|].
    rewrite (trading_partners_case_count world [] names Hw).
    f_equal.
  - intros b Hb. unfold contains_mask in Hb.
    apply in_map_iff in Hb as (v & <- & Hv).
    specialize (Hnone v Hv).
    destruct (str_contains remedy_type v) as [[|]|]; congruence.
Qed.

Example trading_partners_map_countervailing :
  exists r,
    snd (get_world_with_data_trading_partners sample_world anti_dumping_only
           "Countervailing") = Ok r /\
    getitem r "case_count" = Ok [VInt 0; VInt 0; VInt 0].
Proof. eexists. split; reflexivity. Qed.

(** * Further properties of the scripts *)

(** ** Splitting and joining *)

Lemma str_find_substring_false (sep a b : string) :
  substring_of a b -> str_find sep b = false -> str_find sep a = false.
Proof.
  intros Hab Hb. apply not_true_iff_false. intros Ha.
  apply str_find_true_iff in Ha.
  apply not_true_iff_false in Hb. apply Hb, str_find_true_iff.
  eapply substring_of_trans; eassumption.
Qed.

Lemma prefix_nonempty_empty (sep : string) :
  sep <> EmptyString -> prefix sep EmptyString = false.
Proof. destruct sep; [congruence | reflexivity]. Qed.

Lemma prefix_extend (sep a post : string) :
  prefix sep a = true -> prefix sep (a ++ post) = true.
Proof.
  rewrite !prefix_true_iff. intros (q & ->). exists (q ++ post)%string.
  apply append_assoc.
Qed.

(** No piece of a split holds the separator. *)
Lemma split_from_no_separator (sep s : string) (skip : nat) (t : string) :
  sep <> EmptyString ->
  In t (split_from sep s skip) -> str_find sep t = false.
Proof.
  intros Hsep. revert skip t.
  induction s as [|c s IH]; intros skip t; cbn [split_from].
  - intros [<- | []]. cbn [str_find].
    now rewrite prefix_nonempty_empty.
  - destruct skip as [|k]; [|apply IH].
    destruct (prefix sep (String c s)) eqn:Ep.
    + intros [<- | H]; [|eapply IH, H].
      cbn [str_find]. now rewrite prefix_nonempty_empty.
    + destruct (split_from sep s 0) as [|h tl] eqn:E.
      * now destruct (split_from_nonempty sep s 0).
      * intros [<- | H].
        -- cbn [str_find]. rewrite (IH 0 h) by (rewrite E; now left).
           rewrite orb_false_r. apply not_true_iff_false. intros Hp.
           destruct (split_from_head_prefix _ _ _ _ E) as (post & ->).
           apply (prefix_extend _ _ post) in Hp.
           change (String c h ++ post)%string
             with (String c (h ++ post)) in Hp.
           congruence.
        -- apply (IH 0). rewrite E. now right.
Qed.

(** A text without the separator is its own single piece. *)
Lemma split_without_separator (sep s : string) :
  str_find sep s = false -> split sep s = [s].
Proof.
  unfold split. induction s as [|c s IH]; [reflexivity|].
  cbn [str_find split_from]. intros H.
  apply orb_false_iff in H as [Hp Hs]. rewrite Hp, (IH Hs). reflexivity.
Qed.

Lemma drop_chars_append (a b : string) :
  drop_chars (String.length a) (a ++ b) = b.
Proof. induction a as [|c a IH]; simpl; [now destruct b | exact IH]. Qed.

Lemma concat_cons_piece (sep : string) (c : ascii) (h : string)
    (tl : list string) :
  String.concat sep (String c h :: tl)
  = String c (String.concat sep (h :: tl)).
Proof. destruct tl; reflexivity. Qed.

Lemma concat_empty_head (sep : string) (l : list string) :
  l <> [] ->
  String.concat sep (EmptyString :: l) = (sep ++ String.concat sep l)%string.
Proof. destruct l; [congruence | reflexivity]. Qed.

(** [sep.join(s.split(sep)) == s]: joining the pieces gives the text back. *)
Lemma concat_split_from (sep s : string) (skip : nat) :
  sep <> EmptyString ->
  skip <= String.length s ->
  String.concat sep (split_from sep s skip) = drop_chars skip s.
Proof.
  intros Hsep. revert skip.
  induction s as [|c s IH]; intros skip Hskip; cbn [split_from].
  - now destruct skip.
  - destruct skip as [|k].
    + destruct (prefix sep (String c s)) eqn:Ep.
      * apply prefix_true_iff in Ep as (post & Ep).
        destruct sep as [|d sep']; [congruence|].
        simpl in Ep. injection Ep as <- ->.
        cbn [String.length]. rewrite Nat.sub_1_r. cbn [Nat.pred].
        rewrite concat_empty_head by apply split_from_nonempty.
        rewrite IH.
        -- now rewrite drop_chars_append.
        -- clear. induction sep'; simpl; lia.
      * destruct (split_from sep s 0) as [|h tl] eqn:E.
        -- now destruct (split_from_nonempty sep s 0).
        -- rewrite concat_cons_piece, <- E, (IH 0) by lia.
           reflexivity.
    + simpl in Hskip. cbn [drop_chars]. apply IH. lia.
Qed.

Lemma map_fixed {A : Type} (f : A -> A) (l : list A) :
  Forall (fun x => f x = x) l -> map f l = l.
Proof.
  induction 1 as [|x l Hx _ IH]; simpl; [reflexivity | now rewrite Hx, IH].
Qed.

(** ** clean_and_split: the tokens *)

(** X1: no token of the output holds the separator: a comma followed by a
    space never survives in a token. *)
Theorem X1_tokens_hold_no_separator (col : list value) (t : string) :
  In t (clean_and_split col) -> str_find ", " t = false.
Proof.
  unfold clean_and_split. rewrite in_flat_map.
  intros (sublist & Hsub & Ht).
  apply in_map_iff in Hsub as (v & <- & _).
  apply in_map_iff in Ht as (u & <- & Hu).
  apply (str_find_substring_false _ _ u (strip_substring u)).
  apply (split_from_no_separator ", " (py_str v) 0 u); [discriminate|].
  exact Hu.
Qed.

Lemma X1_tokens_hold_no_separator_witness : str_find ", " "63," = false.
Proof.
  apply (X1_tokens_hold_no_separator [VStr "62, 63,, 64"] "63,").
  simpl. auto.
Defined.

Lemma single_token (v : value) :
  str_find ", " (py_str v) = false ->
  clean_and_split [v] = [strip (py_str v)].
Proof.
  intros H. unfold clean_and_split. cbn [map flat_map].
  now rewrite app_nil_r, split_without_separator.
Qed.

(** X2: a cell whose text holds no separator gives exactly one token, its
    text stripped; and whenever the pieces of a cell are already trimmed,
    joining its tokens with the separator gives the text of the cell back. *)
Theorem X2_cell_tokens_round_trip (v : value) :
  (str_find ", " (py_str v) = false ->
   clean_and_split [v] = [strip (py_str v)])
  /\ (Forall (fun u => strip u = u) (split ", " (py_str v)) ->
      String.concat ", " (clean_and_split [v]) = py_str v).
Proof.
  unfold clean_and_split. cbn [map flat_map]. rewrite app_nil_r. split.
  - intros H. now rewrite split_without_separator.
  - intros H. rewrite (map_fixed strip _ H). unfold split.
    rewrite concat_split_from; [reflexivity | discriminate | apply Nat.le_0_l].
Qed.

Lemma X2_cell_tokens_round_trip_witness :
  clean_and_split [VStr " 72 "] = [strip " 72 "]
  /\ String.concat ", " (clean_and_split [VStr "72, 73,, 84"])
     = "72, 73,, 84".
Proof.
  split.
  - apply (proj1 (X2_cell_tokens_round_trip (VStr " 72 "))). reflexivity.
  - apply (proj2 (X2_cell_tokens_round_trip (VStr "72, 73,, 84"))).
    repeat constructor.
Defined.

(** ** The remedy type of a row (add_cvd_world_map.py, line 15) *)

Lemma split_ends_with (pre post : string) :
  str_find "/" post = false ->
  exists l, l <> [] /\ split "/" (pre ++ "/" ++ post) = (l ++ [post])%list.
Proof.
  intros Hpost. unfold split. induction pre as [|d pre (l & Hl & IH)].
  - exists [EmptyString]. split; [discriminate|].
    change ("" ++ "/" ++ post)%string with (String "/" post).
    cbn [split_from prefix]. destruct (ascii_dec "/" "/"); [|congruence].
    destruct post; cbn [String.length Nat.sub app].
    + reflexivity.
    + fold (split "/" (String a post)).
      now rewrite (split_without_separator "/" _ Hpost).
  - change (String d pre ++ "/" ++ post)%string
      with (String d (pre ++ "/" ++ post)).
    cbn [split_from]. destruct (prefix "/" (String d (pre ++ "/" ++ post))).
    + cbn [String.length Nat.sub]. rewrite IH.
      exists (EmptyString :: l). split; [discriminate | reflexivity].
    + rewrite IH. destruct l as [|h l]; [congruence|].
      exists (String d h :: l). split; [discriminate | reflexivity].
Qed.

(** X3: the remedy type of a row is what stands after the last slash of its
    [Type], stripped (the whole [Type], stripped, when it has no slash); it
    is trimmed and holds no slash; a [Type] that is [None] stays [None], and
    any other [Type] that is not a string gives the missing value [nan]. *)
Theorem X3_remedy_type_of_row :
  (forall pre post : string,
      str_find "/" post = false ->
      remedy_of (VStr (pre ++ "/" ++ post)) = VStr (strip post))
  /\ (forall s : string,
         str_find "/" s = false -> remedy_of (VStr s) = VStr (strip s))
  /\ (forall s : string,
         exists t, remedy_of (VStr s) = VStr t /\ trimmed t
                   /\ str_find "/" t = false /\ substring_of t s)
  /\ remedy_of VNone = VNone
  /\ (forall v,
         (forall s, v <> VStr s) -> v <> VNone -> remedy_of v = VNaN).
Proof.
  split; [|split; [|split; [|split]]].
  - intros pre post Hpost. unfold remedy_of.
    destruct (split_ends_with pre post Hpost) as (l & _ & ->).
    now rewrite last_last.
  - intros s Hs. unfold remedy_of. now rewrite split_without_separator.
  - intros s. unfold remedy_of. eexists. split; [reflexivity|].
    assert (In (last (split "/" s) EmptyString) (split "/" s)) as Hin.
    { pose proof (split_from_nonempty "/" s 0) as Hne.
      unfold split. destruct (split_from "/" s 0) as [|x l] eqn:E;
        [congruence|].
      rewrite <- E. rewrite E at 1.
      destruct (exists_last (l := x :: l)) as (l' & y & Hl); [discriminate|].
      rewrite E, Hl, last_last. apply in_or_app. right. now left. }
    split; [apply strip_trimmed|]. split.
    + apply (str_find_substring_false _ _ _ (strip_substring _)).
      apply (split_from_no_separator "/" s 0); [discriminate | exact Hin].
    + eapply substring_of_trans; [apply strip_substring|].
      apply (split_from_substring "/" s 0), Hin.
  - reflexivity.
  - intros v Hv Hnone. destruct v; try reflexivity; [now destruct (Hv s)|].
    now destruct Hnone.
Qed.

Lemma X3_remedy_type_of_row_witness :
  remedy_of (VStr ("India / EU" ++ "/" ++ " Anti-dumping "))
  = VStr (strip " Anti-dumping ")
  /\ remedy_of (VStr " Countervailing") = VStr (strip " Countervailing")
  /\ remedy_of (VInt 3) = VNaN.
Proof.
  split; [|split].
  - apply (proj1 X3_remedy_type_of_row). reflexivity.
  - apply (proj1 (proj2 X3_remedy_type_of_row)). reflexivity.
  - apply (proj2 (proj2 (proj2 (proj2 X3_remedy_type_of_row)))); discriminate.
Defined.

(** ** Counter: the counts *)

Section CounterCounts.
Context {K : Type} (eqb : K -> K -> bool).
Context (dec : forall a b : K, {a = b} + {a <> b}).
Hypothesis eqb_eq : forall a b, eqb a b = true <-> a = b.

Lemma eqb_same (a : K) : eqb a a = true.
Proof. now apply eqb_eq. Qed.

Lemma eqb_differs (a b : K) : a <> b -> eqb a b = false.
Proof.
  intros H. apply not_true_iff_false. intros E. now apply eqb_eq in E.
Qed.

Lemma counter_get_incr (k elem : K) (c : list (K * Z)) :
  counter_get eqb k (counter_incr eqb elem c)
  = (counter_get eqb k c + if dec elem k then 1 else 0)%Z.
Proof.
  induction c as [|[k' n] c IH]; simpl.
  - destruct (dec elem k) as [->|Hne].
    + now rewrite eqb_same.
    + rewrite eqb_differs by congruence. reflexivity.
  - destruct (eqb elem k') eqn:E; simpl.
    + apply eqb_eq in E. subst k'. destruct (dec elem k) as [->|Hne].
      * now rewrite eqb_same.
      * rewrite eqb_differs by congruence. lia.
    + destruct (eqb k k') eqn:E'; [|exact IH].
      apply eqb_eq in E'. subst k'.
      destruct (dec elem k) as [->|Hne]; [|lia].
      now rewrite eqb_same in E.
Qed.

Lemma counter_get_Counter (l : list K) (k : K) :
  counter_get eqb k (Counter eqb l) = Z.of_nat (count_occ dec l k).
Proof.
  induction l as [|x l IH] using rev_ind; [reflexivity|].
  rewrite Counter_snoc, counter_get_incr, IH, count_occ_app. simpl.
  destruct (dec x k); lia.
Qed.

Lemma counter_get_In (c : list (K * Z)) (k : K) (n : Z) :
  NoDup (map fst c) -> In (k, n) c -> counter_get eqb k c = n.
Proof.
  induction c as [|[k' n'] c IH]; simpl; [tauto|].
  intros Hnd [[= -> ->] | Hin].
  - now rewrite eqb_same.
  - inversion Hnd as [|? ? Hk' Hnd']; subst.
    rewrite eqb_differs; [now apply IH|].
    intros ->. apply Hk'. now apply (in_map fst) in Hin.
Qed.

Lemma Counter_keys_NoDup (l : list K) : NoDup (map fst (Counter eqb l)).
Proof.
  induction l as [|x l IH] using rev_ind; [constructor|].
  rewrite Counter_snoc, counter_incr_keys.
  destruct (existsb (eqb x) (map fst (Counter eqb l))) eqn:E; [exact IH|].
  apply NoDup_app; [exact IH | repeat constructor; simpl; tauto|].
  intros y Hy [<- | []].
  apply (existsb_eqb_In eqb eqb_eq) in Hy. congruence.
Qed.

(** An entry of a [Counter] holds the number of occurrences of its key. *)
Lemma Counter_entry (l : list K) (k : K) (n : Z) :
  In (k, n) (Counter eqb l) -> n = Z.of_nat (count_occ dec l k).
Proof.
  intros H. rewrite <- counter_get_Counter. symmetry.
  apply counter_get_In; [apply Counter_keys_NoDup | exact H].
Qed.

Lemma Counter_has_key (l : list K) (k : K) :
  In k l -> In (k, Z.of_nat (count_occ dec l k)) (Counter eqb l).
Proof.
  intros H. apply (Counter_keys_In eqb eqb_eq) in H.
  apply in_map_iff in H as ([k' n] & Hk & Hin). simpl in Hk. subst k'.
  now rewrite <- (Counter_entry _ _ _ Hin).
Qed.

Lemma Counter_length (l : list K) :
  List.length (Counter eqb l) = List.length (nodup dec l).
Proof.
  rewrite <- (length_map fst). apply Permutation_length.
  apply NoDup_Permutation; [apply Counter_keys_NoDup | apply NoDup_nodup|].
  intros k. rewrite nodup_In. apply (Counter_keys_In eqb eqb_eq).
Qed.
End CounterCounts.

Section SortedPerm.
Context {K : Type}.

Lemma insert_desc_perm (x : K * Z) (l : list (K * Z)) :
  Permutation (insert_desc x l) (x :: l).
Proof.
  induction l as [|y l IH]; simpl; [reflexivity|].
  destruct (snd x <? snd y)%Z; [|reflexivity].
  rewrite IH. apply perm_swap.
Qed.

Lemma sorted_desc_perm (l : list (K * Z)) : Permutation (sorted_desc l) l.
Proof.
  induction l as [|x l IH]; simpl; [reflexivity|].
  rewrite insert_desc_perm. now constructor.
Qed.

Lemma in_app_before {A : Type} (x y : A) (l1 l2 : list A) :
  In x l1 -> In y l2 -> before x y (l1 ++ l2).
Proof.
  intros Hx Hy. apply in_split in Hx as (a & b & ->).
  apply in_split in Hy as (c & d & ->).
  exists a, (b ++ c)%list, d. rewrite <- !app_assoc. reflexivity.
Qed.

(** An entry left out of the first [n] has at most the count of each entry
    kept. *)
Lemma most_common_dominates (n : Z) (c : list (K * Z)) (x y : K * Z) :
  In x (most_common (Some n) c) ->
  In y c -> ~ In y (most_common (Some n) c) ->
  count_ge x y.
Proof.
  simpl. intros Hx Hy Hout.
  apply (sorted_desc_ordered c). apply (proj2 (sorted_desc_In _ _)) in Hy.
  rewrite <- (firstn_skipn (Z.to_nat n) (sorted_desc c)) in Hy |- *.
  apply in_app_or in Hy as [Hy | Hy]; [contradiction|].
  now apply in_app_before.
Qed.

Lemma most_common_keys_NoDup (n : Z) (c : list (K * Z)) :
  NoDup (map fst c) -> NoDup (map fst (most_common (Some n) c)).
Proof.
  intros Hnd. simpl.
  assert (NoDup (map fst (sorted_desc c))) as Hs.
  { eapply Permutation_NoDup; [|exact Hnd].
    apply Permutation_map. symmetry. apply sorted_desc_perm. }
  rewrite <- (firstn_skipn (Z.to_nat n) (sorted_desc c)), map_app in Hs.
  now apply NoDup_app_remove_r in Hs.
Qed.
End SortedPerm.

(** ** get_top_partners: what a ranking holds *)

Lemma firstn_member {A : Type} (n : nat) (l : list A) (x : A) :
  In x (firstn n l) -> In x l.
Proof.
  intros H. rewrite <- (firstn_skipn n l). apply in_or_app. now left.
Qed.

(** X4: in every ranking returned, each partner stands once, is a trading
    partner of a row kept for the chapter, and carries the number of those
    rows that name it, which is at least 1. *)
Theorem X4_ranking_counts (data : DataFrame) (chapters : list string)
    (top_n : Z) (d : list (string * list (value * Z))) (chapter : string)
    (ranking : list (value * Z)) :
  get_top_partners data chapters top_n = Ok d ->
  In (chapter, ranking) d ->
  exists partners,
    chapter_partners data chapter = Ok partners /\
    NoDup (map fst ranking) /\
    forall p n,
      In (p, n) ranking ->
      In p partners /\ n = occurrences partners p /\ (1 <= n)%Z.
Proof.
  intros Hd Hin.
  destruct (get_top_partners_entries _ _ _ _ _ _ Hd Hin)
    as (partners & Hp & ->).
  exists partners. split; [exact Hp|]. split.
  - apply most_common_keys_NoDup.
    apply (Counter_keys_NoDup value_eqb value_eqb_eq).
  - intros p n Hpn. simpl in Hpn. apply firstn_member in Hpn.
    apply (proj1 (sorted_desc_In _ _)) in Hpn.
    assert (In p partners) as Hpin.
    { apply Counter_key_counted. now apply (in_map fst) in Hpn. }
    split; [exact Hpin|].
    apply (Counter_entry value_eqb value_eq_dec value_eqb_eq) in Hpn.
    split; [exact Hpn|]. subst n.
    apply (count_occ_In value_eq_dec) in Hpin. lia.
Qed.

Lemma X4_ranking_counts_witness :
  exists partners,
    chapter_partners sample_cases "72" = Ok partners /\
    NoDup (map fst [(VStr "Korea", 2%Z); (VStr "China", 1%Z)]) /\
    forall p n,
      In (p, n) [(VStr "Korea", 2%Z); (VStr "China", 1%Z)] ->
      In p partners /\ n = occurrences partners p /\ (1 <= n)%Z.
Proof.
  apply (X4_ranking_counts sample_cases ["72"] 3%Z
           [("72", [(VStr "Korea", 2%Z); (VStr "China", 1%Z)])] "72").
  - reflexivity.
  - simpl. auto.
Defined.

(** X5: a ranking has as many entries as there are distinct partners among
    the rows kept for the chapter, but no more than N (none for an N that is
    not positive); and a partner of those rows left out of the ranking is
    named by no more rows than any partner in it. *)
Theorem X5_ranking_is_the_top (data : DataFrame) (chapters : list string)
    (top_n : Z) (d : list (string * list (value * Z))) (chapter : string)
    (ranking : list (value * Z)) :
  get_top_partners data chapters top_n = Ok d ->
  In (chapter, ranking) d ->
  exists partners,
    chapter_partners data chapter = Ok partners /\
    List.length ranking
    = Nat.min (Z.to_nat top_n) (List.length (nodup value_eq_dec partners)) /\
    forall q,
      In q partners -> ~ In q (map fst ranking) ->
      forall p n, In (p, n) ranking -> (occurrences partners q <= n)%Z.
Proof.
  intros Hd Hin.
  destruct (get_top_partners_entries _ _ _ _ _ _ Hd Hin)
    as (partners & Hp & ->).
  exists partners. split; [exact Hp|]. split.
  - simpl. rewrite length_firstn, sorted_desc_length.
    now rewrite (Counter_length value_eqb value_eq_dec value_eqb_eq).
  - intros q Hq Hout p n Hpn.
    apply (Counter_has_key value_eqb value_eq_dec value_eqb_eq) in Hq.
    fold (occurrences partners q) in Hq.
    apply (most_common_dominates top_n (Counter value_eqb partners)
             (p, n) (q, occurrences partners q) Hpn Hq).
    intros Hin'. apply Hout. now apply (in_map fst) in Hin'.
Qed.

Lemma X5_ranking_is_the_top_witness :
  exists partners,
    chapter_partners sample_cases "72" = Ok partners /\
    List.length [(VStr "Korea", 2%Z)]
    = Nat.min (Z.to_nat 1) (List.length (nodup value_eq_dec partners)) /\
    forall q,
      In q partners -> ~ In q (map fst [(VStr "Korea", 2%Z)]) ->
      forall p n, In (p, n) [(VStr "Korea", 2%Z)] ->
                  (occurrences partners q <= n)%Z.
Proof.
  apply (X5_ranking_is_the_top sample_cases ["72"] 1%Z
           [("72", [(VStr "Korea", 2%Z)])] "72").
  - reflexivity.
  - simpl. auto.
Defined.

(** X6: asking for fewer partners gives the beginning of the longer ranking:
    for N at most M, the ranking of a chapter for N is the first N entries of
    its ranking for M. *)
Theorem X6_smaller_top_is_a_prefix (data : DataFrame)
    (chapters : list string) (n m : Z)
    (d_n d_m : list (string * list (value * Z))) (chapter : string)
    (r_n r_m : list (value * Z)) :
  (n <= m)%Z ->
  get_top_partners data chapters n = Ok d_n ->
  get_top_partners data chapters m = Ok d_m ->
  In (chapter, r_n) d_n ->
  In (chapter, r_m) d_m ->
  r_n = firstn (Z.to_nat n) r_m.
Proof.
  intros Hnm Hn Hm Hin_n Hin_m.
  destruct (get_top_partners_entries _ _ _ _ _ _ Hn Hin_n)
    as (partners & Hp & ->).
  destruct (get_top_partners_entries _ _ _ _ _ _ Hm Hin_m)
    as (partners' & Hp' & ->).
  rewrite Hp in Hp'. injection Hp' as <-. simpl.
  rewrite firstn_firstn. f_equal. lia.
Qed.

Lemma X6_smaller_top_is_a_prefix_witness :
  [(VStr "Korea", 2%Z)]
  = firstn (Z.to_nat 1) [(VStr "Korea", 2%Z); (VStr "China", 1%Z)].
Proof.
  apply (X6_smaller_top_is_a_prefix sample_cases ["72"] 1%Z 3%Z
           [("72", [(VStr "Korea", 2%Z)])]
           [("72", [(VStr "Korea", 2%Z); (VStr "China", 1%Z)])] "72").
  - lia.
  - reflexivity.
  - reflexivity.
  - simpl. auto.
  - simpl. auto.
Defined.

(** ** get_top_partners: errors and keys *)

Lemma getitem_raise (df : DataFrame) (key : value) (e : exn) :
  getitem df key = Raise e -> e = KeyError key.
Proof.
  unfold getitem. destruct (find _ _); [discriminate | now intros [= <-]].
Qed.

(** X7: [get_top_partners] looks the columns up once per chapter: without
    chapters it returns the empty dict whatever the table holds; with a
    chapter it raises the [KeyError] of [Product chapters] when that column is
    absent; when the column is there and its present cells are all numbers,
    it raises the [AttributeError] of the accessor; when the column holds
    text and the chapters are patterns without metacharacters, it raises the
    [KeyError] of [Trading partners] when that column is absent and returns
    otherwise. *)
Theorem X7_top_partners_errors (data : DataFrame) (chapter : string)
    (chapters : list string) (top_n : Z) :
  get_top_partners data [] top_n = Ok []
  /\ (forall e,
         getitem data "Product chapters" = Raise e ->
         get_top_partners data (chapter :: chapters) top_n
         = Raise (KeyError "Product chapters"))
  /\ (forall pc,
         getitem data "Product chapters" = Ok pc ->
         numbers_only pc ->
         get_top_partners data (chapter :: chapters) top_n
         = Raise (AttributeError
                    "Can only use .str accessor with string values!"))
  /\ (forall pc e,
         getitem data "Product chapters" = Ok pc ->
         has_text pc ->
         literal_pattern chapter = true ->
         getitem data "Trading partners" = Raise e ->
         get_top_partners data (chapter :: chapters) top_n
         = Raise (KeyError "Trading partners"))
  /\ (forall pc tp,
         getitem data "Product chapters" = Ok pc ->
         has_text pc ->
         forallb literal_pattern (chapter :: chapters) = true ->
         getitem data "Trading partners" = Ok tp ->
         exists d,
           get_top_partners data (chapter :: chapters) top_n = Ok d /\
           forall c, In c (chapter :: chapters) -> In c (map fst d)).
Proof.
  split; [reflexivity|]. split; [|split; [|split]].
  - intros e He. unfold get_top_partners. cbn [get_top_partners_loop].
    unfold chapter_partners. rewrite He. cbn [bind].
    now rewrite (getitem_raise _ _ _ He).
  - intros pc Hpc Hnum. unfold get_top_partners.
    cbn [get_top_partners_loop].
    unfold chapter_partners, str_contains_na_false. rewrite Hpc. cbn [bind].
    now rewrite (str_accessor_numbers _ Hnum).
  - intros pc e Hpc Htext _ He. unfold get_top_partners.
    cbn [get_top_partners_loop].
    unfold chapter_partners. rewrite Hpc. cbn [bind].
    rewrite (str_contains_na_false_granted _ _ (str_accessor_text _ Htext)).
    cbn [bind].
    rewrite getitem_mask_getitem, He. cbn [bind].
    now rewrite (getitem_raise _ _ _ He).
  - intros pc tp Hpc Htext _ Htp.
    apply (get_top_partners_total data (chapter :: chapters) top_n pc tp
             Hpc (str_accessor_text _ Htext) Htp).
Qed.

Lemma X7_top_partners_errors_witness :
  get_top_partners sample_world ["72"] 3
  = Raise (KeyError "Product chapters")
  /\ get_top_partners numeric_cases ["72"] 3
     = Raise (AttributeError
                "Can only use .str accessor with string values!")
  /\ get_top_partners chapters_only ["72"] 3
     = Raise (KeyError "Trading partners")
  /\ exists d,
       get_top_partners sample_cases ["72"; "29"] 3 = Ok d /\
       forall c, In c ["72"; "29"] -> In c (map fst d).
Proof.
  split; [|split; [|split]].
  - apply (proj1 (proj2 (X7_top_partners_errors sample_world "72" [] 3))
             (KeyError "Product chapters")).
    reflexivity.
  - apply (proj1 (proj2 (proj2
             (X7_top_partners_errors numeric_cases "72" [] 3)))
             [VInt 72; VInt 73]).
    + reflexivity.
    + split.
      * exists 72%Z. simpl. now left.
      * simpl. intros v [<- | [<- | []]]; now right.
  - apply (proj1 (proj2 (proj2 (proj2
             (X7_top_partners_errors chapters_only "72" [] 3))))
             [VStr "72"; VStr "72, 73"] (KeyError "Trading partners")).
    + reflexivity.
    + exists "72". simpl. now left.
    + reflexivity.
    + reflexivity.
  - apply (proj2 (proj2 (proj2 (proj2
             (X7_top_partners_errors sample_cases "72" ["29"] 3))))
             [VStr "72"; VStr "72, 73"; VStr "72"; VStr "29"]
             [VStr "China"; VStr "Korea"; VStr "Korea"; VStr "China"]).
    + reflexivity.
    + exists "72". simpl. now left.
    + reflexivity.
    + reflexivity.
Defined.

Lemma dict_set_keys {V : Type} (key : string) (v : V)
    (d : list (string * V)) :
  map fst (dict_set key v d)
  = if in_dec string_dec key (map fst d) then map fst d
    else (map fst d ++ [key])%list.
Proof.
  induction d as [|[k w] d IH]; simpl; [reflexivity|].
  destruct (String.eqb k key) eqn:E; simpl.
  - apply String.eqb_eq in E. subst.
    destruct (string_dec key key); [reflexivity | congruence].
  - apply String.eqb_neq in E. rewrite IH.
    destruct (string_dec k key); [congruence|].
    now destruct (in_dec string_dec key (map fst d)).
Qed.

Lemma get_top_partners_loop_dict (data : DataFrame) (top_n : Z)
    (chapters : list string) :
  forall acc d,
    get_top_partners_loop data chapters top_n acc = Ok d ->
    NoDup (map fst acc) ->
    NoDup (map fst d) /\
    (forall c, In c (map fst d) -> In c chapters \/ In c (map fst acc)) /\
    (NoDup chapters ->
     (forall c, In c chapters -> ~ In c (map fst acc)) ->
     map fst d = (map fst acc ++ chapters)%list).
Proof.
  induction chapters as [|ch chapters IH]; intros acc d; cbn [get_top_partners_loop].
  - intros [= <-] Hnd. split; [exact Hnd|]. split; [auto|].
    intros _ _. now rewrite app_nil_r.
  - destruct (chapter_partners data ch) as [partners|e]; cbn [bind];
      [|discriminate].
    intros Hd Hnd.
    set (v := most_common (Some top_n) (Counter value_eqb partners)) in *.
    assert (NoDup (map fst (dict_set ch v acc))) as Hnd'.
    { rewrite dict_set_keys.
      destruct (in_dec string_dec ch (map fst acc)); [exact Hnd|].
      apply NoDup_app; [exact Hnd | repeat constructor; simpl; tauto|].
      now intros y Hy [<- | []]. }
    destruct (IH _ _ Hd Hnd') as (H1 & H2 & H3).
    split; [exact H1|]. split.
    + intros c Hc. destruct (H2 c Hc) as [Hc' | Hc']; [left; now right|].
      rewrite dict_set_keys in Hc'.
      destruct (in_dec string_dec ch (map fst acc)); [now right|].
      apply in_app_or in Hc' as [Hc' | [<- | []]]; [now right|].
      left. now left.
    + intros Hch Hfresh. inversion Hch as [|? ? Hout Hch']; subst.
      rewrite H3; [|exact Hch'|].
      * rewrite dict_set_keys.
        destruct (in_dec string_dec ch (map fst acc)) as [Hin|_].
        -- exfalso. apply (Hfresh ch); [now left | exact Hin].
        -- now rewrite <- app_assoc.
      * intros c Hc. rewrite dict_set_keys.
        destruct (in_dec string_dec ch (map fst acc)) as [Hin|_].
        -- apply Hfresh. now right.
        -- intros Hc'. apply in_app_or in Hc' as [Hc' | [<- | []]].
           ++ apply (Hfresh c); [now right | exact Hc'].
           ++ contradiction.
Qed.

Lemma top_partners_keys_in_order (data : DataFrame) (chapters : list string)
    (top_n : Z) (d : list (string * list (value * Z))) :
  get_top_partners data chapters top_n = Ok d ->
  NoDup chapters -> map fst d = chapters.
Proof.
  intros Hd Hnd.
  destruct (get_top_partners_loop_dict data top_n chapters [] d Hd)
    as (_ & _ & H3); [constructor|].
  apply H3; [exact Hnd | auto].
Qed.

(** X8: the dict returned has one entry for each chapter asked for and no
    other; when no chapter is asked for twice, the entries stand in the order
    of the chapters. *)
Theorem X8_one_entry_per_chapter (data : DataFrame) (chapters : list string)
    (top_n : Z) (d : list (string * list (value * Z))) :
  get_top_partners data chapters top_n = Ok d ->
  NoDup (map fst d) /\
  (forall c, In c (map fst d) <-> In c chapters) /\
  (NoDup chapters -> map fst d = chapters).
Proof.
  intros Hd.
  destruct (get_top_partners_loop_dict data top_n chapters [] d Hd)
    as (H1 & H2 & H3); [constructor|].
  split; [exact H1|]. split.
  - intros c. split.
    + intros Hc. destruct (H2 c Hc) as [Hc' | []]. exact Hc'.
    + intros Hc. apply (get_top_partners_loop_keys _ _ _ _ _ Hd). now left.
  - intros Hnd. apply H3; [exact Hnd | auto].
Qed.

Lemma X8_one_entry_per_chapter_witness :
  NoDup (map fst [("72", [(VStr "Korea", 2%Z)]); ("29", [(VStr "China", 1%Z)])])
  /\ (forall c,
         In c (map fst [("72", [(VStr "Korea", 2%Z)]);
                        ("29", [(VStr "China", 1%Z)])])
         <-> In c ["72"; "29"; "72"])
  /\ (NoDup ["72"; "29"; "72"] ->
      map fst [("72", [(VStr "Korea", 2%Z)]); ("29", [(VStr "China", 1%Z)])]
      = ["72"; "29"; "72"]).
Proof.
  apply (X8_one_entry_per_chapter sample_cases ["72"; "29"; "72"] 1%Z).
  reflexivity.
Defined.

(** ** prod_analysis.main *)

Lemma main_analysis_top_partners (data : DataFrame) (a : analysis) :
  main_analysis data = Ok a ->
  exists anti_dumping_data countervailing_data,
    type_subset data "Anti-dumping" = Ok anti_dumping_data /\
    type_subset data "Countervailing" = Ok countervailing_data /\
    get_top_partners anti_dumping_data
      (map fst (sorted_desc (anti_dumping_chapters_count a))) 3
    = Ok (top_partners_anti_dumping a) /\
    get_top_partners countervailing_data
      (map fst (sorted_desc (countervailing_chapters_count a))) 3
    = Ok (top_partners_countervailing a).
Proof.
  unfold main_analysis.
  destruct (type_subset data "Anti-dumping") as [ad|e] eqn:E1;
    [|discriminate].
  destruct (type_subset data "Countervailing") as [cv|e] eqn:E2;
    [|discriminate].
  cbn [bind].
  destruct (token_count ad "Product chapters") as [c1|e]; [|discriminate].
  destruct (token_count ad "Products") as [c2|e]; [|discriminate].
  destruct (token_count cv "Product chapters") as [c3|e]; [|discriminate].
  destruct (token_count cv "Products") as [c4|e]; [|discriminate].
  cbn [bind]. unfold get_top_partners_default, most_common.
  destruct (get_top_partners ad _ 3) as [t1|e] eqn:E3; [|discriminate].
  destruct (get_top_partners cv _ 3) as [t2|e] eqn:E4; [|discriminate].
  cbn [bind]. intros [= <-]. exists ad, cv. cbn.
  repeat split; assumption.
Qed.

Lemma token_count_keys_NoDup (subset : DataFrame) (column : string)
    (c : list (string * Z)) :
  token_count subset column = Ok c -> NoDup (map fst (sorted_desc c)).
Proof.
  unfold token_count. destruct (getitem subset column); [|discriminate].
  cbn [bind]. intros [= <-].
  eapply Permutation_NoDup.
  - apply Permutation_map. symmetry. apply sorted_desc_perm.
  - apply (Counter_keys_NoDup String.eqb String.eqb_eq).
Qed.

(** X9: in what [main] computes, the top-partner rankings of a remedy type
    are keyed by the chapters counted for that type, each once, in the order
    of decreasing count of the chapter counts (chapters of equal count in the
    order they were first met). *)
Theorem X9_rankings_follow_chapter_counts (data : DataFrame) (a : analysis) :
  main_analysis data = Ok a ->
  map fst (top_partners_anti_dumping a)
  = map fst (sorted_desc (anti_dumping_chapters_count a))
  /\ map fst (top_partners_countervailing a)
     = map fst (sorted_desc (countervailing_chapters_count a)).
Proof.
  intros Ha.
  destruct (main_analysis_counts _ _ Ha)
    as (ad & cv & Had & Hcv & Hc1 & _ & Hc3 & _).
  destruct (main_analysis_top_partners _ _ Ha)
    as (ad' & cv' & Had' & Hcv' & Ht1 & Ht2).
  rewrite Had in Had'. rewrite Hcv in Hcv'.
  injection Had' as <-. injection Hcv' as <-.
  split.
  - apply (top_partners_keys_in_order _ _ _ _ Ht1), (token_count_keys_NoDup _ _ _ Hc1).
  - apply (top_partners_keys_in_order _ _ _ _ Ht2), (token_count_keys_NoDup _ _ _ Hc3).
Qed.

Lemma X9_rankings_follow_chapter_counts_witness :
  map fst [("72", [(VStr "Korea", 2%Z); (VStr "China", 1%Z)]);
           ("73", [(VStr "Korea", 1%Z)])]
  = map fst (sorted_desc [("72", 3%Z); ("73", 1%Z)])
  /\ map fst [("29", [(VStr "China", 1%Z)])]
     = map fst (sorted_desc [("29", 1%Z)]).
Proof.
  apply (X9_rankings_follow_chapter_counts sample_cases
           (mkAnalysis [("72", 3%Z); ("73", 1%Z)]
                       [("Steel", 3%Z); ("Pipes", 1%Z)]
                       [("29", 1%Z)] [("Dyes", 1%Z)]
                       [("72", [(VStr "Korea", 2%Z); (VStr "China", 1%Z)]);
                        ("73", [(VStr "Korea", 1%Z)])]
                       [("29", [(VStr "China", 1%Z)])])).
  reflexivity.
Defined.

Lemma bool_mask_missing (m : list (option bool)) :
  In None m ->
  bool_mask m
  = Raise (ValueError
             "Cannot mask with non-boolean array containing NA / NaN values").
Proof.
  induction m as [|[b|] m IH]; simpl; [tauto | | reflexivity].
  intros [H | H]; [discriminate|]. now rewrite (IH H).
Qed.

Lemma bool_mask_present (pat : string) (col : list value) :
  (forall v, In v col -> exists s, v = VStr s) ->
  bool_mask (map (str_contains pat) col) = Ok (contains_mask pat col).
Proof.
  induction col as [|v col IH]; simpl; intros H; [reflexivity|].
  destruct (H v) as (s & ->); [now left|]. simpl.
  rewrite IH; [reflexivity|]. intros w Hw. apply H. now right.
Qed.

(** X10: [main] of prod_analysis.py filters on [Type] without [na=]: in a
    [Type] column that holds text, one row whose [Type] is not a string (an
    empty cell, a number) makes the filter, and with it the whole analysis,
    raise a [ValueError]; a [Type] column whose present cells are all numbers
    makes them raise the [AttributeError] of the accessor. *)
Theorem X10_main_rejects_missing_type (data : DataFrame)
    (type : list value) (pat : string) :
  getitem data "Type" = Ok type ->
  (has_text type ->
   (exists v, In v type /\ forall s, v <> VStr s) ->
   literal_pattern pat = true ->
   type_subset data pat
   = Raise (ValueError
              "Cannot mask with non-boolean array containing NA / NaN values")
   /\ main_analysis data
      = Raise (ValueError
                 "Cannot mask with non-boolean array containing NA / NaN values"))
  /\ (numbers_only type ->
      type_subset data pat
      = Raise (AttributeError
                 "Can only use .str accessor with string values!")
      /\ main_analysis data
         = Raise (AttributeError
                    "Can only use .str accessor with string values!")).
Proof.
  intros Ht. split.
  - intros Htext (v & Hv & Hns) _.
    assert (forall p, type_subset data p
                      = Raise (ValueError
             "Cannot mask with non-boolean array containing NA / NaN values"))
      as H.
    { intros p. unfold type_subset. rewrite Ht. cbn [bind].
      rewrite (str_accessor_text _ Htext). cbn [bind].
      rewrite bool_mask_missing; [reflexivity|].
      apply in_map_iff. exists v. split; [|exact Hv].
      destruct v; try reflexivity. now destruct (Hns s). }
    split; [apply H|]. unfold main_analysis. now rewrite H.
  - intros Hnum.
    assert (forall p, type_subset data p
                      = Raise (AttributeError
                                 "Can only use .str accessor with string values!"))
      as H.
    { intros p. unfold type_subset. rewrite Ht. cbn [bind].
      now rewrite (str_accessor_numbers _ Hnum). }
    split; [apply H|]. unfold main_analysis. now rewrite H.
Qed.

Lemma X10_main_rejects_missing_type_witness :
  (type_subset
     (setitem sample_cases "Type"
        [VStr "Anti-dumping"; VNaN; VStr "Anti-dumping";
         VStr "Countervailing"])
     "Anti-dumping"
   = Raise (ValueError
              "Cannot mask with non-boolean array containing NA / NaN values")
   /\ main_analysis
        (setitem sample_cases "Type"
           [VStr "Anti-dumping"; VNaN; VStr "Anti-dumping";
            VStr "Countervailing"])
      = Raise (ValueError
                 "Cannot mask with non-boolean array containing NA / NaN values"))
  /\ (type_subset numeric_cases "Anti-dumping"
      = Raise (AttributeError
                 "Can only use .str accessor with string values!")
      /\ main_analysis numeric_cases
         = Raise (AttributeError
                    "Can only use .str accessor with string values!")).
Proof.
  split.
  - apply (proj1 (X10_main_rejects_missing_type
             (setitem sample_cases "Type"
                [VStr "Anti-dumping"; VNaN; VStr "Anti-dumping";
                 VStr "Countervailing"])
             [VStr "Anti-dumping"; VNaN; VStr "Anti-dumping";
              VStr "Countervailing"] "Anti-dumping" eq_refl)).
    + exists "Anti-dumping". simpl. now left.
    + exists VNaN. split; [simpl; auto | discriminate].
    + reflexivity.
  - apply (proj2 (X10_main_rejects_missing_type numeric_cases
             [VInt 1; VInt 2] "Anti-dumping" eq_refl)).
    split.
    + exists 1%Z. simpl. now left.
    + simpl. intros v [<- | [<- | []]]; now right.
Defined.

(** X11: on a table whose [Type] cells are all strings, the filter of
    prod_analysis.py (without [na=]) and the filter of
    add_cvd_recepient_map.py (with [na=False]) keep the same rows; both raise
    the same [KeyError] when the table has no [Type] column. *)
Theorem X11_filters_agree_on_text (data : DataFrame) (pat : string) :
  (forall type v,
      getitem data "Type" = Ok type -> In v type -> exists s, v = VStr s) ->
  type_subset data pat = filter_remedy data pat.
Proof.
  intros H. unfold type_subset, filter_remedy, str_contains_na_false.
  destruct (getitem data "Type") as [type|e]; [|reflexivity].
  cbn [bind]. destruct (str_accessor type) as [texts|e] eqn:E; [|reflexivity].
  apply str_accessor_ok in E. subst texts. cbn [bind].
  rewrite bool_mask_present; [reflexivity|].
  intros v Hv. now apply (H type).
Qed.

Lemma X11_filters_agree_on_text_witness :
  type_subset sample_cases "Anti-dumping"
  = filter_remedy sample_cases "Anti-dumping".
Proof.
  apply X11_filters_agree_on_text.
  intros type v [= <-] Hv. simpl in Hv.
  repeat (destruct Hv as [<- | Hv]; [eexists; reflexivity|]).
  destruct Hv.
Defined.

(** ** get_world_with_data_trading_partners: errors and counts *)

Lemma filter_remedy_granted (df : DataFrame) (remedy_type : string)
    (type : list value) :
  getitem df "Type" = Ok type ->
  has_text type ->
  filter_remedy df remedy_type
  = Ok (getitem_mask df (contains_mask remedy_type type)).
Proof.
  intros Ht Htext. unfold filter_remedy. rewrite Ht. cbn [bind].
  now rewrite (str_contains_na_false_granted _ _ (str_accessor_text _ Htext)).
Qed.

Lemma filter_remedy_refused (df : DataFrame) (remedy_type : string)
    (type : list value) :
  getitem df "Type" = Ok type ->
  numbers_only type ->
  filter_remedy df remedy_type
  = Raise (AttributeError "Can only use .str accessor with string values!").
Proof.
  intros Ht Hnum. unfold filter_remedy, str_contains_na_false.
  rewrite Ht. cbn [bind]. now rewrite (str_accessor_numbers _ Hnum).
Qed.

(** X12: [get_world_with_data_trading_partners] raises the [KeyError] of
    [Type] when the case table has no such column, and the [AttributeError]
    of the accessor when the present cells of [Type] are all numbers.  When
    [Type] holds text and the remedy type is a pattern without
    metacharacters, it raises the [KeyError] of [Trading partners] when that
    column is absent, else that of [name] when the map table has no such
    column, and with the three columns there (the partners being text) it
    returns a frame. *)
Theorem X12_trading_partners_map_errors (world df : DataFrame)
    (remedy_type : string) :
  (forall e,
      getitem df "Type" = Raise e ->
      snd (get_world_with_data_trading_partners world df remedy_type)
      = Raise (KeyError "Type"))
  /\ (forall type,
         getitem df "Type" = Ok type ->
         numbers_only type ->
         snd (get_world_with_data_trading_partners world df remedy_type)
         = Raise (AttributeError
                    "Can only use .str accessor with string values!"))
  /\ (forall type e,
         getitem df "Type" = Ok type ->
         has_text type ->
         literal_pattern remedy_type = true ->
         getitem df "Trading partners" = Raise e ->
         snd (get_world_with_data_trading_partners world df remedy_type)
         = Raise (KeyError "Trading partners"))
  /\ (forall type partners e,
         getitem df "Type" = Ok type ->
         has_text type ->
         literal_pattern remedy_type = true ->
         getitem df "Trading partners" = Ok partners ->
         text_or_missing partners = true ->
         getitem world "name" = Raise e ->
         snd (get_world_with_data_trading_partners world df remedy_type)
         = Raise (KeyError "name"))
  /\ (forall type partners names,
         getitem df "Type" = Ok type ->
         has_text type ->
         literal_pattern remedy_type = true ->
         getitem df "Trading partners" = Ok partners ->
         text_or_missing partners = true ->
         getitem world "name" = Ok names ->
         exists r,
           snd (get_world_with_data_trading_partners world df remedy_type)
           = Ok r).
Proof.
  unfold get_world_with_data_trading_partners, trading_partners_count.
  cbn [snd].
  split; [|split; [|split; [|split]]].
  - intros e He. unfold filter_remedy. rewrite He. cbn [bind].
    now rewrite (getitem_raise _ _ _ He).
  - intros type Ht Hnum.
    now rewrite (filter_remedy_refused _ _ _ Ht Hnum).
  - intros type e Ht Htext _ He.
    rewrite (filter_remedy_granted _ _ _ Ht Htext). cbn [bind].
    rewrite getitem_mask_getitem, He. cbn [bind].
    now rewrite (getitem_raise _ _ _ He).
  - intros type partners e Ht Htext _ Hp _ He.
    rewrite (filter_remedy_granted _ _ _ Ht Htext). cbn [bind].
    rewrite getitem_mask_getitem, Hp. cbn [bind].
    rewrite getitem_reset_index_key. cbn [bind]. rewrite He. cbn [bind].
    now rewrite (getitem_raise _ _ _ He).
  - intros type partners names Ht Htext _ Hp _ Hn.
    rewrite (filter_remedy_granted _ _ _ Ht Htext). cbn [bind].
    rewrite getitem_mask_getitem, Hp. cbn [bind].
    rewrite getitem_reset_index_key. cbn [bind]. rewrite Hn. cbn [bind].
    eexists. reflexivity.
Qed.

Lemma X12_trading_partners_map_errors_witness :
  snd (get_world_with_data_trading_partners sample_world sample_world
         "Anti-dumping")
  = Raise (KeyError "Type")
  /\ snd (get_world_with_data_trading_partners sample_world numeric_cases
            "Anti-dumping")
     = Raise (AttributeError
                "Can only use .str accessor with string values!")
  /\ snd (get_world_with_data_trading_partners sample_world
            (setitem chapters_only "Type"
               [VStr "Anti-dumping"; VStr "Countervailing"])
            "Anti-dumping")
     = Raise (KeyError "Trading partners")
  /\ snd (get_world_with_data_trading_partners sample_cases sample_cases
            "Anti-dumping")
     = Raise (KeyError "name")
  /\ exists r,
       snd (get_world_with_data_trading_partners sample_world sample_cases
              "Anti-dumping") = Ok r.
Proof.
  split; [|split; [|split; [|split]]].
  - apply (proj1 (X12_trading_partners_map_errors
                    sample_world sample_world "Anti-dumping")
             (KeyError "Type")).
    reflexivity.
  - apply (proj1 (proj2 (X12_trading_partners_map_errors
                           sample_world numeric_cases "Anti-dumping"))
             [VInt 1; VInt 2]).
    + reflexivity.
    + split.
      * exists 1%Z. simpl. now left.
      * simpl. intros v [<- | [<- | []]]; now right.
  - apply (proj1 (proj2 (proj2 (X12_trading_partners_map_errors
                                  sample_world
                                  (setitem chapters_only "Type"
                                     [VStr "Anti-dumping";
                                      VStr "Countervailing"])
                                  "Anti-dumping")))
             [VStr "Anti-dumping"; VStr "Countervailing"]
             (KeyError "Trading partners")).
    + reflexivity.
    + exists "Anti-dumping". simpl. now left.
    + reflexivity.
    + reflexivity.
  - apply (proj1 (proj2 (proj2 (proj2 (X12_trading_partners_map_errors
                                         sample_cases sample_cases
                                         "Anti-dumping"))))
             [VStr "Anti-dumping"; VStr "Anti-dumping"; VStr "Anti-dumping";
              VStr "Countervailing"]
             [VStr "China"; VStr "Korea"; VStr "Korea"; VStr "China"]
             (KeyError "name")).
    + reflexivity.
    + exists "Anti-dumping". simpl. now left.
    + reflexivity.
    + reflexivity.
    + reflexivity.
    + reflexivity.
  - apply (proj2 (proj2 (proj2 (proj2 (X12_trading_partners_map_errors
                                         sample_world sample_cases
                                         "Anti-dumping"))))
             [VStr "Anti-dumping"; VStr "Anti-dumping"; VStr "Anti-dumping";
              VStr "Countervailing"]
             [VStr "China"; VStr "Korea"; VStr "Korea"; VStr "China"]
             [VStr "India"; VStr "China"; VStr "Brazil"]).
    + reflexivity.
    + exists "Anti-dumping". simpl. now left.
    + reflexivity.
    + reflexivity.
    + reflexivity.
    + reflexivity.
Defined.

Lemma groupby_size_entry (keys : list value) (j : nat) (k : value) :
  nth_error (map fst (groupby_size keys)) j = Some k ->
  nth j (map (fun e => VInt (snd e)) (groupby_size keys)) VNaN
  = VInt (occurrences (present_keys keys) k).
Proof.
  unfold groupby_size. fold (present_keys keys).
  rewrite !map_map. cbn [fst snd]. rewrite nth_error_map.
  destruct (nth_error _ j) as [k'|] eqn:E; [|discriminate].
  intros [= <-].
  apply (nth_error_nth _ _ VNaN). now rewrite nth_error_map, E.
Qed.

Lemma occurrences_absent (l : list value) (k : value) :
  ~ In k l -> occurrences l k = 0%Z.
Proof.
  intros H. unfold occurrences.
  now rewrite (proj1 (count_occ_not_In value_eq_dec l k) H).
Qed.

(** The count joined to a name is the size of its group, 0 without one. *)
Lemma joined_group_size (keys : list value) (name : value) :
  fill0 match joined_row (map fst (groupby_size keys)) name with
        | Some j => nth j (map (fun e => VInt (snd e)) (groupby_size keys)) VNaN
        | None => VNaN
        end
  = VInt (occurrences (present_keys keys) name).
Proof.
  unfold joined_row.
  destruct (in_dec value_eq_dec name (map fst (groupby_size keys)))
    as [Hin | Hout].
  - apply In_nth_error in Hin as (j & Hj).
    rewrite (positions_present _ _ 0 j (groupby_size_NoDup keys) Hj).
    cbn [hd_error Nat.add]. now rewrite (groupby_size_entry _ _ _ Hj).
  - rewrite positions_absent by assumption. cbn [hd_error fill0 isna].
    rewrite occurrences_absent; [reflexivity|].
    intros Hin. apply Hout, groupby_size_key_In.
    unfold present_keys in Hin. apply filter_In in Hin as [H1 H2].
    now rewrite negb_true_iff in H2.
Qed.

(** X13: with the three columns there, [Type] holding text and the partners
    being text, a remedy type without metacharacters and no column
    [case_count] in the map table, the frame returned gives every entity, in
    the order of the map table, the number of rows whose [Type] holds the
    remedy type and whose trading partner is present and equal to the name of
    the entity. *)
Theorem X13_case_count_is_row_count (world df : DataFrame)
    (remedy_type : string) (type partners names : list value) :
  has_label world "case_count" = false ->
  getitem df "Type" = Ok type ->
  has_text type ->
  literal_pattern remedy_type = true ->
  getitem df "Trading partners" = Ok partners ->
  text_or_missing partners = true ->
  getitem world "name" = Ok names ->
  exists r,
    snd (get_world_with_data_trading_partners world df remedy_type) = Ok r /\
    getitem r "case_count"
    = Ok (map (fun name =>
                 VInt (occurrences
                         (present_keys
                            (mask_select
                               (contains_mask remedy_type type)
                               partners))
                         name))
              names).
Proof.
  intros Hw Ht Htext _ Hp _ Hn.
  unfold get_world_with_data_trading_partners, trading_partners_count.
  cbn [snd]. rewrite (filter_remedy_granted _ _ _ Ht Htext). cbn [bind].
  rewrite getitem_mask_getitem, Hp. cbn [bind].
  rewrite getitem_reset_index_key. cbn [bind]. rewrite Hn. cbn [bind].
  eexists. split; [reflexivity|].
  rewrite (trading_partners_case_count world _ names Hw).
  f_equal. apply map_ext. intros name. apply joined_group_size.
Qed.

Lemma X13_case_count_is_row_count_witness :
  exists r,
    snd (get_world_with_data_trading_partners sample_world sample_cases
           "Anti-dumping") = Ok r /\
    getitem r "case_count"
    = Ok (map (fun name =>
                 VInt (occurrences
                         (present_keys
                            (mask_select
                               (contains_mask "Anti-dumping"
                                  [VStr "Anti-dumping"; VStr "Anti-dumping";
                                   VStr "Anti-dumping"; VStr "Countervailing"])
                               [VStr "China"; VStr "Korea"; VStr "Korea";
                                VStr "China"]))
                         name))
              [VStr "India"; VStr "China"; VStr "Brazil"]).
Proof.
  apply (X13_case_count_is_row_count sample_world sample_cases
           "Anti-dumping"); try reflexivity.
  exists "Anti-dumping". simpl. now left.
Defined.

(** ** get_world_with_data: when it returns, and what it counts *)

Lemma groupby2_size_eq (keys1 keys2 : list value) :
  groupby2_size keys1 keys2
  = map (fun q => (q, Z.of_nat (count_occ pair_eq_dec
                                  (present_pairs keys1 keys2) q)))
        (sort pair_leb (nodup pair_eq_dec (present_pairs keys1 keys2))).
Proof. reflexivity. Qed.

Lemma groupby2_size_pairs (keys1 keys2 : list value) (p : value * value) :
  In p (map fst (groupby2_size keys1 keys2))
  <-> In p (present_pairs keys1 keys2).
Proof.
  rewrite groupby2_size_eq, map_map. cbn [fst]. rewrite map_id.
  now rewrite sort_In, nodup_In.
Qed.

Lemma unstack_index_In (keys1 keys2 : list value) (k : value) :
  In k (df_index (unstack 0 (groupby2_size keys1 keys2)))
  <-> exists c, In (k, c) (present_pairs keys1 keys2).
Proof.
  cbn [unstack df_index]. rewrite sort_In, nodup_In, in_map_iff. split.
  - intros ([[k' c] n] & <- & Hin). exists c.
    apply groupby2_size_pairs. now apply (in_map fst) in Hin.
  - intros (c & Hin). apply groupby2_size_pairs, in_map_iff in Hin
      as ([p n] & Hp & Hin).
    simpl in Hp. subst p. now exists ((k, c), n).
Qed.

Lemma unstack_label_In (keys1 keys2 : list value) (c : value) :
  In c (map (fun e => snd (fst e)) (groupby2_size keys1 keys2))
  <-> exists k, In (k, c) (present_pairs keys1 keys2).
Proof.
  rewrite in_map_iff. split.
  - intros ([[k c'] n] & <- & Hin). exists k.
    apply groupby2_size_pairs. now apply (in_map fst) in Hin.
  - intros (k & Hin). apply groupby2_size_pairs, in_map_iff in Hin
      as ([p n] & Hp & Hin).
    simpl in Hp. subst p. now exists ((k, c), n).
Qed.

Lemma getitem_unstack_present (fill_value : Z)
    (sizes : list ((value * value) * Z)) (key : value) :
  In key (map (fun e => snd (fst e)) sizes) ->
  exists col, getitem (unstack fill_value sizes) key = Ok col.
Proof.
  intros Hin. unfold getitem.
  destruct (find _ _) as [c|] eqn:E; [now exists (snd c)|].
  exfalso. cbn [unstack df_columns] in E.
  assert (In key (sort value_leb
                    (nodup value_eq_dec
                       (map (fun e => snd (fst e)) sizes)))) as Hk
    by now apply sort_In, nodup_In.
  apply (in_map (fun c =>
                   (c, map (fun r => match lookup_size (r, c) sizes with
                                     | Some n => VInt n
                                     | None => VInt fill_value
                                     end)
                           (sort value_leb
                              (nodup value_eq_dec
                                 (map (fun e => fst (fst e)) sizes))))))
    in Hk.
  pose proof (find_none _ _ E _ Hk) as Hf. cbn [fst] in Hf.
  now rewrite value_eqb_refl in Hf.
Qed.

Lemma unstack_cell (keys1 keys2 : list value) (p : value * value) :
  match lookup_size p (groupby2_size keys1 keys2) with
  | Some n => VInt n
  | None => VInt 0
  end
  = VInt (pair_occurrences (present_pairs keys1 keys2) p).
Proof.
  unfold pair_occurrences.
  rewrite <- (lookup_size_count (present_pairs keys1 keys2)
                (sort pair_leb (nodup pair_eq_dec
                                  (present_pairs keys1 keys2))) p).
  - rewrite groupby2_size_eq. now destruct (lookup_size _ _).
  - intros q Hq. now apply sort_In, nodup_In.
Qed.

(** What [get_world_with_data] does once [Type] and [Member/Observer] are
    found and the accessor is granted. *)
Lemma world_map_unfold (world df : DataFrame) (remedy_type : string)
    (type members : list value) :
  getitem df "Type" = Ok type ->
  str_accessor type = Ok type ->
  getitem df "Member/Observer" = Ok members ->
  snd (get_world_with_data world df remedy_type)
  = (selected <- getitem_list1
                   (unstack 0 (groupby2_size members (map remedy_of type)))
                   remedy_type ;;
     join_world world selected).
Proof.
  intros Ht Hacc Hm. rewrite (world_map_granted _ _ _ _ Ht Hacc). cbn [snd].
  unfold member_remedy_count.
  rewrite getitem_setitem_other by discriminate. rewrite Hm. cbn [bind].
  rewrite getitem_setitem_same. reflexivity.
Qed.

(** X14: with [Type] and [Member/Observer] in the case table, both holding
    text, and [name] in the map table, [get_world_with_data] returns a frame
    exactly when some row has the remedy type asked for and a member that is
    present; otherwise it raises the [KeyError] of the selection of the
    remedy type's column. *)
Theorem X14_world_map_returns_iff (world df : DataFrame)
    (remedy_type : string) (type members names : list value) :
  getitem df "Type" = Ok type ->
  has_text type ->
  getitem df "Member/Observer" = Ok members ->
  text_or_missing members = true ->
  getitem world "name" = Ok names ->
  ((exists m, In (m, VStr remedy_type)
                 (present_pairs members (map remedy_of type))) ->
   exists r, snd (get_world_with_data world df remedy_type) = Ok r)
  /\ ((forall m, ~ In (m, VStr remedy_type)
                     (present_pairs members (map remedy_of type))) ->
      snd (get_world_with_data world df remedy_type)
      = Raise (KeyErrorNoneOf [VStr remedy_type])).
Proof.
  intros Ht Htext Hm _ Hn.
  rewrite (world_map_unfold _ _ _ _ _ Ht (str_accessor_text _ Htext) Hm).
  unfold getitem_list1. split.
  - intros Hex. apply unstack_label_In in Hex.
    destruct (getitem_unstack_present 0 _ _ Hex) as (col & ->).
    cbn [bind]. unfold join_world. rewrite Hn. cbn [bind].
    eexists. reflexivity.
  - intros Hnone. rewrite getitem_unstack_absent; [reflexivity|].
    intros Hin. apply unstack_label_In in Hin as (m & Hin).
    exact (Hnone m Hin).
Qed.

Lemma X14_world_map_returns_iff_witness :
  (exists r,
      snd (get_world_with_data sample_world sample_cases "Countervailing")
      = Ok r)
  /\ snd (get_world_with_data sample_world missing_member_cases
            "Countervailing")
     = Raise (KeyErrorNoneOf [VStr "Countervailing"]).
Proof.
  split.
  - apply (proj1 (X14_world_map_returns_iff sample_world sample_cases
                    "Countervailing"
                    [VStr "Anti-dumping"; VStr "Anti-dumping";
                     VStr "Anti-dumping"; VStr "Countervailing"]
                    [VStr "India"; VStr "India"; VStr "Brazil"; VStr "India"]
                    [VStr "India"; VStr "China"; VStr "Brazil"]
                    eq_refl
                    (ex_intro _ "Anti-dumping" (or_introl eq_refl))
                    eq_refl eq_refl eq_refl)).
    exists (VStr "India"). vm_compute. tauto.
  - apply (proj2 (X14_world_map_returns_iff sample_world
                    missing_member_cases "Countervailing"
                    [VStr "Anti-dumping"; VStr "EU / Countervailing"]
                    [VStr "India"; VNaN]
                    [VStr "India"; VStr "China"; VStr "Brazil"]
                    eq_refl
                    (ex_intro _ "Anti-dumping" (or_introl eq_refl))
                    eq_refl eq_refl eq_refl)).
    intros m Hin. vm_compute in Hin. destruct Hin as [Hin | []].
    discriminate Hin.
Defined.

(** A row of the wanted remedy type whose member is missing does not count:
    the call raises although the sheet has a countervailing case. *)
Example world_map_missing_member :
  snd (get_world_with_data sample_world missing_member_cases
         "Countervailing")
  = Raise (KeyErrorNoneOf [VStr "Countervailing"]).
Proof. reflexivity. Qed.

(** X15: when [get_world_with_data] returns (the map table having no column
    named like the remedy type), the column of the remedy type gives every
    entity, in the order of the map table, the number of rows whose member is
    present and equal to the name of the entity and whose remedy type is the
    one asked for. *)
Theorem X15_member_count_is_row_count (world df : DataFrame)
    (remedy_type : string) (type members names : list value)
    (r : DataFrame) :
  has_label world remedy_type = false ->
  getitem df "Type" = Ok type ->
  getitem df "Member/Observer" = Ok members ->
  getitem world "name" = Ok names ->
  snd (get_world_with_data world df remedy_type) = Ok r ->
  getitem r remedy_type
  = Ok (map (fun name =>
               VInt (pair_occurrences
                       (present_pairs members (map remedy_of type))
                       (name, VStr remedy_type)))
            names).
Proof.
  intros Hw Ht Hm Hn.
  destruct (str_accessor_cases type) as [Hacc | Hacc];
    [|now rewrite (world_map_refused _ _ _ _ _ Ht Hacc)].
  rewrite (world_map_unfold _ _ _ _ _ Ht Hacc Hm).
  unfold getitem_list1.
  set (sizes := groupby2_size members (map remedy_of type)).
  destruct (getitem (unstack 0 sizes) remedy_type) as [col|e] eqn:Hc;
    [|discriminate].
  cbn [bind]. unfold join_world. rewrite Hn. cbn [bind]. intros [= <-].
  pose proof (unstack_index_NoDup 0 sizes) as Hnd.
  etransitivity;
    [exact (world_map_count world remedy_type _ col names Hw Hnd)|].
  f_equal. apply map_ext. intros name.
  apply getitem_unstack in Hc. subst col. unfold joined_row.
  destruct (in_dec value_eq_dec name (df_index (unstack 0 sizes)))
    as [Hin | Hout].
  - apply In_nth_error in Hin as (j & Hj).
    rewrite (positions_present _ _ 0 j Hnd Hj). cbn [hd_error Nat.add].
    rewrite (nth_error_nth _ _ VNaN
               (x := VInt (pair_occurrences
                             (present_pairs members (map remedy_of type))
                             (name, VStr remedy_type)))).
    + reflexivity.
    + rewrite nth_error_map, Hj. cbn [option_map]. f_equal.
      apply unstack_cell.
  - rewrite positions_absent by assumption. cbn [hd_error fill0 isna].
    unfold pair_occurrences.
    rewrite (proj1 (count_occ_not_In pair_eq_dec _ _)); [reflexivity|].
    intros Hin. apply Hout. apply unstack_index_In. now exists (VStr remedy_type).
Qed.

Lemma X15_member_count_is_row_count_witness :
  getitem sample_joined_members "Anti-dumping"
  = Ok (map (fun name =>
               VInt (pair_occurrences
                       (present_pairs
                          [VStr "India"; VStr "India"; VStr "Brazil";
                           VStr "India"]
                          (map remedy_of
                             [VStr "Anti-dumping"; VStr "Anti-dumping";
                              VStr "Anti-dumping"; VStr "Countervailing"]))
                       (name, VStr "Anti-dumping")))
            [VStr "India"; VStr "China"; VStr "Brazil"]).
Proof.
  apply (X15_member_count_is_row_count sample_world sample_cases
           "Anti-dumping"); reflexivity.
Defined.

(** ** get_world_with_data: called again on the table it changed *)

Lemma set_column_twice (key : value) (column : list value)
    (cols : list (value * list value)) :
  set_column key column (set_column key column cols)
  = set_column key column cols.
Proof.
  induction cols as [|c cols IH]; simpl.
  - now rewrite value_eqb_refl.
  - destruct (value_eqb (fst c) key) eqn:E; simpl.
    + now rewrite value_eqb_refl.
    + now rewrite E, IH.
Qed.

(** X16: the column [get_world_with_data] adds to the case table does not
    change what a later call does: called on the table as an earlier call
    left it, for any remedy type, it leaves the table and gives the outcome
    that it gives on the original table. *)
Theorem X16_world_map_call_again (world df : DataFrame)
    (first_type remedy_type : string) :
  get_world_with_data world
    (fst (get_world_with_data world df first_type)) remedy_type
  = get_world_with_data world df remedy_type.
Proof.
  destruct (getitem df "Type") as [type|e] eqn:Ht.
  - destruct (str_accessor_cases type) as [Hacc | Hacc].
    + rewrite (world_map_granted world df first_type type Ht Hacc).
      cbn [fst].
      assert (getitem (setitem df "Remedy Type" (map remedy_of type)) "Type"
              = Ok type) as Ht'
        by (rewrite getitem_setitem_other by discriminate; exact Ht).
      rewrite (world_map_granted world _ remedy_type type Ht' Hacc).
      rewrite (world_map_granted world df remedy_type type Ht Hacc).
      assert (setitem (setitem df "Remedy Type" (map remedy_of type))
                "Remedy Type" (map remedy_of type)
              = setitem df "Remedy Type" (map remedy_of type)) as ->.
      { unfold setitem. cbn [df_index df_columns].
        now rewrite set_column_twice. }
      reflexivity.
    + now rewrite (world_map_refused world df first_type type _ Ht Hacc).
  - unfold get_world_with_data at 2 3. rewrite Ht. cbn [fst].
    unfold get_world_with_data. now rewrite Ht.
Qed.

(** ** plot_world_map *)

Lemma label_row_cells (df : DataFrame) (count_column : value) (fontsize : Z)
    (i : nat) (counts geometries : list value) :
  getitem df count_column = Ok counts ->
  getitem df "geometry" = Ok geometries ->
  label_row df count_column fontsize i
  = cell_label fontsize (nth i counts VNaN) (nth i geometries VNaN).
Proof.
  intros Hc Hg. unfold label_row, cell_label, row_get.
  rewrite Hc, Hg. cbn [bind lift and_then].
  destruct (gt_zero (nth i counts VNaN)) as [[|]|e]; reflexivity.
Qed.

Lemma cell_label_expected (fontsize : Z) (count geometry : value) :
  is_int count -> is_geometry geometry ->
  cell_label fontsize count geometry
  = Done (if (0 <? count_of count)%Z
          then Some (mkText (wkt_of geometry) (py_str count) fontsize)
          else None).
Proof.
  intros (z & ->) (wkt & ->). unfold cell_label. cbn.
  now destruct (0 <? z)%Z.
Qed.

(** The loop over the rows [k], [k+1], ... of two columns of numbers and
    geometries. *)
Lemma label_rows_expected (df : DataFrame) (count_column : value)
    (fontsize : Z) (pre_c pre_g counts geometries : list value) :
  getitem df count_column = Ok (pre_c ++ counts)%list ->
  getitem df "geometry" = Ok (pre_g ++ geometries)%list ->
  List.length pre_c = List.length pre_g ->
  List.length counts = List.length geometries ->
  Forall is_int counts ->
  Forall is_geometry geometries ->
  label_rows df count_column fontsize
    (seq (List.length pre_c) (List.length counts))
  = Done (expected_labels fontsize counts geometries).
Proof.
  intros Hc Hg Hpre. revert pre_c pre_g geometries Hc Hg Hpre.
  induction counts as [|c counts IH];
    intros pre_c pre_g [|g geometries] Hc Hg Hpre Hlen Hci Hgi;
    try discriminate; [reflexivity|].
  cbn [List.length seq label_rows].
  rewrite (label_row_cells _ _ _ _ _ _ Hc Hg).
  rewrite app_nth2, Nat.sub_diag by apply Nat.le_refl.
  rewrite Hpre at 1. rewrite app_nth2, Nat.sub_diag by apply Nat.le_refl.
  cbn [nth].
  inversion Hci as [|? ? Hc1 Hci']; subst.
  inversion Hgi as [|? ? Hg1 Hgi']; subst.
  rewrite (cell_label_expected _ _ _ Hc1 Hg1). cbn [and_then].
  specialize (IH (pre_c ++ [c])%list (pre_g ++ [g])%list geometries).
  rewrite !length_app in IH. cbn [List.length] in IH.
  rewrite Nat.add_1_r in IH. rewrite IH.
  - cbn [and_then]. unfold expected_labels. cbn [combine filter fst snd].
    now destruct (0 <? count_of c)%Z.
  - now rewrite <- app_assoc.
  - now rewrite <- app_assoc.
  - rewrite ?length_app. cbn [List.length]. lia.
  - now injection Hlen.
  - exact Hci'.
  - exact Hgi'.
Qed.

Lemma setitem_nrows (df : DataFrame) (key : value) (column : list value) :
  nrows (setitem df key column) = nrows df.
Proof. reflexivity. Qed.

(** What [plot_counts] gives on a frame of numbers and geometries. *)
Lemma plot_counts_labels (count_column : value) (fontsize : Z)
    (title : string) (w : DataFrame) (path : string)
    (counts geometries : list value) :
  count_column <> VStr "color" ->
  getitem w count_column = Ok counts ->
  getitem w "geometry" = Ok geometries ->
  List.length counts = nrows w ->
  List.length geometries = nrows w ->
  Forall is_int counts ->
  Forall is_geometry geometries ->
  snd (plot_counts count_column fontsize title w path)
  = Done (mkFigure
            (combine geometries (repeat (VStr "#ffedcc") (nrows w)))
            (expected_labels fontsize counts geometries)
            title path).
Proof.
  intros Hcc Hc Hg Hlc Hlg Hci Hgi. unfold plot_counts. cbn [snd].
  rewrite getitem_setitem_same. cbn [lift and_then].
  rewrite getitem_setitem_other by discriminate. rewrite Hg.
  cbn [and_then]. rewrite setitem_nrows, <- Hlc.
  rewrite (label_rows_expected _ count_column fontsize [] [] counts
             geometries); try assumption; try reflexivity.
  - now rewrite getitem_setitem_other.
  - now rewrite getitem_setitem_other by discriminate.
  - congruence.
Qed.

Lemma setitem_wf (df : DataFrame) (key : value) (column : list value) :
  wf_frame df -> List.length column = nrows df ->
  wf_frame (setitem df key column).
Proof.
  unfold wf_frame. rewrite setitem_nrows. unfold setitem. cbn [df_columns].
  intros Hwf Hlen. induction Hwf as [|c cols Hc Hwf IH]; cbn [set_column].
  - now repeat constructor.
  - destruct (value_eqb (fst c) key); now constructor.
Qed.

(** X17: [plot_world_map], in either script, changes the frame it is given,
    and only by its [color] column: whether the plot succeeds or raises, the
    frame keeps its rows and its other columns, and its [color] column holds
    the same fill colour for every row. *)
Theorem X17_plot_colours_the_frame (remedy_type : string) (w : DataFrame)
    (path : string) :
  (let w' := fst (RecepientMap.plot_world_map remedy_type w path) in
   df_index w' = df_index w /\
   getitem w' "color" = Ok (repeat (VStr "#ffedcc") (nrows w)) /\
   (forall key, key <> VStr "color" -> getitem w' key = getitem w key) /\
   (wf_frame w -> wf_frame w'))
  /\ fst (WorldMap.plot_world_map remedy_type w path)
     = fst (RecepientMap.plot_world_map remedy_type w path).
Proof.
  split; [|reflexivity]. cbn [RecepientMap.plot_world_map plot_counts fst].
  split; [reflexivity|]. split; [apply getitem_setitem_same|]. split.
  - intros key Hkey. now apply getitem_setitem_other.
  - intros Hwf. apply setitem_wf; [exact Hwf | apply repeat_length].
Qed.

Lemma X17_plot_colours_the_frame_witness :
  getitem (fst (RecepientMap.plot_world_map "Anti-dumping" sample_joined
                  "map.png")) "case_count"
  = getitem sample_joined "case_count".
Proof.
  apply (proj1 (proj2 (proj2 (proj1
           (X17_plot_colours_the_frame "Anti-dumping" sample_joined
              "map.png"))))).
  discriminate.
Defined.

(** X18: on a frame whose count column holds numbers and whose [geometry]
    column holds geometries, one of each per row, [plot_world_map] saves the
    map: every geometry filled with the one colour, and one text for each row
    of positive count, in the order of the rows, giving the count in decimal
    at the geometry of the row; a row of count 0 gets no text.  The count
    column is [case_count] in add_cvd_recepient_map.py and the column of the
    remedy type in add_cvd_world_map.py. *)
Theorem X18_plot_labels_positive_counts (remedy_type : string)
    (w : DataFrame) (path : string) (counts geometries : list value) :
  getitem w "geometry" = Ok geometries ->
  List.length counts = nrows w ->
  List.length geometries = nrows w ->
  Forall is_int counts ->
  Forall is_geometry geometries ->
  (getitem w "case_count" = Ok counts ->
   snd (RecepientMap.plot_world_map remedy_type w path)
   = Done (mkFigure
             (combine geometries (repeat (VStr "#ffedcc") (nrows w)))
             (expected_labels 8 counts geometries)
             ("Number of " ++ remedy_type ++ " Cases suffered - country wise")
             path))
  /\ (remedy_type <> "color" ->
      getitem w remedy_type = Ok counts ->
      snd (WorldMap.plot_world_map remedy_type w path)
      = Done (mkFigure
                (combine geometries (repeat (VStr "#ffedcc") (nrows w)))
                (expected_labels 10 counts geometries)
                ("Use of " ++ remedy_type ++ " - Country/Region wise")
                path)).
Proof.
  intros Hg Hlc Hlg Hci Hgi. split.
  - intros Hc. apply plot_counts_labels; auto. discriminate.
  - intros Hne Hc. apply plot_counts_labels; auto. congruence.
Qed.

Lemma sample_counts_int :
  Forall is_int [VInt 0; VInt 1; VInt 0].
Proof. repeat constructor; eexists; reflexivity. Qed.

Lemma sample_geometries :
  Forall is_geometry
    [VGeom "POLYGON A"; VGeom "POLYGON B"; VGeom "POLYGON C"].
Proof. repeat constructor; eexists; reflexivity. Qed.

Lemma X18_plot_labels_positive_counts_witness :
  snd (RecepientMap.plot_world_map "Anti-dumping" sample_joined "map.png")
  = Done (mkFigure
            (combine [VGeom "POLYGON A"; VGeom "POLYGON B"; VGeom "POLYGON C"]
                     (repeat (VStr "#ffedcc") (nrows sample_joined)))
            (expected_labels 8 [VInt 0; VInt 1; VInt 0]
               [VGeom "POLYGON A"; VGeom "POLYGON B"; VGeom "POLYGON C"])
            ("Number of " ++ "Anti-dumping" ++ " Cases suffered - country wise")
            "map.png").
Proof.
  apply (proj1 (X18_plot_labels_positive_counts "Anti-dumping" sample_joined
                  "map.png" [VInt 0; VInt 1; VInt 0]
                  [VGeom "POLYGON A"; VGeom "POLYGON B"; VGeom "POLYGON C"]
                  eq_refl eq_refl eq_refl sample_counts_int
                  sample_geometries)).
  reflexivity.
Defined.

(** ** From the case table to the map *)

Lemma find_app_some {A : Type} (f : A -> bool) (l1 l2 : list A) (x : A) :
  find f l1 = Some x -> find f (l1 ++ l2) = Some x.
Proof.
  induction l1 as [|y l1 IH]; simpl; [discriminate|].
  destruct (f y); [trivial | exact IH].
Qed.

(** A column of the left frame, looked up in the merged frame under its own
    label. *)
Lemma getitem_merged_left (left right : DataFrame)
    (left_keys right_keys : list value) (key : value) (col : list value) :
  NoDup right_keys ->
  wf_frame left ->
  List.length left_keys = nrows left ->
  getitem left key = Ok col ->
  (forall l, In l (labels left) ->
             value_eqb (suffixed right "_x" l) key = value_eqb l key) ->
  getitem (fillna0 (merge_left left right left_keys right_keys)) key
  = Ok (map fill0 col).
Proof.
  intros Hnd Hwf Hlen Hcol Hlabels. unfold getitem in *.
  cbn [fillna0 merge_left df_columns]. rewrite map_app, !map_map.
  cbn [fst snd].
  destruct (find (fun c => value_eqb (fst c) key) (df_columns left))
    as [c|] eqn:E; [|discriminate].
  injection Hcol as <-.
  assert (List.length (snd c) = List.length left_keys) as Hc.
  { apply find_some in E as [Hin _]. unfold wf_frame in Hwf.
    rewrite Forall_forall in Hwf. rewrite (Hwf c Hin). now symmetry. }
  rewrite (find_app_some _ _ _
             (suffixed right "_x" (fst c),
              map fill0 (take_left (left_join_indexers left_keys right_keys)
                           (snd c)))).
  - cbn [snd]. now rewrite take_left_unique.
  - unfold labels in Hlabels.
    induction (df_columns left) as [|c' cols IH]; [discriminate|].
    cbn [map find fst] in *.
    rewrite (Hlabels (fst c')) by now left.
    destruct (value_eqb (fst c') key).
    + now injection E as ->.
    + apply IH; [exact E|]. intros l Hl. apply Hlabels. now right.
Qed.

Lemma map_fill0_geometries (geometries : list value) :
  Forall is_geometry geometries -> map fill0 geometries = geometries.
Proof.
  induction 1 as [|g l (wkt & ->) _ IH]; simpl; [reflexivity|].
  now rewrite IH.
Qed.

Lemma suffixed_counts_frame (sizes : list (value * Z)) (l key : value) :
  key <> VStr "Trading partners_x" -> key <> VStr "case_count_x" ->
  key <> VStr "Trading partners" -> key <> VStr "case_count" ->
  value_eqb (suffixed (reset_index "Trading partners" "case_count" sizes)
               "_x" l) key
  = value_eqb l key.
Proof.
  intros H1 H2 H3 H4. unfold suffixed, has_label, labels.
  cbn [reset_index df_columns map fst existsb]. rewrite orb_false_r.
  destruct (value_eqb l "Trading partners") eqn:E1.
  - apply value_eqb_eq in E1. subst l. cbn [orb py_str append].
    rewrite !(proj2 (value_eqb_neq _ _)); congruence.
  - destruct (value_eqb l "case_count") eqn:E2; [|reflexivity].
    apply value_eqb_eq in E2. subst l. cbn [orb py_str append].
    rewrite !(proj2 (value_eqb_neq _ _)); congruence.
Qed.

(** The frame [get_world_with_data_trading_partners] returns, with its count
    and geometry columns. *)
Lemma trading_partners_map_columns (world df : DataFrame)
    (remedy_type : string) (type partners names geometries : list value) :
  wf_frame world ->
  has_label world "case_count" = false ->
  getitem df "Type" = Ok type ->
  has_text type ->
  getitem df "Trading partners" = Ok partners ->
  getitem world "name" = Ok names ->
  getitem world "geometry" = Ok geometries ->
  exists r,
    snd (get_world_with_data_trading_partners world df remedy_type) = Ok r /\
    nrows r = nrows world /\
    getitem r "case_count"
    = Ok (map (fun name =>
                 VInt (occurrences
                         (present_keys
                            (mask_select
                               (contains_mask remedy_type type)
                               partners))
                         name))
              names) /\
    getitem r "geometry" = Ok (map fill0 geometries).
Proof.
  intros Hwf Hw Ht Htext Hp Hn Hg.
  unfold get_world_with_data_trading_partners, trading_partners_count.
  cbn [snd]. rewrite (filter_remedy_granted _ _ _ Ht Htext). cbn [bind].
  rewrite getitem_mask_getitem, Hp. cbn [bind].
  rewrite getitem_reset_index_key. cbn [bind]. rewrite Hn. cbn [bind].
  eexists. split; [reflexivity|].
  pose proof (wf_frame_getitem world "name" names Hwf Hn) as Hlen.
  set (kept := mask_select (contains_mask remedy_type type) partners).
  split; [|split].
  - unfold nrows at 1. cbn [fillna0 merge_left df_index].
    rewrite RangeIndex_length, join_length; [exact Hlen|].
    apply groupby_size_NoDup.
  - rewrite (trading_partners_case_count world kept names Hw).
    f_equal. apply map_ext. intros name. apply joined_group_size.
  - apply getitem_merged_left; auto using groupby_size_NoDup.
    intros l _. apply suffixed_counts_frame; discriminate.
Qed.

(** X19: from the case table to the image, in add_cvd_recepient_map.py: with
    the columns the script reads present, [Type] holding text and the
    partners being text, a remedy type without metacharacters, the map table
    well formed, its [geometry] column holding geometries and no column of it
    named [case_count], the map saved for a remedy type carries one text for
    each entity whose name is the trading partner of at least one row of that
    remedy type, namely the number of those rows, at the entity's geometry,
    and no other text. *)
Theorem X19_map_shows_cases_per_partner (world df : DataFrame)
    (remedy_type path : string) (type partners names geometries : list value) :
  wf_frame world ->
  has_label world "case_count" = false ->
  getitem df "Type" = Ok type ->
  has_text type ->
  literal_pattern remedy_type = true ->
  getitem df "Trading partners" = Ok partners ->
  text_or_missing partners = true ->
  getitem world "name" = Ok names ->
  getitem world "geometry" = Ok geometries ->
  Forall is_geometry geometries ->
  exists r,
    snd (get_world_with_data_trading_partners world df remedy_type) = Ok r /\
    snd (RecepientMap.plot_world_map remedy_type r path)
    = Done (mkFigure
              (combine geometries (repeat (VStr "#ffedcc") (nrows world)))
              (expected_labels 8
                 (map (fun name =>
                         VInt (occurrences
                                 (present_keys
                                    (mask_select
                                       (contains_mask remedy_type
                                          type)
                                       partners))
                                 name))
                      names)
                 geometries)
              ("Number of " ++ remedy_type ++ " Cases suffered - country wise")
              path).
Proof.
  intros Hwf Hw Ht Htext _ Hp _ Hn Hg Hgi.
  destruct (trading_partners_map_columns world df remedy_type type partners
              names geometries Hwf Hw Ht Htext Hp Hn Hg)
    as (r & Hr & Hrows & Hc & Hgeo).
  exists r. split; [exact Hr|].
  rewrite map_fill0_geometries in Hgeo by assumption.
  unfold RecepientMap.plot_world_map.
  erewrite (plot_counts_labels _ _ _ r path _ geometries);
    [|discriminate | exact Hc | exact Hgeo | | | | exact Hgi].
  - now rewrite Hrows.
  - rewrite length_map, Hrows. now apply (wf_frame_getitem world "name").
  - rewrite Hrows. now apply (wf_frame_getitem world "geometry").
  - apply Forall_forall. intros v Hv.
    apply in_map_iff in Hv as (name & <- & _). eexists. reflexivity.
Qed.

Lemma X19_map_shows_cases_per_partner_witness :
  exists r,
    snd (get_world_with_data_trading_partners sample_world sample_cases
           "Anti-dumping") = Ok r /\
    snd (RecepientMap.plot_world_map "Anti-dumping" r "map.png")
    = Done (mkFigure
              (combine
                 [VGeom "POLYGON A"; VGeom "POLYGON B"; VGeom "POLYGON C"]
                 (repeat (VStr "#ffedcc") (nrows sample_world)))
              (expected_labels 8
                 (map (fun name =>
                         VInt (occurrences
                                 (present_keys
                                    (mask_select
                                       (contains_mask "Anti-dumping"
                                          [VStr "Anti-dumping";
                                           VStr "Anti-dumping";
                                           VStr "Anti-dumping";
                                           VStr "Countervailing"])
                                       [VStr "China"; VStr "Korea";
                                        VStr "Korea"; VStr "China"]))
                                 name))
                      [VStr "India"; VStr "China"; VStr "Brazil"])
                 [VGeom "POLYGON A"; VGeom "POLYGON B"; VGeom "POLYGON C"])
              ("Number of " ++ "Anti-dumping"
               ++ " Cases suffered - country wise")
              "map.png").
Proof.
  apply (X19_map_shows_cases_per_partner sample_world sample_cases
           "Anti-dumping" "map.png");
    try reflexivity;
    [apply sample_world_wf | exists "Anti-dumping"; simpl; now left
    | apply sample_geometries].
Defined.

(** ** The entry points of the map scripts *)

Section MapLoop.
Variable get : DataFrame -> string -> DataFrame * result DataFrame.
Variable plot : string -> DataFrame -> string -> DataFrame * outcome figure.
Variables path message : string -> string.

Lemma map_loop_raise (df df' : DataFrame) (remedy_type : string)
    (rest : list string) (done : run) (e : exn) :
  get df remedy_type = (df', Raise e) ->
  map_loop get plot path message df (remedy_type :: rest) done
  = (df', done, Some (Raised e)).
Proof. intros H. cbn [map_loop]. now rewrite H. Qed.

Lemma map_loop_next (df df' w : DataFrame) (remedy_type : string)
    (rest : list string) (done : run) (fig : figure) :
  get df remedy_type = (df', Ok w) ->
  snd (plot remedy_type w (path remedy_type)) = Done fig ->
  map_loop get plot path message df (remedy_type :: rest) done
  = map_loop get plot path message df' rest
      (mkRun (run_files done ++ [fig])
             (run_printed done ++ [message remedy_type])).
Proof. intros H Hp. cbn [map_loop]. now rewrite H, Hp. Qed.
End MapLoop.

(** X20: [main] of add_cvd_recepient_map.py, on a sheet with the columns
    [Type] (holding text) and [Trading partners] (text) and a well-formed map
    table with [name] and [geometry] (geometries) and no [case_count]: it ends
    without exception,
    leaves the sheet as it was, and writes two images, first the anti-dumping
    map then the countervailing map, each with the counts of its remedy type,
    announcing each after it is saved. *)
Theorem X20_recepient_main_writes_two_maps (world df : DataFrame)
    (type partners names geometries : list value) :
  wf_frame world ->
  has_label world "case_count" = false ->
  getitem df "Type" = Ok type ->
  has_text type ->
  getitem df "Trading partners" = Ok partners ->
  text_or_missing partners = true ->
  getitem world "name" = Ok names ->
  getitem world "geometry" = Ok geometries ->
  Forall is_geometry geometries ->
  RecepientMap.main world df
  = (df,
     mkRun
       [recepient_figure "Anti-dumping" type partners names geometries;
        recepient_figure "Countervailing" type partners names geometries]
       [RecepientMap.message "Anti-dumping";
        RecepientMap.message "Countervailing"],
     None)
  /\ RecepientMap.output_path "Anti-dumping"
     = "trade_remedy_analysis/world_map_anti-dumping_against_trading_partners.png"
  /\ RecepientMap.output_path "Countervailing"
     = "trade_remedy_analysis/world_map_countervailing_against_trading_partners.png".
Proof.
  intros Hwf Hw Ht Htext Hp _ Hn Hg Hgi. split; [|split; reflexivity].
  pose proof (wf_frame_getitem world "geometry" geometries Hwf Hg) as Hlen.
  assert (forall remedy_type,
             exists r,
               get_world_with_data_trading_partners world df remedy_type
               = (df, Ok r) /\
               snd (RecepientMap.plot_world_map remedy_type r
                      (RecepientMap.output_path remedy_type))
               = Done (recepient_figure remedy_type type partners names
                         geometries)) as Hstep.
  { intros remedy_type.
    destruct (trading_partners_map_columns world df remedy_type type partners
                names geometries Hwf Hw Ht Htext Hp Hn Hg)
      as (r & Hr & Hrows & Hc & Hgeo).
    exists r. split.
    - unfold get_world_with_data_trading_partners in *. cbn [snd] in Hr.
      now rewrite Hr.
    - rewrite map_fill0_geometries in Hgeo by assumption.
      unfold RecepientMap.plot_world_map, recepient_figure.
      erewrite (plot_counts_labels _ _ _ r _ _ geometries);
        [|discriminate | exact Hc | exact Hgeo | | | | exact Hgi].
      + now rewrite Hrows, Hlen.
      + rewrite length_map, Hrows.
        now apply (wf_frame_getitem world "name").
      + now rewrite Hrows.
      + apply Forall_forall. intros v Hv.
        apply in_map_iff in Hv as (name & <- & _). eexists. reflexivity. }
  unfold RecepientMap.main.
  destruct (Hstep "Anti-dumping") as (r1 & Hr1 & Hp1).
  destruct (Hstep "Countervailing") as (r2 & Hr2 & Hp2).
  rewrite (map_loop_next _ _ _ _ _ _ _ _ _ _ _ Hr1 Hp1).
  rewrite (map_loop_next _ _ _ _ _ _ _ _ _ _ _ Hr2 Hp2).
  reflexivity.
Qed.

Lemma X20_recepient_main_writes_two_maps_witness :
  RecepientMap.main sample_world sample_cases
  = (sample_cases,
     mkRun
       [recepient_figure "Anti-dumping"
          [VStr "Anti-dumping"; VStr "Anti-dumping"; VStr "Anti-dumping";
           VStr "Countervailing"]
          [VStr "China"; VStr "Korea"; VStr "Korea"; VStr "China"]
          [VStr "India"; VStr "China"; VStr "Brazil"]
          [VGeom "POLYGON A"; VGeom "POLYGON B"; VGeom "POLYGON C"];
        recepient_figure "Countervailing"
          [VStr "Anti-dumping"; VStr "Anti-dumping"; VStr "Anti-dumping";
           VStr "Countervailing"]
          [VStr "China"; VStr "Korea"; VStr "Korea"; VStr "China"]
          [VStr "India"; VStr "China"; VStr "Brazil"]
          [VGeom "POLYGON A"; VGeom "POLYGON B"; VGeom "POLYGON C"]]
       [RecepientMap.message "Anti-dumping";
        RecepientMap.message "Countervailing"],
     None)
  /\ RecepientMap.output_path "Anti-dumping"
     = "trade_remedy_analysis/world_map_anti-dumping_against_trading_partners.png"
  /\ RecepientMap.output_path "Countervailing"
     = "trade_remedy_analysis/world_map_countervailing_against_trading_partners.png".
Proof.
  apply (X20_recepient_main_writes_two_maps sample_world sample_cases);
    try reflexivity;
    [apply sample_world_wf | exists "Anti-dumping"; simpl; now left
    | apply sample_geometries].
Defined.

Lemma setitem_twice (df : DataFrame) (key : value) (column : list value) :
  setitem (setitem df key column) key column = setitem df key column.
Proof.
  unfold setitem. cbn [df_index df_columns]. now rewrite set_column_twice.
Qed.

Lemma world_map_pair (world df : DataFrame) (remedy_type : string)
    (type : list value) :
  getitem df "Type" = Ok type ->
  str_accessor type = Ok type ->
  get_world_with_data world df remedy_type
  = (setitem df "Remedy Type" (map remedy_of type),
     snd (get_world_with_data world df remedy_type)).
Proof.
  intros Ht Hacc. now rewrite (world_map_granted _ _ _ _ Ht Hacc).
Qed.

Lemma is_label (df : DataFrame) (key : value) (col : list value) :
  getitem df key = Ok col -> In key (labels df).
Proof.
  intros H. apply getitem_In in H. now apply (in_map fst) in H.
Qed.

Lemma suffixed_single (world : DataFrame) (label l : value)
    (index col : list value) :
  has_label world label = false ->
  In l (labels world) ->
  suffixed {| df_index := index; df_columns := [(label, col)] |} "_x" l = l.
Proof.
  intros Hw Hl. apply suffixed_absent.
  unfold has_label, labels. cbn [df_columns map fst existsb].
  rewrite orb_false_r. apply value_eqb_neq.
  now apply (has_label_false world).
Qed.

(** The frame [get_world_with_data] returns, with its count and geometry
    columns. *)
Lemma world_map_columns (world df : DataFrame) (remedy_type : string)
    (type members names geometries : list value) (r : DataFrame) :
  wf_frame world ->
  has_label world remedy_type = false ->
  getitem df "Type" = Ok type ->
  getitem df "Member/Observer" = Ok members ->
  getitem world "name" = Ok names ->
  getitem world "geometry" = Ok geometries ->
  snd (get_world_with_data world df remedy_type) = Ok r ->
  nrows r = nrows world /\
  getitem r remedy_type = Ok (member_counts remedy_type type members names) /\
  getitem r "geometry" = Ok (map fill0 geometries).
Proof.
  intros Hwf Hw Ht Hm Hn Hg.
  destruct (str_accessor_cases type) as [Hacc | Hacc];
    [|now rewrite (world_map_refused _ _ _ _ _ Ht Hacc)].
  rewrite (world_map_unfold _ _ _ _ _ Ht Hacc Hm).
  unfold getitem_list1.
  set (sizes := groupby2_size members (map remedy_of type)).
  destruct (getitem (unstack 0 sizes) remedy_type) as [col|e] eqn:Hc;
    [|discriminate].
  cbn [bind]. unfold join_world. rewrite Hn. cbn [bind]. intros [= <-].
  pose proof (unstack_index_NoDup 0 sizes) as Hnd.
  pose proof (wf_frame_getitem world "name" names Hwf Hn) as Hlen.
  cbn [df_index]. split; [|split].
  - unfold nrows at 1. cbn [fillna0 merge_left df_index].
    now rewrite RangeIndex_length, join_length.
  - etransitivity;
      [exact (world_map_count world remedy_type _ col names Hw Hnd)|].
    f_equal. unfold member_counts. apply map_ext. intros name.
    apply getitem_unstack in Hc. subst col. unfold joined_row.
    destruct (in_dec value_eq_dec name (df_index (unstack 0 sizes)))
      as [Hin | Hout].
    + apply In_nth_error in Hin as (j & Hj).
      rewrite (positions_present _ _ 0 j Hnd Hj). cbn [hd_error Nat.add].
      rewrite (nth_error_nth _ _ VNaN
                 (x := VInt (pair_occurrences
                               (present_pairs members (map remedy_of type))
                               (name, VStr remedy_type)))).
      * reflexivity.
      * rewrite nth_error_map, Hj. cbn [option_map]. f_equal.
        apply unstack_cell.
    + rewrite positions_absent by assumption. cbn [hd_error fill0 isna].
      unfold pair_occurrences.
      rewrite (proj1 (count_occ_not_In pair_eq_dec _ _)); [reflexivity|].
      intros Hin. apply Hout. apply unstack_index_In.
      now exists (VStr remedy_type).
  - apply getitem_merged_left; auto.
    intros l Hl. now rewrite (suffixed_single world remedy_type l).
Qed.

Lemma world_map_returns (world df : DataFrame) (remedy_type : string)
    (type members names : list value) :
  getitem df "Type" = Ok type ->
  str_accessor type = Ok type ->
  getitem df "Member/Observer" = Ok members ->
  getitem world "name" = Ok names ->
  (exists m, In (m, VStr remedy_type)
                (present_pairs members (map remedy_of type))) ->
  exists r, snd (get_world_with_data world df remedy_type) = Ok r.
Proof.
  intros Ht Hacc Hm Hn Hex. rewrite (world_map_unfold _ _ _ _ _ Ht Hacc Hm).
  unfold getitem_list1. apply unstack_label_In in Hex.
  destruct (getitem_unstack_present 0 _ _ Hex) as (col & ->).
  cbn [bind]. unfold join_world. rewrite Hn. cbn [bind].
  eexists. reflexivity.
Qed.

Lemma world_map_raises (world df : DataFrame) (remedy_type : string)
    (type members : list value) :
  getitem df "Type" = Ok type ->
  str_accessor type = Ok type ->
  getitem df "Member/Observer" = Ok members ->
  (forall m, ~ In (m, VStr remedy_type)
                 (present_pairs members (map remedy_of type))) ->
  snd (get_world_with_data world df remedy_type)
  = Raise (KeyErrorNoneOf [VStr remedy_type]).
Proof.
  intros Ht Hacc Hm Hnone. rewrite (world_map_unfold _ _ _ _ _ Ht Hacc Hm).
  unfold getitem_list1. rewrite getitem_unstack_absent; [reflexivity|].
  intros Hin. apply unstack_label_In in Hin as (m & Hin).
  exact (Hnone m Hin).
Qed.

(** One turn of the loop of add_cvd_world_map.py for a remedy type that some
    row with a member has. *)
Lemma world_map_turn (world df : DataFrame) (remedy_type : string)
    (type members names geometries : list value) :
  wf_frame world ->
  has_label world remedy_type = false ->
  getitem df "Type" = Ok type ->
  str_accessor type = Ok type ->
  getitem df "Member/Observer" = Ok members ->
  getitem world "name" = Ok names ->
  getitem world "geometry" = Ok geometries ->
  Forall is_geometry geometries ->
  remedy_type <> "color" ->
  (exists m, In (m, VStr remedy_type)
                (present_pairs members (map remedy_of type))) ->
  exists r,
    get_world_with_data world df remedy_type
    = (setitem df "Remedy Type" (map remedy_of type), Ok r) /\
    snd (WorldMap.plot_world_map remedy_type r
           (WorldMap.output_path remedy_type))
    = Done (member_figure remedy_type type members names geometries).
Proof.
  intros Hwf Hw Ht Hacc Hm Hn Hg Hgi Hcolor Hex.
  destruct (world_map_returns world df remedy_type type members names
              Ht Hacc Hm Hn Hex) as (r & Hr).
  destruct (world_map_columns world df remedy_type type members names
              geometries r Hwf Hw Ht Hm Hn Hg Hr) as (Hrows & Hc & Hgeo).
  pose proof (wf_frame_getitem world "geometry" geometries Hwf Hg) as Hlen.
  exists r. split.
  - rewrite (world_map_pair _ _ _ _ Ht Hacc). now rewrite Hr.
  - rewrite map_fill0_geometries in Hgeo by assumption.
    unfold WorldMap.plot_world_map, member_figure.
    erewrite (plot_counts_labels _ _ _ r _ _ geometries);
      [| | exact Hc | exact Hgeo | | | | exact Hgi].
    + now rewrite Hrows, Hlen.
    + congruence.
    + unfold member_counts. rewrite length_map, Hrows.
      now apply (wf_frame_getitem world "name").
    + now rewrite Hrows.
    + apply Forall_forall. intros v Hv.
      apply in_map_iff in Hv as (name & <- & _). eexists. reflexivity.
Qed.

(** X21: [main] of add_cvd_world_map.py, on a sheet with the columns [Type]
    (holding text) and [Member/Observer] (text) and a well-formed map table
    with [name] and [geometry] (geometries) and no column named like a remedy
    type.  It adds the [Remedy Type] column to the sheet, then: without an
    anti-dumping row that has a member it writes nothing and ends with the
    [KeyError] of the selection of [Anti-dumping]; with one, but no such
    countervailing row, it writes the anti-dumping map and ends with the
    [KeyError] of the selection of [Countervailing]; with both it writes the
    two maps and ends without exception. *)
Theorem X21_world_main_outcomes (world df : DataFrame)
    (type members names geometries : list value) :
  wf_frame world ->
  has_label world "Anti-dumping" = false ->
  has_label world "Countervailing" = false ->
  getitem df "Type" = Ok type ->
  has_text type ->
  getitem df "Member/Observer" = Ok members ->
  text_or_missing members = true ->
  getitem world "name" = Ok names ->
  getitem world "geometry" = Ok geometries ->
  Forall is_geometry geometries ->
  let pairs := present_pairs members (map remedy_of type) in
  let df' := setitem df "Remedy Type" (map remedy_of type) in
  let anti_dumping :=
    member_figure "Anti-dumping" type members names geometries in
  let countervailing :=
    member_figure "Countervailing" type members names geometries in
  ((forall m, ~ In (m, VStr "Anti-dumping") pairs) ->
   WorldMap.main world df
   = (df', mkRun [] [],
      Some (Raised (KeyErrorNoneOf [VStr "Anti-dumping"]))))
  /\ ((exists m, In (m, VStr "Anti-dumping") pairs) ->
      (forall m, ~ In (m, VStr "Countervailing") pairs) ->
      WorldMap.main world df
      = (df', mkRun [anti_dumping] [WorldMap.message "Anti-dumping"],
         Some (Raised (KeyErrorNoneOf [VStr "Countervailing"]))))
  /\ ((exists m, In (m, VStr "Anti-dumping") pairs) ->
      (exists m, In (m, VStr "Countervailing") pairs) ->
      WorldMap.main world df
      = (df',
         mkRun [anti_dumping; countervailing]
               [WorldMap.message "Anti-dumping";
                WorldMap.message "Countervailing"],
         None)).
Proof.
  intros Hwf Had Hcv Ht Htext Hm _ Hn Hg Hgi
    pairs df' anti_dumping countervailing.
  pose proof (str_accessor_text _ Htext) as Hacc.
  assert (getitem df' "Type" = Ok type) as Ht'
    by (unfold df'; now rewrite getitem_setitem_other by discriminate).
  assert (getitem df' "Member/Observer" = Ok members) as Hm'
    by (unfold df'; now rewrite getitem_setitem_other by discriminate).
  assert (setitem df' "Remedy Type" (map remedy_of type) = df') as Hsame
    by apply setitem_twice.
  unfold WorldMap.main. split; [|split].
  - intros Hnone.
    apply map_loop_raise. rewrite (world_map_pair _ _ _ _ Ht Hacc).
    now rewrite (world_map_raises _ _ _ _ _ Ht Hacc Hm Hnone).
  - intros Hex Hnone.
    destruct (world_map_turn world df "Anti-dumping" type members names
                geometries Hwf Had Ht Hacc Hm Hn Hg Hgi) as (r & Hr & Hp);
      [discriminate | exact Hex|].
    rewrite (map_loop_next _ _ _ _ _ _ _ _ _ _ _ Hr Hp).
    apply map_loop_raise. rewrite (world_map_pair _ _ _ _ Ht' Hacc), Hsame.
    now rewrite (world_map_raises _ _ _ _ _ Ht' Hacc Hm' Hnone).
  - intros Hex Hex'.
    destruct (world_map_turn world df "Anti-dumping" type members names
                geometries Hwf Had Ht Hacc Hm Hn Hg Hgi) as (r & Hr & Hp);
      [discriminate | exact Hex|].
    destruct (world_map_turn world df' "Countervailing" type members names
                geometries Hwf Hcv Ht' Hacc Hm' Hn Hg Hgi)
      as (r' & Hr' & Hp');
      [discriminate | exact Hex'|].
    rewrite Hsame in Hr'.
    rewrite (map_loop_next _ _ _ _ _ _ _ _ _ _ _ Hr Hp).
    rewrite (map_loop_next _ _ _ _ _ _ _ _ _ _ _ Hr' Hp').
    reflexivity.
Qed.

Lemma X21_world_main_outcomes_witness :
  WorldMap.main sample_world countervailing_only
  = (setitem countervailing_only "Remedy Type"
       (map remedy_of
          [VStr "Countervailing"; VStr "Definitive / Countervailing"]),
     mkRun [] [],
     Some (Raised (KeyErrorNoneOf [VStr "Anti-dumping"])))
  /\ WorldMap.main sample_world anti_dumping_only
     = (setitem anti_dumping_only "Remedy Type"
          (map remedy_of [VStr "Anti-dumping"; VStr "Anti-dumping"]),
        mkRun
          [member_figure "Anti-dumping"
             [VStr "Anti-dumping"; VStr "Anti-dumping"]
             [VStr "India"; VStr "Brazil"]
             [VStr "India"; VStr "China"; VStr "Brazil"]
             [VGeom "POLYGON A"; VGeom "POLYGON B"; VGeom "POLYGON C"]]
          [WorldMap.message "Anti-dumping"],
        Some (Raised (KeyErrorNoneOf [VStr "Countervailing"])))
  /\ WorldMap.main sample_world sample_cases
     = (setitem sample_cases "Remedy Type"
          (map remedy_of
             [VStr "Anti-dumping"; VStr "Anti-dumping"; VStr "Anti-dumping";
              VStr "Countervailing"]),
        mkRun
          [member_figure "Anti-dumping"
             [VStr "Anti-dumping"; VStr "Anti-dumping"; VStr "Anti-dumping";
              VStr "Countervailing"]
             [VStr "India"; VStr "India"; VStr "Brazil"; VStr "India"]
             [VStr "India"; VStr "China"; VStr "Brazil"]
             [VGeom "POLYGON A"; VGeom "POLYGON B"; VGeom "POLYGON C"];
           member_figure "Countervailing"
             [VStr "Anti-dumping"; VStr "Anti-dumping"; VStr "Anti-dumping";
              VStr "Countervailing"]
             [VStr "India"; VStr "India"; VStr "Brazil"; VStr "India"]
             [VStr "India"; VStr "China"; VStr "Brazil"]
             [VGeom "POLYGON A"; VGeom "POLYGON B"; VGeom "POLYGON C"]]
          [WorldMap.message "Anti-dumping";
           WorldMap.message "Countervailing"],
        None).
Proof.
  split; [|split].
  - apply (proj1
             (X21_world_main_outcomes sample_world countervailing_only
                [VStr "Countervailing"; VStr "Definitive / Countervailing"]
                [VStr "India"; VStr "Brazil"]
                [VStr "India"; VStr "China"; VStr "Brazil"]
                [VGeom "POLYGON A"; VGeom "POLYGON B"; VGeom "POLYGON C"]
                sample_world_wf eq_refl eq_refl eq_refl
                (ex_intro _ "Countervailing" (or_introl eq_refl))
                eq_refl eq_refl eq_refl eq_refl sample_geometries)).
    intros m H. vm_compute in H.
    repeat (destruct H as [H | H]; [discriminate H|]). exact H.
  - apply (proj1 (proj2
             (X21_world_main_outcomes sample_world anti_dumping_only
                [VStr "Anti-dumping"; VStr "Anti-dumping"]
                [VStr "India"; VStr "Brazil"]
                [VStr "India"; VStr "China"; VStr "Brazil"]
                [VGeom "POLYGON A"; VGeom "POLYGON B"; VGeom "POLYGON C"]
                sample_world_wf eq_refl eq_refl eq_refl
                (ex_intro _ "Anti-dumping" (or_introl eq_refl))
                eq_refl eq_refl eq_refl eq_refl sample_geometries))).
    + exists (VStr "India"). vm_compute. auto.
    + intros m H. vm_compute in H.
      repeat (destruct H as [H | H]; [discriminate H|]). exact H.
  - apply (proj2 (proj2
             (X21_world_main_outcomes sample_world sample_cases
                [VStr "Anti-dumping"; VStr "Anti-dumping";
                 VStr "Anti-dumping"; VStr "Countervailing"]
                [VStr "India"; VStr "India"; VStr "Brazil"; VStr "India"]
                [VStr "India"; VStr "China"; VStr "Brazil"]
                [VGeom "POLYGON A"; VGeom "POLYGON B"; VGeom "POLYGON C"]
                sample_world_wf eq_refl eq_refl eq_refl
                (ex_intro _ "Anti-dumping" (or_introl eq_refl))
                eq_refl eq_refl eq_refl eq_refl sample_geometries))).
    + exists (VStr "India"). vm_compute. auto.
    + exists (VStr "India"). vm_compute. auto.
Defined.

(** ** get_top_partners: chapters that get a partner *)

Lemma mask_select_kept {A : Type} (mask : list bool) (l : list A) (i : nat)
    (x : A) :
  nth_error mask i = Some true -> nth_error l i = Some x ->
  In x (mask_select mask l).
Proof.
  revert l i. induction mask as [|b mask IH]; intros [|y l] [|i]; simpl;
    try discriminate.
  - intros [= ->] [= ->]. now left.
  - intros Hm Hl. destruct b; [right|]; eapply IH; eassumption.
Qed.

Lemma most_common_nonempty {K : Type} (n : Z) (c : list (K * Z)) :
  (0 < n)%Z -> c <> [] -> most_common (Some n) c <> [].
Proof.
  intros Hn Hc. simpl. pose proof (sorted_desc_length c) as Hlen.
  destruct (sorted_desc c) as [|x l].
  - destruct c; [congruence | discriminate].
  - destruct (Z.to_nat n) eqn:E; [lia | discriminate].
Qed.

(** X22: for a positive N and a well-formed table, a chapter without
    regular-expression metacharacters that is a token of the
    [Product chapters] text of some row gets a ranking with at least one
    partner: the row itself is among those counted. *)
Theorem X22_chapter_of_a_row_has_partner (data : DataFrame)
    (chapters : list string) (top_n : Z)
    (d : list (string * list (value * Z))) (chapter : string)
    (ranking : list (value * Z)) (product_chapters : list value)
    (s : string) :
  (0 < top_n)%Z ->
  wf_frame data ->
  literal_pattern chapter = true ->
  get_top_partners data chapters top_n = Ok d ->
  In (chapter, ranking) d ->
  getitem data "Product chapters" = Ok product_chapters ->
  In (VStr s) product_chapters ->
  In chapter (clean_and_split [VStr s]) ->
  ranking <> [].
Proof.
  intros Hn Hwf _ Hd Hin Hpc Hs Htoken.
  destruct (get_top_partners_entries _ _ _ _ _ _ Hd Hin)
    as (partners & Hp & ->).
  apply chapter_partners_inv in Hp as (pc & tp & Hpc' & _ & Htp & ->).
  rewrite Hpc in Hpc'. injection Hpc' as <-.
  apply In_nth_error in Hs as (i & Hi).
  assert (i < List.length tp) as Hlt.
  { rewrite (wf_frame_getitem _ _ _ Hwf Htp),
      <- (wf_frame_getitem _ _ _ Hwf Hpc).
    apply nth_error_Some. congruence. }
  destruct (nth_error tp i) as [x|] eqn:Hx;
    [|apply nth_error_None in Hx; lia].
  assert (In x (mask_select (contains_mask chapter product_chapters)
                  tp)) as Hkept.
  { apply (mask_select_kept _ _ i); [|exact Hx].
    unfold contains_mask. rewrite nth_error_map, Hi.
    cbn [option_map str_contains]. f_equal.
    apply str_find_true_iff. now apply (token_substring (VStr s)). }
  apply most_common_nonempty; [exact Hn|].
  intros Hempty.
  apply (Counter_keys_In value_eqb value_eqb_eq) in Hkept.
  now rewrite Hempty in Hkept.
Qed.

Lemma X22_chapter_of_a_row_has_partner_witness :
  [(VStr "Korea", 1%Z)] <> [].
Proof.
  apply (X22_chapter_of_a_row_has_partner sample_cases ["73"] 3%Z
           [("73", [(VStr "Korea", 1%Z)])] "73" [(VStr "Korea", 1%Z)]
           [VStr "72"; VStr "72, 73"; VStr "72"; VStr "29"] "72, 73").
  - lia.
  - repeat constructor.
  - reflexivity.
  - reflexivity.
  - simpl. auto.
  - reflexivity.
  - simpl. auto.
  - simpl. auto.
Defined.
